(** * Amazon SES webhooks of django-anymail: a shallow embedding

    The module [anymail/webhooks/amazon_ses.py] receives Amazon SNS
    notifications over HTTP, validates the SNS envelope, confirms SNS
    subscriptions and turns the SES event carried by a Notification into
    one [AnymailTrackingEvent] per affected recipient.

    Python values that come out of [json.loads] are modelled by the type
    [json]; a Python [str] is a Rocq [string] with one character per code
    point (code points below 256).  Exceptions are values of [exn] carried by
    [result]; the request object and the outbound HTTP traffic are threaded
    explicitly through a small state-and-exception monad. *)

From Stdlib Require Import List String Ascii Bool ZArith Lia DecimalString.
From Stdlib Require Strings.Byte.
Import ListNotations.
Local Open Scope string_scope.
Local Open Scope list_scope.
Set Warnings "-register-all".


(** ** Values *)

(** What [json.loads] returns: [None], [bool], [int], [float], [str], [list]
    and [dict] (insertion ordered, string keys).  A float is kept as the
    literal it was read from: the module never computes with numbers. *)
Inductive json : Type :=
| JNull
| JBool (b : bool)
| JInt (n : Z)
| JFloat (literal : string)
| JStr (s : string)
| JArr (items : list json)
| JObj (fields : list (string * json)).

(** The builtin exception classes the module can meet, and [requests]'
    own. *)
Inductive builtin_exn : Type :=
| TypeError
| ValueError
| UnicodeDecodeError
| KeyError
| AttributeError
| LookupError
| NotImplementedError
| RequestException.

(** [AnymailWebhookValidationFailure(message, raised_from=err)] is the only
    exception class the module raises itself. *)
Inductive exn : Type :=
| Builtin (e : builtin_exn)
| AnymailWebhookValidationFailure (message : string)
                                  (raised_from : option builtin_exn).

Inductive result (A : Type) : Type :=
| Ok (a : A)
| Raise (e : exn).
Arguments Ok {A} a.
Arguments Raise {A} e.

(** [isinstance(e, cls)] for the classes named in [except] clauses:
    [UnicodeDecodeError] derives from [ValueError], [KeyError] from
    [LookupError]. *)
Definition isinstance (e : builtin_exn) (cls : builtin_exn) : bool :=
  match e, cls with
  | TypeError, TypeError => true
  | ValueError, ValueError => true
  | UnicodeDecodeError, UnicodeDecodeError => true
  | UnicodeDecodeError, ValueError => true
  | KeyError, KeyError => true
  | KeyError, LookupError => true
  | AttributeError, AttributeError => true
  | LookupError, LookupError => true
  | NotImplementedError, NotImplementedError => true
  | RequestException, RequestException => true
  | _, _ => false
  end.

(** Does an [except (c1, c2, ...)] clause catch [e]?  The validation failure
    is none of the builtin classes. *)
Definition caught_by (classes : list builtin_exn) (e : exn) : bool :=
  match e with
  | Builtin b => existsb (isinstance b) classes
  | AnymailWebhookValidationFailure _ _ => false
  end.

Definition is_validation_failure (e : exn) : bool :=
  match e with
  | AnymailWebhookValidationFailure _ _ => true
  | Builtin _ => false
  end.

(** The exception part of the monad: sequencing and [try/except]. *)
Definition rbind {A B} (r : result A) (k : A -> result B) : result B :=
  match r with
  | Ok a => k a
  | Raise e => Raise e
  end.

Declare Scope result_scope.
Delimit Scope result_scope with result.
Notation "x <- c ;; k" := (rbind c (fun x => k))
  (at level 61, c at next level, right associativity) : result_scope.

(** [try: r  except classes: handler] *)
Definition try_except {A} (r : result A) (classes : list builtin_exn)
           (handler : result A) : result A :=
  match r with
  | Ok a => Ok a
  | Raise e => if caught_by classes e then handler else Raise e
  end.

(** ** Python operations on [json] values *)

Fixpoint dict_get (key : string) (d : list (string * json)) : option json :=
  match d with
  | [] => None
  | (k, v) :: rest => if String.eqb k key then Some v else dict_get key rest
  end.

(** [obj.get(key, default)]: only a [dict] has the method. *)
Definition py_get (obj : json) (key : string) (default : json) : result json :=
  match obj with
  | JObj d => match dict_get key d with
              | Some v => Ok v
              | None => Ok default
              end
  | _ => Raise (Builtin AttributeError)
  end.

(** [obj[key]] with a string key: [KeyError] on a dict without the key,
    [TypeError] on everything else (a list or str wants an integer index, the
    other values are not subscriptable). *)
Definition py_getitem (obj : json) (key : string) : result json :=
  match obj with
  | JObj d => match dict_get key d with
              | Some v => Ok v
              | None => Raise (Builtin KeyError)
              end
  | _ => Raise (Builtin TypeError)
  end.

(** [str.lower] on the modelled range of code points: A-Z, and the Latin-1
    capitals U+00C0..U+00DE without the multiplication sign U+00D7, move up
    by 32. *)
Definition lower_char (c : ascii) : ascii :=
  let n := nat_of_ascii c in
  if ((65 <=? n) && (n <=? 90))%nat then ascii_of_nat (n + 32)
  else if ((192 <=? n) && (n <=? 222) && negb (n =? 215))%nat
       then ascii_of_nat (n + 32)
       else c.

Fixpoint lower (s : string) : string :=
  match s with
  | EmptyString => EmptyString
  | String c rest => String (lower_char c) (lower rest)
  end.

(** [obj.lower()]: only a [str] has the method. *)
Definition py_lower (obj : json) : result string :=
  match obj with
  | JStr s => Ok (lower s)
  | _ => Raise (Builtin AttributeError)
  end.

Fixpoint chars (s : string) : list json :=
  match s with
  | EmptyString => []
  | String c rest => JStr (String c EmptyString) :: chars rest
  end.

(** [for x in obj]: a list yields its items, a str its characters, a dict its
    keys; nothing else is iterable. *)
Definition py_iter (obj : json) : result (list json) :=
  match obj with
  | JArr items => Ok items
  | JStr s => Ok (chars s)
  | JObj d => Ok (map (fun kv => JStr (fst kv)) d)
  | _ => Raise (Builtin TypeError)
  end.

(** [a == b] where [a] is a str: only an equal str is equal. *)
Definition str_eq (a : string) (b : json) : bool :=
  match b with
  | JStr s => String.eqb a s
  | _ => false
  end.

(** [a == b] between two values where the module compares what [dict.get]
    returned with a str literal. *)
Definition eq_str (a : json) (b : string) : bool := str_eq b a.

(** A list comprehension whose body can raise: evaluated left to right, the
    first exception ends it. *)
Fixpoint comprehension {A B} (f : A -> result B) (xs : list A)
  : result (list B) :=
  match xs with
  | [] => Ok []
  | x :: rest =>
      (y <- f x ;; ys <- comprehension f rest ;; Ok (y :: ys))%result
  end.

(** Decimal text of an int, as [str.format] and [%s] print it. *)
Definition str_of_int (n : Z) : string := NilZero.string_of_int (Z.to_int n).

(** ** The platform

    What the module calls but does not define: codecs, [json.loads],
    Django's [parse_datetime], [repr], and the network behind
    [requests.get]. *)

Inductive decode_result : Type :=
| Decoded (text : string)
| DecodeError          (* UnicodeDecodeError: the bytes are not in the codec *)
| UnknownEncoding.     (* LookupError: no such codec *)

Record datetime : Type := mk_datetime {
  year : Z; month : Z; day : Z;
  hour : Z; minute : Z; second : Z; microsecond : Z;
  utcoffset : option Z
}.

Inductive parse_datetime_result : Type :=
| ParsedDatetime (t : datetime)
| NotADatetime         (* returns None: the text is not well formatted *)
| InvalidDatetime.     (* raises ValueError: well formatted, not a date *)

(** The three attributes of a [requests.Response] the module reads. *)
Record Response : Type := mk_Response {
  ok : bool;
  status_code : Z;
  text : string
}.

Class Platform : Type := {
  (** [bytes.decode(encoding)] *)
  bytes_decode : string -> list Byte.byte -> decode_result;
  (** [json.loads(s)] on a str; [None] stands for [JSONDecodeError], a
      [ValueError] *)
  json_loads : string -> option json;
  (** [django.utils.dateparse.parse_datetime(s)] on a str *)
  django_parse_datetime : string -> parse_datetime_result;
  (** [repr(v)]; it is also [str(v)] for every value that is not a str *)
  repr : json -> string;
  (** [repr(b)] of a bytes object *)
  repr_bytes : list Byte.byte -> string;
  (** the answer of the network to [requests.get(url)] *)
  http_get : json -> result Response
}.

(** ** A reference platform

    An executable instance of [Platform], used to run the model on concrete
    requests.  It reads JSON text following the grammar of [json.loads],
    decodes ASCII, Latin-1 and the part of UTF-8 that stays within the
    modelled code points, and reads ISO 8601 timestamps of the shape SNS
    sends.  Text beyond U+00FF cannot be represented and is refused. *)
Module Reference.

Definition is_ws (c : ascii) : bool :=
  let n := nat_of_ascii c in
  ((n =? 32) || (n =? 9) || (n =? 10) || (n =? 13))%nat.

Definition is_digit (c : ascii) : bool :=
  let n := nat_of_ascii c in ((48 <=? n) && (n <=? 57))%nat.

Fixpoint skip_ws (s : string) : string :=
  match s with
  | String c rest => if is_ws c then skip_ws rest else s
  | EmptyString => s
  end.

(** The longest prefix of digits, and what follows it. *)
Fixpoint span_digits (s : string) : string * string :=
  match s with
  | String c rest =>
      if is_digit c
      then let (ds, tl) := span_digits rest in (String c ds, tl)
      else (EmptyString, s)
  | EmptyString => (EmptyString, s)
  end.

Definition digit_value (c : ascii) : Z := (Z.of_nat (nat_of_ascii c) - 48)%Z.

Fixpoint digits_value (acc : Z) (s : string) : Z :=
  match s with
  | String c rest => digits_value (10 * acc + digit_value c)%Z rest
  | EmptyString => acc
  end.

(** A JSON number at the head of [s]: an optional minus, an integer part
    without leading zero, an optional fraction, an optional exponent. *)
Definition scan_number (s : string) : option (json * string) :=
  let (sign, s1) := match s with
                    | String "-" r => ("-", r)
                    | _ => (EmptyString, s)
                    end in
  let int_part :=
    match s1 with
    | String "0" r => Some ("0", r)
    | String c _ => if is_digit c then Some (span_digits s1) else None
    | EmptyString => None
    end in
  match int_part with
  | None => None
  | Some (ip, s2) =>
      let (frac, s3) :=
        match s2 with
        | String "." r =>
            match span_digits r with
            | (EmptyString, _) => (EmptyString, s2)
            | (ds, tl) => (String "." ds, tl)
            end
        | _ => (EmptyString, s2)
        end in
      let (ex, s4) :=
        match s3 with
        | String e r =>
            if (Ascii.eqb e "e" || Ascii.eqb e "E")%bool then
              let (sg, r') := match r with
                              | String "+" t => ("+", t)
                              | String "-" t => ("-", t)
                              | _ => (EmptyString, r)
                              end in
              match span_digits r' with
              | (EmptyString, _) => (EmptyString, s3)
              | (ds, tl) => (String e (sg ++ ds)%string, tl)
              end
            else (EmptyString, s3)
        | EmptyString => (EmptyString, s3)
        end in
      match frac, ex with
      | EmptyString, EmptyString =>
          let v := digits_value 0 ip in
          Some (JInt (if String.eqb sign "-" then (- v)%Z else v), s4)
      | _, _ => Some (JFloat (sign ++ ip ++ frac ++ ex)%string, s4)
      end
  end.

Definition hex_value (c : ascii) : option Z :=
  let n := Z.of_nat (nat_of_ascii c) in
  if ((48 <=? n) && (n <=? 57))%Z then Some (n - 48)%Z
  else if ((97 <=? n) && (n <=? 102))%Z then Some (n - 87)%Z
  else if ((65 <=? n) && (n <=? 70))%Z then Some (n - 55)%Z
  else None.

Definition char_of_Z (n : Z) : ascii := ascii_of_nat (Z.to_nat n).

(** The body of a string literal, after the opening quote. *)
Fixpoint scan_string (s : string) : option (string * string) :=
  match s with
  | EmptyString => None
  | String "034" rest => Some (EmptyString, rest)
  | String "\" (String "u" (String a (String b (String c (String d rest))))) =>
      match hex_value a, hex_value b, hex_value c, hex_value d with
      | Some 0%Z, Some 0%Z, Some h, Some l =>
          match scan_string rest with
          | Some (str, tl) => Some (String (char_of_Z (16 * h + l)%Z) str, tl)
          | None => None
          end
      | _, _, _, _ => None
      end
  | String "\" (String e rest) =>
      let unescaped :=
        if Ascii.eqb e "034" then Some "034"%char
        else if Ascii.eqb e "\" then Some "\"%char
        else if Ascii.eqb e "/" then Some "/"%char
        else if Ascii.eqb e "b" then Some "008"%char
        else if Ascii.eqb e "f" then Some "012"%char
        else if Ascii.eqb e "n" then Some "010"%char
        else if Ascii.eqb e "r" then Some "013"%char
        else if Ascii.eqb e "t" then Some "009"%char
        else None in
      match unescaped, scan_string rest with
      | Some c, Some (str, tl) => Some (String c str, tl)
      | _, _ => None
      end
  | String c rest =>
      if (nat_of_ascii c <? 32)%nat then None
      else match scan_string rest with
           | Some (str, tl) => Some (String c str, tl)
           | None => None
           end
  end.

Definition strip_prefix (p s : string) : option string :=
  if String.prefix p s
  then Some (String.substring (String.length p)
                              (String.length s - String.length p) s)
  else None.

(** [d[k] = v] on an insertion-ordered dict. *)
Fixpoint dict_set (k : string) (v : json) (d : list (string * json))
  : list (string * json) :=
  match d with
  | [] => [(k, v)]
  | (k', v') :: rest =>
      if String.eqb k' k then (k', v) :: rest else (k', v') :: dict_set k v rest
  end.

Fixpoint parse_value (fuel : nat) (s : string) {struct fuel}
  : option (json * string) :=
  match fuel with
  | O => None
  | S fuel' =>
      match s with
      | String "{" r =>
          match skip_ws r with
          | String "}" tl => Some (JObj [], tl)
          | r' => parse_members fuel' [] r'
          end
      | String "[" r =>
          match skip_ws r with
          | String "]" tl => Some (JArr [], tl)
          | r' => parse_elements fuel' [] r'
          end
      | String "034" r =>
          match scan_string r with
          | Some (str, tl) => Some (JStr str, tl)
          | None => None
          end
      | _ =>
          match strip_prefix "null" s, strip_prefix "true" s,
                strip_prefix "false" s with
          | Some tl, _, _ => Some (JNull, tl)
          | _, Some tl, _ => Some (JBool true, tl)
          | _, _, Some tl => Some (JBool false, tl)
          | None, None, None =>
              match strip_prefix "NaN" s, strip_prefix "Infinity" s,
                    strip_prefix "-Infinity" s with
              | Some tl, _, _ => Some (JFloat "nan", tl)
              | _, Some tl, _ => Some (JFloat "inf", tl)
              | _, _, Some tl => Some (JFloat "-inf", tl)
              | None, None, None => scan_number s
              end
          end
      end
  end
with parse_elements (fuel : nat) (acc : list json) (s : string) {struct fuel}
  : option (json * string) :=
  match fuel with
  | O => None
  | S fuel' =>
      match parse_value fuel' s with
      | None => None
      | Some (v, r) =>
          match skip_ws r with
          | String "," tl => parse_elements fuel' (acc ++ [v]) (skip_ws tl)
          | String "]" tl => Some (JArr (acc ++ [v]), tl)
          | _ => None
          end
      end
  end
with parse_members (fuel : nat) (acc : list (string * json)) (s : string)
       {struct fuel} : option (json * string) :=
  match fuel with
  | O => None
  | S fuel' =>
      match s with
      | String "034" r =>
          match scan_string r with
          | None => None
          | Some (k, r1) =>
              match skip_ws r1 with
              | String ":" r2 =>
                  match parse_value fuel' (skip_ws r2) with
                  | None => None
                  | Some (v, r3) =>
                      match skip_ws r3 with
                      | String "," tl =>
                          parse_members fuel' (dict_set k v acc) (skip_ws tl)
                      | String "}" tl => Some (JObj (dict_set k v acc), tl)
                      | _ => None
                      end
                  end
              | _ => None
              end
          end
      | _ => None
      end
  end.

(** [json.loads]: one value, white space around it, nothing else. *)
Definition loads (s : string) : option json :=
  match parse_value (2 * String.length s + 2) (skip_ws s) with
  | Some (v, rest) =>
      match skip_ws rest with
      | EmptyString => Some v
      | _ => None
      end
  | None => None
  end.

(** Codecs.  UTF-8 is decoded for the one- and two-byte sequences that give
    a code point below 256. *)
Fixpoint decode_ascii (bs : list Byte.byte) : decode_result :=
  match bs with
  | [] => Decoded EmptyString
  | b :: rest =>
      let c := ascii_of_byte b in
      if (nat_of_ascii c <? 128)%nat
      then match decode_ascii rest with
           | Decoded t => Decoded (String c t)
           | other => other
           end
      else DecodeError
  end.

Fixpoint decode_latin1 (bs : list Byte.byte) : string :=
  match bs with
  | [] => EmptyString
  | b :: rest => String (ascii_of_byte b) (decode_latin1 rest)
  end.

Fixpoint decode_utf8 (bs : list Byte.byte) : decode_result :=
  match bs with
  | [] => Decoded EmptyString
  | b :: rest =>
      let n := nat_of_ascii (ascii_of_byte b) in
      if (n <? 128)%nat
      then match decode_utf8 rest with
           | Decoded t => Decoded (String (ascii_of_byte b) t)
           | other => other
           end
      else if ((n =? 194) || (n =? 195))%nat
      then match rest with
           | b2 :: rest2 =>
               let m := nat_of_ascii (ascii_of_byte b2) in
               if ((128 <=? m) && (m <=? 191))%nat
               then match decode_utf8 rest2 with
                    | Decoded t =>
                        Decoded (String (ascii_of_nat ((n - 192) * 64 + (m - 128))) t)
                    | other => other
                    end
               else DecodeError
           | [] => DecodeError
           end
      else DecodeError
  end.

Definition decode (encoding : string) (bs : list Byte.byte) : decode_result :=
  let name := lower encoding in
  if (String.eqb name "utf-8" || String.eqb name "utf8")%bool
  then decode_utf8 bs
  else if (String.eqb name "ascii" || String.eqb name "us-ascii")%bool
  then decode_ascii bs
  else if (String.eqb name "latin-1" || String.eqb name "latin1"
           || String.eqb name "iso-8859-1")%bool
  then Decoded (decode_latin1 bs)
  else UnknownEncoding.

(** Timestamps of the shape [YYYY-MM-DDTHH:MM:SS(.fff)Z]. *)
Definition take_digits (n : nat) (s : string) : option (Z * string) :=
  let ds := String.substring 0 n s in
  if ((String.length ds =? n)%nat && forallb is_digit (list_ascii_of_string ds))%bool
  then Some (digits_value 0 ds, String.substring n (String.length s - n) s)
  else None.

Definition expect (c : ascii) (s : string) : option string :=
  match s with
  | String c' rest => if Ascii.eqb c c' then Some rest else None
  | EmptyString => None
  end.

Definition days_in_month (y m : Z) : Z :=
  if (m =? 2)%Z
  then if (((y mod 4 =? 0) && negb (y mod 100 =? 0)) || (y mod 400 =? 0))%Z%bool
       then 29%Z else 28%Z
  else if ((m =? 4) || (m =? 6) || (m =? 9) || (m =? 11))%Z%bool
       then 30%Z else 31%Z.

Definition obind {A B} (o : option A) (k : A -> option B) : option B :=
  match o with Some a => k a | None => None end.

Definition scan_datetime (s : string)
  : option (Z * Z * Z * Z * Z * Z * Z * option Z) :=
  obind (take_digits 4 s) (fun '(y, s) =>
  obind (expect "-" s) (fun s =>
  obind (take_digits 2 s) (fun '(mo, s) =>
  obind (expect "-" s) (fun s =>
  obind (take_digits 2 s) (fun '(d, s) =>
  obind (expect "T" s) (fun s =>
  obind (take_digits 2 s) (fun '(h, s) =>
  obind (expect ":" s) (fun s =>
  obind (take_digits 2 s) (fun '(mi, s) =>
  obind (expect ":" s) (fun s =>
  obind (take_digits 2 s) (fun '(sec, s) =>
  let '(us, s) :=
    match s with
    | String "." r =>
        match take_digits 3 r with
        | Some (ms, tl) => ((ms * 1000)%Z, tl)
        | None => (0%Z, s)
        end
    | _ => (0%Z, s)
    end in
  match s with
  | EmptyString => Some (y, mo, d, h, mi, sec, us, None)
  | String "Z" EmptyString => Some (y, mo, d, h, mi, sec, us, Some 0%Z)
  | _ => None
  end))))))))))).

Definition parse_datetime (s : string) : parse_datetime_result :=
  match scan_datetime s with
  | None => NotADatetime
  | Some (y, mo, d, h, mi, sec, us, tz) =>
      if ((1 <=? y) && (1 <=? mo) && (mo <=? 12) && (1 <=? d)
          && (d <=? days_in_month y mo)
          && (h <=? 23) && (mi <=? 59) && (sec <=? 59))%Z%bool
      then ParsedDatetime (mk_datetime y mo d h mi sec us tz)
      else InvalidDatetime
  end.

(** [repr] of the values whose text needs no escaping. *)
Fixpoint py_repr (v : json) : string :=
  match v with
  | JNull => "None"
  | JBool true => "True"
  | JBool false => "False"
  | JInt n => str_of_int n
  | JFloat literal => literal
  | JStr s => String "'" (s ++ "'")%string
  | JArr items =>
      let inner :=
        (fix go (l : list json) : string :=
           match l with
           | [] => EmptyString
           | x :: rest =>
               match rest with
               | [] => py_repr x
               | _ => (py_repr x ++ ", " ++ go rest)%string
               end
           end) items in
      String "[" (inner ++ "]")%string
  | JObj d =>
      let inner :=
        (fix go (l : list (string * json)) : string :=
           match l with
           | [] => EmptyString
           | (k, x) :: rest =>
               let item := (String "'" (k ++ "': ") ++ py_repr x)%string in
               match rest with
               | [] => item
               | _ => (item ++ ", " ++ go rest)%string
               end
           end) d in
      String "{" (inner ++ "}")%string
  end.

Definition py_repr_bytes (bs : list Byte.byte) : string :=
  String "b" (String "'" (decode_latin1 bs ++ "'"))%string.

(** The platform, over a given behaviour of the network. *)
Definition platform (network : json -> result Response) : Platform := {|
  bytes_decode := decode;
  json_loads := loads;
  django_parse_datetime := parse_datetime;
  repr := py_repr;
  repr_bytes := py_repr_bytes;
  http_get := network
|}.

(** Test data is written with apostrophes where JSON has double quotes. *)
Definition dq_char (c : ascii) : ascii :=
  if Ascii.eqb c "'" then "034"%char else c.

Fixpoint dq (s : string) : string :=
  match s with
  | EmptyString => EmptyString
  | String c rest => String (dq_char c) (dq rest)
  end.

Definition bytes_of (s : string) : list Byte.byte := list_byte_of_string s.

End Reference.

(** ** Events

    [anymail/signals.py] and [anymail/utils.py] are imported by the module
    and not part of it; what the module needs of them is modelled here. *)

(** Modelled from the spec: the members of [signals.EventType] the module
    names (section 3, the event_type of a Normalized Event). *)
Module EventType.
Inductive t : Type :=
| SENT | DELIVERED | BOUNCED | COMPLAINED | REJECTED | OPENED | CLICKED
| FAILED | UNKNOWN.
End EventType.

(** Modelled from the spec: the members of [signals.RejectReason] the module
    names (section 3, the reject_reason of a Normalized Event). *)
Module RejectReason.
Inductive t : Type :=
| BOUNCED | SPAM | BLOCKED.
End RejectReason.

(** A Python value an event attribute can hold: something that came out of
    JSON ([None] is [JNull], a list of tags is a [JArr]), a parsed
    timestamp, or one of the two enumerations. *)
Inductive pyval : Type :=
| PyJson (j : json)
| PyDatetime (t : datetime)
| PyEventType (e : EventType.t)
| PyRejectReason (r : RejectReason.t).

Definition PyNone : pyval := PyJson JNull.

(** A dict of keyword arguments, in insertion order. *)
Definition kwargs : Type := list (string * pyval).

Fixpoint kw_get (key : string) (d : kwargs) : option pyval :=
  match d with
  | [] => None
  | (k, v) :: rest => if String.eqb k key then Some v else kw_get key rest
  end.

Fixpoint kw_set (key : string) (v : pyval) (d : kwargs) : kwargs :=
  match d with
  | [] => [(key, v)]
  | (k, v') :: rest =>
      if String.eqb k key then (k, v) :: rest else (k, v') :: kw_set key v rest
  end.

(** [d.update(other)] *)
Definition update (d other : kwargs) : kwargs :=
  fold_left (fun acc kv => kw_set (fst kv) (snd kv) acc) other d.

(** [kwargs.pop(key, default)] as the constructor of an event reads it. *)
Definition pop (key : string) (default : pyval) (d : kwargs) : pyval :=
  match kw_get key d with
  | Some v => v
  | None => default
  end.

(** Modelled from the spec: [utils.combine] on two dicts, the merge of the
    common fields with the fields of one recipient (section 4.4, step 6). *)
Definition combine (common_props recipient_props : kwargs) : kwargs :=
  update common_props recipient_props.

(** Modelled from the spec: [signals.AnymailTrackingEvent], the Normalized
    Event of section 3.  [esp_event] is the raw event; [metadata] defaults to
    an empty dict, [tags] to an empty list, every other optional attribute
    to [None]. *)
Record AnymailTrackingEvent : Type := mk_event {
  event_type : pyval;
  timestamp : pyval;
  event_id : pyval;
  esp_event : pyval;
  click_url : pyval;
  description : pyval;
  message_id : pyval;
  metadata : pyval;
  mta_response : pyval;
  recipient : pyval;
  reject_reason : pyval;
  tags : pyval;
  user_agent : pyval
}.

(** [AnymailTrackingEvent( **kwargs )]: [event_type] is required. *)
Definition new_AnymailTrackingEvent (kw : kwargs) : result AnymailTrackingEvent :=
  match kw_get "event_type" kw with
  | None => Raise (Builtin TypeError)
  | Some et =>
      Ok {| event_type := et;
            timestamp := pop "timestamp" PyNone kw;
            event_id := pop "event_id" PyNone kw;
            esp_event := pop "esp_event" PyNone kw;
            click_url := pop "click_url" PyNone kw;
            description := pop "description" PyNone kw;
            message_id := pop "message_id" PyNone kw;
            metadata := pop "metadata" (PyJson (JObj [])) kw;
            mta_response := pop "mta_response" PyNone kw;
            recipient := pop "recipient" PyNone kw;
            reject_reason := pop "reject_reason" PyNone kw;
            tags := pop "tags" (PyJson (JArr [])) kw;
            user_agent := pop "user_agent" PyNone kw |}
  end.

(** Modelled from the spec: [utils.getfirst(dct, keys, default)], the value
    of the first of [keys] found in [dct], else [default] (section 4.4,
    step 1). *)
Fixpoint getfirst (dct : json) (keys : list string) (default : json)
  : result json :=
  match keys with
  | [] => Ok default
  | key :: rest =>
      match py_getitem dct key with
      | Ok v => Ok v
      | Raise e => if caught_by [KeyError] e
                   then getfirst dct rest default
                   else Raise e
      end
  end.

(** ** The request and the world around it *)

(** The [HttpRequest] as the module uses it.  [_sns_message] is the attribute
    [_parse_sns_message] sets: [None] while [hasattr] is false. *)
Record HttpRequest : Type := mk_request {
  body : list Byte.byte;
  encoding : option string;
  META : list (string * string);
  _sns_message : option json
}.

Record HttpResponse : Type := mk_response {
  status : Z;
  response_headers : list (string * string)
}.

(** What a run can change: the request object, the GET requests sent (oldest
    first), the events handed to the signal (oldest first), and - for
    accounting only - how many times the body was given to [json.loads]. *)
Record state : Type := mk_state {
  request : HttpRequest;
  outbound : list json;
  dispatched : list AnymailTrackingEvent;
  body_loads : nat
}.

(** State and exceptions: a computation returns or raises, and in both cases
    leaves a state behind. *)
Definition M (A : Type) : Type := state -> result A * state.

Definition ret {A} (a : A) : M A := fun st => (Ok a, st).

Definition raise {A} (e : exn) : M A := fun st => (Raise e, st).

Definition bind {A B} (m : M A) (k : A -> M B) : M B :=
  fun st => match m st with
            | (Ok a, st') => k a st'
            | (Raise e, st') => (Raise e, st')
            end.

Definition lift {A} (r : result A) : M A := fun st => (r, st).

Declare Scope m_scope.
Delimit Scope m_scope with M.
Notation "x <- c ;; k" := (bind c (fun x => k))
  (at level 61, c at next level, right associativity) : m_scope.
Notation "c ;;; k" := (bind c (fun _ => k))
  (at level 61, right associativity) : m_scope.

(** [try: body  except classes as err: handler(err)] *)
Definition try_exceptM {A} (body : M A) (classes : list builtin_exn)
           (handler : builtin_exn -> M A) : M A :=
  fun st => match body st with
            | (Ok a, st') => (Ok a, st')
            | (Raise (Builtin b), st') =>
                if existsb (isinstance b) classes then handler b st'
                else (Raise (Builtin b), st')
            | (Raise e, st') => (Raise e, st')
            end.

Definition get_request : M HttpRequest := fun st => (Ok (request st), st).

Definition set_sns_message (m : json) : M unit :=
  fun st =>
    let r := request st in
    (Ok tt, mk_state (mk_request (body r) (encoding r) (META r) (Some m))
                     (outbound st) (dispatched st) (body_loads st)).

Definition count_body_load : M unit :=
  fun st => (Ok tt, mk_state (request st) (outbound st) (dispatched st)
                             (S (body_loads st))).

Definition signal_send (event : AnymailTrackingEvent) : M unit :=
  fun st => (Ok tt, mk_state (request st) (outbound st)
                             (dispatched st ++ [event]) (body_loads st)).

Fixpoint for_eachM {A} (f : A -> M unit) (xs : list A) : M unit :=
  match xs with
  | [] => ret tt
  | x :: rest => (f x ;;; for_eachM f rest)%M
  end.

(** [request.META.get(key)] *)
Fixpoint meta_get (key : string) (meta : list (string * string))
  : option string :=
  match meta with
  | [] => None
  | (k, v) :: rest => if String.eqb k key then Some v else meta_get key rest
  end.

Definition or_default {A} (o : option A) (default : A) : A :=
  match o with
  | Some s => s
  | None => default
  end.

(** [x or default] on an optional str: [None] and the empty str are false. *)
Definition str_or (o : option string) (default : string) : string :=
  match o with
  | Some (String c rest) => String c rest
  | _ => default
  end.

Definition truthy (o : option string) : bool :=
  match o with
  | Some (String _ _) => true
  | _ => false
  end.

Infix "+++" := String.append (right associativity, at level 60).

Definition dquote : string := String "034" EmptyString.

(** ** The webhook views *)

Section AmazonSES.

Context {P : Platform}.

(** [str(v)], which [%s] and [{...!s}] apply. *)
Definition py_str (v : json) : string :=
  match v with
  | JStr s => s
  | _ => repr v
  end.

(** [json.loads(v)]: a value that is not a str is a [TypeError], a str that
    is not JSON a [ValueError]. *)
Definition py_json_loads (v : json) : result json :=
  match v with
  | JStr s => match json_loads s with
              | Some j => Ok j
              | None => Raise (Builtin ValueError)
              end
  | _ => Raise (Builtin TypeError)
  end.

(** [parse_datetime(v)]: a value that is not a str is a [TypeError]. *)
Definition parse_datetime (v : json) : result pyval :=
  match v with
  | JStr s => match django_parse_datetime s with
              | ParsedDatetime t => Ok (PyDatetime t)
              | NotADatetime => Ok PyNone
              | InvalidDatetime => Raise (Builtin ValueError)
              end
  | _ => Raise (Builtin TypeError)
  end.

(** [requests.get(url)]: the request goes out, then the answer or the
    exception of the network comes back. *)
Definition requests_get (url : json) : M Response :=
  fun st => (http_get url,
             mk_state (request st) (outbound st ++ [url]) (dispatched st)
                      (body_loads st)).

(** A view object: the two attributes the module reads, and the method the
    subclass overrides. *)
Record View : Type := mk_view {
  auto_confirm_enabled : bool;
  basic_auth : bool;
  esp_to_anymail_events : json -> json -> result (list AnymailTrackingEvent)
}.

(** The texts of the failures the module raises. *)
Definition malformed_body_message (body : list Byte.byte) : string :=
  "Malformed SNS message body " +++ repr_bytes body.

Definition type_mismatch_message (header_type : string) (body_type : json)
  : string :=
  "SNS header " +++ dquote +++ "x-amz-sns-message-type: " +++ header_type
  +++ dquote +++ " doesn't match body " +++ dquote +++ "Type" +++ dquote
  +++ ": " +++ dquote +++ py_str body_type +++ dquote.

Definition unknown_type_message (header_type : string) : string :=
  "Unknown SNS message type '" +++ header_type +++ "'".

Definition id_mismatch_message (header_id : string) (body_id : json)
  : string :=
  "SNS header " +++ dquote +++ "x-amz-sns-message-id: " +++ header_id
  +++ dquote +++ " doesn't match body " +++ dquote +++ "MessageId" +++ dquote
  +++ ": " +++ dquote +++ py_str body_id +++ dquote.

Definition unparsable_message (message_string : json) : string :=
  "Unparsable SNS Message " +++ repr message_string.

Definition unexpected_confirmation_message (topic_arn token : json) : string :=
  "Anymail received an unexpected SubscriptionConfirmation request for Amazon SNS topic '"
  +++ py_str topic_arn
  +++ "'. (Anymail can automatically confirm SNS subscriptions if you set a WEBHOOK_SECRET and use that in your SNS notification url. Or you can manually confirm this subscription in the SNS dashboard with token '"
  +++ py_str token +++ "'.)".

Definition confirmation_error_message (status_code : Z) (topic_arn : json)
           (text : string) : string :=
  "Anymail received a " +++ str_of_int status_code
  +++ " error trying to automatically confirm a subscription to Amazon SNS topic '"
  +++ py_str topic_arn +++ "'. The response was '" +++ text +++ "'.".

(** The Notification SNS sends once a subscription is confirmed; its Message
    is this text, not JSON. *)
Definition topic_validated_notice : string :=
  "Successfully validated SNS topic for Amazon SES event publishing.".

(** The three SNS message types [validate_request] lets through. *)
Definition sns_message_types : list string :=
  ["Notification"; "SubscriptionConfirmation"; "UnsubscribeConfirmation"].

(** [request.META.get("HTTP_X_AMZ_SNS_MESSAGE_TYPE", "<<missing>>")] and
    [request.META.get("HTTP_X_AMZ_SNS_MESSAGE_ID", "<<missing>>")] *)
Definition header_type (request : HttpRequest) : string :=
  or_default (meta_get "HTTP_X_AMZ_SNS_MESSAGE_TYPE" (META request))
             "<<missing>>".

Definition header_id (request : HttpRequest) : string :=
  or_default (meta_get "HTTP_X_AMZ_SNS_MESSAGE_ID" (META request))
             "<<missing>>".

(** [_parse_sns_message(request)], lines 25-35.  The request is the one of
    the state. *)
Definition _parse_sns_message : M json :=
  (request <- get_request ;;
   match _sns_message request with
   | Some sns_message => ret sns_message
   | None =>
       try_exceptM
         (match bytes_decode (str_or (encoding request) "utf-8")
                             (body request) with
          | Decoded body_text =>
              count_body_load ;;;
              match json_loads body_text with
              | Some sns_message =>
                  set_sns_message sns_message ;;; ret sns_message
              | None => raise (Builtin ValueError)
              end
          | DecodeError => raise (Builtin UnicodeDecodeError)
          | UnknownEncoding => raise (Builtin LookupError)
          end)
         [TypeError; ValueError; UnicodeDecodeError]
         (fun err =>
            raise (AnymailWebhookValidationFailure
                     (malformed_body_message (body request)) (Some err)))
   end)%M.

(** [validate_request(self, request)], lines 37-55. *)
Definition validate_request : M unit :=
  (sns_message <- _parse_sns_message ;;
   request <- get_request ;;
   let header_type := header_type request in
   body_type <- lift (py_get sns_message "Type" (JStr "<<missing>>")) ;;
   if negb (str_eq header_type body_type) then
     raise (AnymailWebhookValidationFailure
              (type_mismatch_message header_type body_type) None)
   else if negb (existsb (String.eqb header_type) sns_message_types) then
     raise (AnymailWebhookValidationFailure
              (unknown_type_message header_type) None)
   else
     let header_id := header_id request in
     body_id <- lift (py_get sns_message "MessageId" (JStr "<<missing>>")) ;;
     if negb (str_eq header_id body_id) then
       raise (AnymailWebhookValidationFailure
                (id_mismatch_message header_id body_id) None)
     else ret tt)%M.

(** [auto_confirm_sns_subscription(self, sns_message)], lines 95-124. *)
Definition auto_confirm_sns_subscription (self : View) (sns_message : json)
  : M unit :=
  (if negb (auto_confirm_enabled self) then ret tt
   else if negb (basic_auth self) then
     topic_arn <- lift (py_get sns_message "TopicArn" JNull) ;;
     token <- lift (py_get sns_message "Token" JNull) ;;
     raise (AnymailWebhookValidationFailure
              (unexpected_confirmation_message topic_arn token) None)
   else
     url <- lift (py_getitem sns_message "SubscribeURL") ;;
     response <- requests_get url ;;
     if negb (ok response) then
       topic_arn <- lift (py_get sns_message "TopicArn" JNull) ;;
       raise (AnymailWebhookValidationFailure
                (confirmation_error_message (status_code response) topic_arn
                                            (text response))
                None)
     else ret tt)%M.

(** [parse_events(self, request)], lines 71-90. *)
Definition parse_events (self : View) : M (list AnymailTrackingEvent) :=
  (sns_message <- _parse_sns_message ;;
   sns_type <- lift (py_get sns_message "Type" JNull) ;;
   if eq_str sns_type "Notification" then
     message_string <- lift (py_get sns_message "Message" JNull) ;;
     match py_json_loads message_string with
     | Raise e =>
         if caught_by [TypeError; ValueError] e then
           if eq_str message_string topic_validated_notice then ret []
           else raise (AnymailWebhookValidationFailure
                         (unparsable_message message_string) None)
         else raise e
     | Ok ses_event =>
         lift (esp_to_anymail_events self ses_event sns_message)
     end
   else if eq_str sns_type "SubscriptionConfirmation" then
     auto_confirm_sns_subscription self sns_message ;;; ret []
   else ret [])%M.

(** The body of the loop over the echoed mail headers, lines 151-158: the
    accumulator is [(metadata, tags)]. *)
Definition scan_header (acc : json * list json) (header : json)
  : result (json * list json) :=
  (let (metadata, tags) := acc in
   raw_name <- py_getitem header "name" ;;
   name <- py_lower raw_name ;;
   if String.eqb name "x-tag" then
     value <- py_getitem header "value" ;;
     Ok (metadata, tags ++ [value])
   else if String.eqb name "x-metadata" then
     try_except
       (value <- py_getitem header "value" ;;
        decoded <- py_json_loads value ;;
        Ok (decoded, tags))
       [ValueError; TypeError; KeyError]
       (Ok (metadata, tags))
   else Ok (metadata, tags))%result.

(** A [for] loop that updates an accumulator and can raise. *)
Fixpoint for_each {S A} (step : S -> A -> result S) (s : S) (xs : list A)
  : result S :=
  match xs with
  | [] => Ok s
  | x :: rest => (s' <- step s x ;; for_each step s' rest)%result
  end.

(** The branch on the SES event type, lines 176-240: the updated common
    properties and the per-recipient properties. *)
Definition props_of_event_type (ses_event : json) (ses_event_type : json)
           (event_object : json) (common_props : kwargs)
           (per_recipient_props : list kwargs)
  : result (kwargs * list kwargs) :=
  (if eq_str ses_event_type "Bounce" then
     bounce_type <- py_getitem event_object "bounceType" ;;
     bounce_sub_type <- py_getitem event_object "bounceSubType" ;;
     let common_props :=
       update common_props
         [("event_type", PyEventType EventType.BOUNCED);
          ("description",
           PyJson (JStr (py_str bounce_type +++ ": " +++ py_str bounce_sub_type)));
          ("reject_reason", PyRejectReason RejectReason.BOUNCED)] in
     bounced <- py_getitem event_object "bouncedRecipients" ;;
     recipients <- py_iter bounced ;;
     per_recipient_props <-
       comprehension
         (fun recipient =>
            address <- py_getitem recipient "emailAddress" ;;
            code <- py_get recipient "diagnosticCode" JNull ;;
            Ok [("recipient", PyJson address); ("mta_response", PyJson code)])
         recipients ;;
     Ok (common_props, per_recipient_props)
   else if eq_str ses_event_type "Complaint" then
     feedback <- py_get event_object "complaintFeedbackType" JNull ;;
     agent <- py_get event_object "userAgent" JNull ;;
     let common_props :=
       update common_props
         [("event_type", PyEventType EventType.COMPLAINED);
          ("description", PyJson feedback);
          ("reject_reason", PyRejectReason RejectReason.SPAM);
          ("user_agent", PyJson agent)] in
     complained <- py_getitem event_object "complainedRecipients" ;;
     recipients <- py_iter complained ;;
     per_recipient_props <-
       comprehension
         (fun recipient =>
            address <- py_getitem recipient "emailAddress" ;;
            Ok [("recipient", PyJson address)])
         recipients ;;
     Ok (common_props, per_recipient_props)
   else if eq_str ses_event_type "Delivery" then
     smtp_response <- py_get event_object "smtpResponse" JNull ;;
     let common_props :=
       update common_props
         [("event_type", PyEventType EventType.DELIVERED);
          ("mta_response", PyJson smtp_response)] in
     delivered <- py_getitem event_object "recipients" ;;
     recipients <- py_iter delivered ;;
     Ok (common_props,
         map (fun recipient => [("recipient", PyJson recipient)]) recipients)
   else if eq_str ses_event_type "Send" then
     Ok (update common_props [("event_type", PyEventType EventType.SENT)],
         per_recipient_props)
   else if eq_str ses_event_type "Reject" then
     reason <- py_getitem event_object "reason" ;;
     Ok (update common_props
           [("event_type", PyEventType EventType.REJECTED);
            ("description", PyJson reason);
            ("reject_reason", PyRejectReason RejectReason.BLOCKED)],
         per_recipient_props)
   else if eq_str ses_event_type "Open" then
     agent <- py_get event_object "userAgent" JNull ;;
     Ok (update common_props
           [("event_type", PyEventType EventType.OPENED);
            ("user_agent", PyJson agent)],
         per_recipient_props)
   else if eq_str ses_event_type "Click" then
     agent <- py_get event_object "userAgent" JNull ;;
     link <- py_get event_object "link" JNull ;;
     Ok (update common_props
           [("event_type", PyEventType EventType.CLICKED);
            ("user_agent", PyJson agent);
            ("click_url", PyJson link)],
         per_recipient_props)
   else if eq_str ses_event_type "Rendering Failure" then
     event_object <- py_getitem ses_event "failure" ;;
     error_message <- py_getitem event_object "errorMessage" ;;
     Ok (update common_props
           [("event_type", PyEventType EventType.FAILED);
            ("description", PyJson error_message)],
         per_recipient_props)
   else
     Ok (update common_props
           [("event_type", PyEventType EventType.UNKNOWN);
            ("description",
             PyJson (JStr ("Unknown SES eventType '" +++ py_str ses_event_type
                          +++ "'")))],
         per_recipient_props))%result.

(** The first part of [esp_to_anymail_events], lines 137-171: the properties
    common to all recipients, and the default per-recipient properties, one
    per address of the mail's destination. *)
Definition common_and_default_props (ses_event sns_message : json)
  : result (kwargs * list kwargs) :=
  (event_id <- py_get sns_message "MessageId" JNull ;;
   timestamp <-
     try_except
       (value <- py_getitem sns_message "Timestamp" ;; parse_datetime value)
       [KeyError; ValueError]
       (Ok PyNone) ;;
   mail_object <- py_get ses_event "mail" (JObj []) ;;
   message_id <- py_get mail_object "messageId" JNull ;;
   all_recipients <- py_get mail_object "destination" (JArr []) ;;
   headers <- py_get mail_object "headers" (JArr []) ;;
   header_list <- py_iter headers ;;
   scanned <- for_each scan_header (JObj [], []) header_list ;;
   let (metadata, tags) := scanned in
   let common_props :=
     [("esp_event", PyJson ses_event);
      ("event_id", PyJson event_id);
      ("message_id", PyJson message_id);
      ("metadata", PyJson metadata);
      ("tags", PyJson (JArr tags));
      ("timestamp", timestamp)] in
   addresses <- py_iter all_recipients ;;
   Ok (common_props,
       map (fun email_address => [("recipient", PyJson email_address)])
           addresses))%result.

(** [AmazonSESTrackingWebhookView.esp_to_anymail_events(self, ses_event,
    sns_message)], lines 132-246. *)
Definition tracking_esp_to_anymail_events (ses_event sns_message : json)
  : result (list AnymailTrackingEvent) :=
  (props <- common_and_default_props ses_event sns_message ;;
   let (common_props, per_recipient_props) := props in
   ses_event_type <- getfirst ses_event ["eventType"; "notificationType"]
                              (JStr "<<type missing>>") ;;
   key <- py_lower ses_event_type ;;
   event_object <- py_get ses_event key (JObj []) ;;
   branch <- props_of_event_type ses_event ses_event_type event_object
                                 common_props per_recipient_props ;;
   let (common_props, per_recipient_props) := branch in
   comprehension
     (fun recipient_props =>
        new_AnymailTrackingEvent (combine common_props recipient_props))
     per_recipient_props)%result.

(** The two classes.  [auto_confirm_sns_subscriptions] is the Anymail
    setting read by [__init__] (lines 18-23): unset, it defaults to true.
    [webhook_secret] says whether a shared secret is configured, which is
    what [self.basic_auth] is tested for. *)
Definition AmazonSESBaseWebhookView
           (auto_confirm_sns_subscriptions : option bool)
           (webhook_secret : bool) : View :=
  {| auto_confirm_enabled :=
       match auto_confirm_sns_subscriptions with
       | Some b => b
       | None => true
       end;
     basic_auth := webhook_secret;
     esp_to_anymail_events :=
       fun _ _ => Raise (Builtin NotImplementedError) |}.

Definition AmazonSESTrackingWebhookView
           (auto_confirm_sns_subscriptions : option bool)
           (webhook_secret : bool) : View :=
  {| auto_confirm_enabled :=
       auto_confirm_enabled
         (AmazonSESBaseWebhookView auto_confirm_sns_subscriptions
                                   webhook_secret);
     basic_auth := webhook_secret;
     esp_to_anymail_events := tracking_esp_to_anymail_events |}.

(** Modelled from the spec: [AnymailBaseWebhookView.post] of
    [anymail/webhooks/base.py], the control flow of section 2: the envelope
    is validated, then the events are parsed, then each is handed to the
    dispatch sink, and the answer is a success whatever their number
    (section 6).  The check of the credentials themselves belongs to the
    framework and is not part of the model. *)
Definition base_post (self : View) : M HttpResponse :=
  (validate_request ;;;
   events <- parse_events self ;;
   for_eachM signal_send events ;;;
   ret (mk_response 200 []))%M.

(** [post(self, request)], lines 62-69. *)
Definition post (self : View) : M HttpResponse :=
  (request <- get_request ;;
   if (basic_auth self
       && negb (truthy (meta_get "HTTP_AUTHORIZATION" (META request))))%bool
   then ret (mk_response 401
               [("WWW-Authenticate",
                 "Basic realm=" +++ dquote +++ "Anymail WEBHOOK_SECRET"
                 +++ dquote)])
   else base_post self)%M.

(** A request as it arrives, and the state a run starts from. *)
Definition fresh_request (body : list Byte.byte) (encoding : option string)
           (meta : list (string * string)) : HttpRequest :=
  mk_request body encoding meta None.

Definition initial (request : HttpRequest) : state :=
  mk_state request [] [] 0.

End AmazonSES.

(** ** Vocabulary of the statements *)

(** [d.get(key, default)] on the fields of a dict. *)
Definition get_or (key : string) (d : list (string * json)) (default : json)
  : json :=
  match dict_get key d with
  | Some v => v
  | None => default
  end.

(** The type and the id an envelope declares in its body. *)
Definition body_type (d : list (string * json)) : json :=
  get_or "Type" d (JStr "<<missing>>").

Definition body_id (d : list (string * json)) : json :=
  get_or "MessageId" d (JStr "<<missing>>").

(** The type declared by the envelope a request carries, once decoded. *)
Definition cached_type (st : state) : option json :=
  match _sns_message (request st) with
  | Some (JObj d) => dict_get "Type" d
  | _ => None
  end.

(** [needle in haystack] on two strs. *)
Definition contains (haystack needle : string) : Prop :=
  exists before after, haystack = before +++ needle +++ after.

Section Vocabulary.

Context {P : Platform}.

(** A body the decoder cannot read: its bytes are not text in the declared
    encoding (UTF-8 when none is declared), or the text is not JSON. *)
Definition undecodable_body (r : HttpRequest) : Prop :=
  let codec := str_or (encoding r) "utf-8" in
  bytes_decode codec (body r) = DecodeError
  \/ exists t, bytes_decode codec (body r) = Decoded t /\ json_loads t = None.

(** The mail headers that carry metadata: a dict whose name, lowercased, is
    [x-metadata]. *)
Definition is_metadata_header (header : json) : bool :=
  match header with
  | JObj d => match dict_get "name" d with
              | Some (JStr name) => String.eqb (lower name) "x-metadata"
              | _ => false
              end
  | _ => false
  end.

(** What the value of a header decodes to: nothing when the header has no
    value, when the value is not a str, or when it is not JSON. *)
Definition decoded_value (header : json) : option json :=
  match header with
  | JObj d => match dict_get "value" d with
              | Some (JStr s) => json_loads s
              | _ => None
              end
  | _ => None
  end.

Definition metadata_of_header (header : json) : option json :=
  if is_metadata_header header then decoded_value header else None.

(** The metadata that decode, header after header. *)
Fixpoint decoded_metadata (headers : list json) : list json :=
  match headers with
  | [] => []
  | header :: rest =>
      match metadata_of_header header with
      | Some j => j :: decoded_metadata rest
      | None => decoded_metadata rest
      end
  end.

End Vocabulary.

(** The SES event types [esp_to_anymail_events] knows. *)
Definition recognized_event_types : list string :=
  ["Bounce"; "Complaint"; "Delivery"; "Send"; "Reject"; "Open"; "Click";
   "Rendering Failure"].

(** The address and the diagnostic code of one entry of a recipients list:
    [entry["emailAddress"]] where there is one, and
    [entry.get("diagnosticCode")]. *)
Definition entry_address (entry : json) : option json :=
  match entry with
  | JObj d => dict_get "emailAddress" d
  | _ => None
  end.

Definition entry_diagnostic_code (entry : json) : json :=
  match entry with
  | JObj d => get_or "diagnosticCode" d JNull
  | _ => JNull
  end.

(** A mail header as SES echoes it: a dict with a str name, and with a value
    when its name, lowercased, is [x-tag]. *)
Definition well_formed_header (header : json) : Prop :=
  exists d name,
    header = JObj d
    /\ dict_get "name" d = Some (JStr name)
    /\ (lower name = "x-tag" -> dict_get "value" d <> None).

(** A Notification in the shape SES and SNS give it: both are JSON objects,
    the Timestamp of the envelope is a str when there is one, the mail of
    the event is an object when there is one, its headers are a list of
    well-formed headers and its destination is the list [addresses] (both
    lists empty when the key is absent). *)
Definition well_formed_notification (ses_event sns_message : json)
           (addresses : list json) : Prop :=
  exists ev sm mail headers,
    ses_event = JObj ev
    /\ sns_message = JObj sm
    /\ (dict_get "Timestamp" sm = None
        \/ exists s, dict_get "Timestamp" sm = Some (JStr s))
    /\ get_or "mail" ev (JObj []) = JObj mail
    /\ get_or "headers" mail (JArr []) = JArr headers
    /\ Forall well_formed_header headers
    /\ get_or "destination" mail (JArr []) = JArr addresses.

(** The keys of a dict of keyword arguments all belong to [allowed]. *)
Definition keys_within (allowed : list string) (kw : kwargs) : Prop :=
  Forall (fun kv => In (fst kv) allowed) kw.

(** ** Sample requests and events

    Concrete inputs on which the statements below are exercised, run on the
    reference platform. *)
Module Samples.

Import Reference.

(** A network whose every answer is a success, and one that refuses. *)
Definition network_accepting (url : json) : result Response :=
  Ok (mk_Response true 200 "<ConfirmSubscriptionResponse/>").

Definition network_refusing (url : json) : result Response :=
  Ok (mk_Response false 403 "Forbidden").

Definition accepting : Platform := platform network_accepting.

Definition refusing : Platform := platform network_refusing.

(** Tracking views: with and without a shared secret. *)
Definition view_with_secret (P : Platform) : View :=
  @AmazonSESTrackingWebhookView P None true.

Definition view_without_secret (P : Platform) : View :=
  @AmazonSESTrackingWebhookView P None false.

Definition sns_headers (type id : string) : list (string * string) :=
  [("HTTP_X_AMZ_SNS_MESSAGE_TYPE", type); ("HTTP_X_AMZ_SNS_MESSAGE_ID", id)].

Definition request_of (text : string) (meta : list (string * string))
  : HttpRequest :=
  fresh_request (bytes_of (dq text)) None meta.

(** The Delivery notification of the spec's example scenario. *)
Definition delivery_request : HttpRequest :=
  request_of
    "{'Type':'Notification','MessageId':'m1','Message':'{\'eventType\':\'Delivery\',\'mail\':{\'messageId\':\'msg1\',\'destination\':[\'a@x.com\',\'b@x.com\'],\'headers\':[]},\'delivery\':{\'smtpResponse\':\'250 OK\',\'recipients\':[\'a@x.com\',\'b@x.com\']}}'}"
    (sns_headers "Notification" "m1").

(** The header says Notification, the body SubscriptionConfirmation. *)
Definition mismatched_request : HttpRequest :=
  request_of "{'Type':'SubscriptionConfirmation','MessageId':'m2'}"
             (sns_headers "Notification" "m2").

Definition mismatched_envelope : list (string * json) :=
  [("Type", JStr "SubscriptionConfirmation"); ("MessageId", JStr "m2")].

Definition unsubscribe_request : HttpRequest :=
  request_of "{'Type':'UnsubscribeConfirmation','MessageId':'m3'}"
             (sns_headers "UnsubscribeConfirmation" "m3").

Definition unsubscribe_envelope : json :=
  JObj [("Type", JStr "UnsubscribeConfirmation"); ("MessageId", JStr "m3")].

(** The Notification SNS sends right after a confirmation. *)
Definition topic_validated_request : HttpRequest :=
  request_of
    "{'Type':'Notification','MessageId':'m4','Message':'Successfully validated SNS topic for Amazon SES event publishing.'}"
    (sns_headers "Notification" "m4").

Definition topic_validated_envelope : json :=
  JObj [("Type", JStr "Notification"); ("MessageId", JStr "m4");
        ("Message", JStr topic_validated_notice)].

(** Bodies that are no envelope: text that is not JSON, and JSON that is
    not an object. *)
Definition not_json_request : HttpRequest :=
  request_of "not json" (sns_headers "Notification" "m5").

Definition array_request : HttpRequest :=
  request_of "[1, 2]" (sns_headers "Notification" "m6").

(** The state the decoder leaves after it read the envelope [m] from the
    body of [r]. *)
Definition decoded (r : HttpRequest) (m : json) : state :=
  mk_state (mk_request (body r) (encoding r) (META r) (Some m)) [] [] 1.

(** A SubscriptionConfirmation request, and its envelope. *)
Definition confirmation_request : HttpRequest :=
  request_of
    "{'Type':'SubscriptionConfirmation','MessageId':'m7','TopicArn':'arn:aws:sns:us-east-1:1234:ses-events','Token':'2336412f37fb','SubscribeURL':'https://sns.us-east-1.amazonaws.com/?Action=ConfirmSubscription'}"
    (sns_headers "SubscriptionConfirmation" "m7").

Definition confirmation_envelope : list (string * json) :=
  [("Type", JStr "SubscriptionConfirmation");
   ("MessageId", JStr "m7");
   ("TopicArn", JStr "arn:aws:sns:us-east-1:1234:ses-events");
   ("Token", JStr "2336412f37fb");
   ("SubscribeURL", JStr "https://sns.us-east-1.amazonaws.com/?Action=ConfirmSubscription")].

Definition sns_notification : json :=
  JObj [("Type", JStr "Notification"); ("MessageId", JStr "m8");
        ("Timestamp", JStr "2018-03-26T17:58:59.675Z")].

Definition mail_with (headers : list json) : json :=
  JObj [("messageId", JStr "msg8");
        ("destination", JArr [JStr "a@x.com"; JStr "b@x.com"]);
        ("headers", JArr headers)].

Definition header (name value : string) : json :=
  JObj [("name", JStr name); ("value", JStr value)].

(** A Bounce of two recipients, the second without diagnostic code. *)
Definition bounce_entries : list json :=
  [JObj [("emailAddress", JStr "a@x.com");
         ("diagnosticCode", JStr "smtp; 550 5.1.1 user unknown")];
   JObj [("emailAddress", JStr "b@x.com")]].

Definition bounce_detail : list (string * json) :=
  [("bounceType", JStr "Permanent");
   ("bounceSubType", JStr "General");
   ("bouncedRecipients", JArr bounce_entries)].

Definition bounce_event : json :=
  JObj [("eventType", JStr "Bounce");
        ("mail", mail_with []);
        ("bounce", JObj bounce_detail)].

(** A Complaint whose recipients carry a diagnostic code all the same. *)
Definition complaint_entries : list json :=
  [JObj [("emailAddress", JStr "a@x.com");
         ("diagnosticCode", JStr "smtp; 550 5.7.1 complaint a")];
   JObj [("emailAddress", JStr "b@x.com");
         ("diagnosticCode", JStr "smtp; 550 5.7.1 complaint b")]].

Definition complaint_event : json :=
  JObj [("eventType", JStr "Complaint");
        ("mail", mail_with []);
        ("complaint",
         JObj [("complaintFeedbackType", JStr "abuse");
               ("userAgent", JStr "ExampleCorp Feedback Loop (V0.01)");
               ("complainedRecipients", JArr complaint_entries)])].

(** An event of a type the module does not know, given under the older
    key. *)
Definition subscription_fields : list (string * json) :=
  [("notificationType", JStr "Subscription");
   ("mail", mail_with [])].

(** A Send event whose mail echoes a tag and metadata that are not JSON. *)
Definition bad_metadata_headers : list json :=
  [header "X-Tag" "welcome"; header "X-Metadata" "{not json"].

Definition send_event : json :=
  JObj [("eventType", JStr "Send"); ("mail", mail_with bad_metadata_headers)].

End Samples.

(** ** More vocabulary *)

(** The answer [post] gives to a request without credentials. *)
Definition challenge : HttpResponse :=
  mk_response 401
    [("WWW-Authenticate",
      "Basic realm=" +++ dquote +++ "Anymail WEBHOOK_SECRET" +++ dquote)].

Definition is_object (v : json) : bool :=
  match v with
  | JObj _ => true
  | _ => false
  end.

Definition is_str (v : json) : bool :=
  match v with
  | JStr _ => true
  | _ => false
  end.

(** The per-recipient properties the normalizer starts from: one dict per
    address of the destination, holding that address as recipient. *)
Definition default_recipient_props (addresses : list json) : list kwargs :=
  map (fun a => [("recipient", PyJson a)]) addresses.

(** The values of the headers whose name, lowercased, is [x-tag], header
    after header. *)
Fixpoint tag_values (headers : list json) : list json :=
  match headers with
  | [] => []
  | header :: rest =>
      match header with
      | JObj d =>
          match dict_get "name" d, dict_get "value" d with
          | Some (JStr name), Some value =>
              if String.eqb (lower name) "x-tag"
              then value :: tag_values rest
              else tag_values rest
          | _, _ => tag_values rest
          end
      | _ => tag_values rest
      end
  end.

Section MoreVocabulary.

Context {P : Platform}.

(** The timestamp of an envelope as the events carry it: the parsed
    Timestamp when it is a str [parse_datetime] accepts, else [None]. *)
Definition envelope_timestamp (sm : list (string * json)) : pyval :=
  match dict_get "Timestamp" sm with
  | Some (JStr s) =>
      match django_parse_datetime s with
      | ParsedDatetime t => PyDatetime t
      | NotADatetime | InvalidDatetime => PyNone
      end
  | _ => PyNone
  end.

End MoreVocabulary.

(** ** More samples *)
Module MoreSamples.

Import Reference.
Import Samples.

(** A Notification that gives no message id, in the headers or the body. *)
Definition anonymous_request : HttpRequest :=
  request_of "{'Type':'Notification'}"
             [("HTTP_X_AMZ_SNS_MESSAGE_TYPE", "Notification")].

Definition anonymous_envelope : list (string * json) :=
  [("Type", JStr "Notification")].

(** A Notification whose Message is the smallest Send event. *)
Definition send_request : HttpRequest :=
  request_of
    "{'Type':'Notification','MessageId':'m9','Message':'{\'eventType\':\'Send\'}'}"
    (sns_headers "Notification" "m9").

Definition send_message : json := JStr (dq "{'eventType':'Send'}").

Definition send_envelope : json :=
  JObj [("Type", JStr "Notification"); ("MessageId", JStr "m9");
        ("Message", send_message)].

Definition bare_send_event : json := JObj [("eventType", JStr "Send")].

Definition confirmation_without_url : list (string * json) :=
  [("Type", JStr "SubscriptionConfirmation");
   ("MessageId", JStr "m10");
   ("TopicArn", JStr "arn:aws:sns:us-east-1:1234:ses-events");
   ("Token", JStr "2336412f37fb")].

Definition two_addresses : list json := [JStr "a@x.com"; JStr "b@x.com"].

(** A Delivery to one of the two addresses of the destination. *)
Definition delivery_detail : list (string * json) :=
  [("smtpResponse", JStr "250 2.6.0 Message received");
   ("recipients", JArr [JStr "b@x.com"])].

Definition delivery_event : json :=
  JObj [("eventType", JStr "Delivery");
        ("mail", mail_with []);
        ("delivery", JObj delivery_detail)].

Definition complaint_detail : list (string * json) :=
  [("complaintFeedbackType", JStr "abuse");
   ("userAgent", JStr "ExampleCorp Feedback Loop (V0.01)");
   ("complainedRecipients", JArr complaint_entries)].

Definition click_detail : list (string * json) :=
  [("userAgent", JStr "Mozilla/5.0");
   ("link", JStr "https://example.com/offer")].

Definition click_event : json :=
  JObj [("eventType", JStr "Click");
        ("mail", mail_with []);
        ("click", JObj click_detail)].

Definition reject_detail : list (string * json) :=
  [("reason", JStr "Bad content")].

Definition reject_event : json :=
  JObj [("eventType", JStr "Reject");
        ("mail", mail_with []);
        ("reject", JObj reject_detail)].

Definition failure_detail : list (string * json) :=
  [("templateName", JStr "welcome");
   ("errorMessage", JStr "Attribute 'name' is not present")].

Definition rendering_failure_fields : list (string * json) :=
  [("eventType", JStr "Rendering Failure");
   ("mail", mail_with []);
   ("failure", JObj failure_detail)].

(** A Bounce whose bounce object has lost its bounceType. *)
Definition truncated_bounce_detail : list (string * json) :=
  [("bounceSubType", JStr "General");
   ("bouncedRecipients", JArr bounce_entries)].

Definition truncated_bounce_event : json :=
  JObj [("eventType", JStr "Bounce");
        ("mail", mail_with []);
        ("bounce", JObj truncated_bounce_detail)].

(** An event whose type is a number. *)
Definition numbered_event : json :=
  JObj [("eventType", JInt 7); ("mail", mail_with [])].

(** An envelope whose Timestamp is a number. *)
Definition numbered_timestamp : list (string * json) :=
  [("Type", JStr "Notification"); ("MessageId", JStr "m11");
   ("Timestamp", JInt 1522087139)].

(** An envelope whose Timestamp names a day the calendar does not have. *)
Definition impossible_timestamp : list (string * json) :=
  [("Type", JStr "Notification"); ("MessageId", JStr "m13");
   ("Timestamp", JStr "2018-02-30T10:00:00Z")].

(** A JSON array sent under a type SNS does not have. *)
Definition bogus_array_request : HttpRequest :=
  request_of "[1, 2]" (sns_headers "Bogus" "m12").

End MoreSamples.

(** * Properties *)

Section Properties.

Context {P : Platform}.

(** ** Helper facts on the Python operations *)

Lemma str_eq_true (a : string) (b : json) :
  str_eq a b = true <-> b = JStr a.
Proof.
  destruct b; simpl; split; intro H; try discriminate.
  - apply String.eqb_eq in H. now subst.
  - injection H as ->. apply String.eqb_refl.
Qed.

Lemma str_eq_false (a : string) (b : json) :
  str_eq a b = false <-> b <> JStr a.
Proof.
  rewrite <- str_eq_true. destruct (str_eq a b); split; intro H;
    try discriminate; try reflexivity; try (exfalso; now apply H); auto.
Qed.

Lemma existsb_eqb_In (a : string) (l : list string) :
  existsb (String.eqb a) l = true <-> In a l.
Proof.
  rewrite existsb_exists. split.
  - intros [x [Hin Heq]]. apply String.eqb_eq in Heq. now subst.
  - intro Hin. exists a. split; [assumption | apply String.eqb_refl].
Qed.

(** ** The envelope decoder *)

(** A request that carries the attribute is answered from it, and nothing
    changes. *)
Lemma parse_cached {st : state} {m : json} :
  _sns_message (request st) = Some m ->
  _parse_sns_message st = (Ok m, st).
Proof.
  intro H. unfold _parse_sns_message, bind, get_request. now rewrite H.
Qed.

(** What a call of the decoder can change: the attribute and the count. *)
Lemma parse_frame {st st' : state} {r : result json} :
  _parse_sns_message st = (r, st') ->
  body (request st') = body (request st)
  /\ encoding (request st') = encoding (request st)
  /\ META (request st') = META (request st)
  /\ outbound st' = outbound st
  /\ dispatched st' = dispatched st
  /\ (body_loads st <= body_loads st' <= S (body_loads st))%nat
  /\ (forall m, r = Ok m -> _sns_message (request st') = Some m)
  /\ (forall e, r = Raise e ->
        _sns_message (request st') = _sns_message (request st)).
Proof.
  unfold _parse_sns_message, bind, get_request, try_exceptM.
  destruct (_sns_message (request st)) as [m|] eqn:Hc.
  - unfold ret. intro H. injection H as <- <-.
    repeat split; auto; try lia; intros; congruence.
  - destruct (bytes_decode _ _) as [t| |]; simpl;
      unfold count_body_load, set_sns_message, ret, raise.
    + destruct (json_loads t) as [j|]; simpl; intro H; injection H as <- <-;
        simpl; repeat split; auto; try lia; intros; congruence.
    + intro H. injection H as <- <-.
      repeat split; auto; try lia; intros; congruence.
    + intro H. injection H as <- <-.
      repeat split; auto; try lia; intros; congruence.
Qed.

(** ** The envelope validator *)

Lemma py_get_dict (d : list (string * json)) (key : string) (default : json) :
  py_get (JObj d) key default = Ok (get_or key d default).
Proof.
  unfold py_get, get_or. now destruct (dict_get key d).
Qed.

(** The validator on a decoded envelope, as a cascade of its three tests. *)
Lemma validate_request_unfold {st st1 : state} {d : list (string * json)} :
  _parse_sns_message st = (Ok (JObj d), st1) ->
  validate_request st =
    (if negb (str_eq (header_type (request st)) (body_type d)) then
       Raise (AnymailWebhookValidationFailure
                (type_mismatch_message (header_type (request st)) (body_type d))
                None)
     else if negb (existsb (String.eqb (header_type (request st)))
                           sns_message_types) then
       Raise (AnymailWebhookValidationFailure
                (unknown_type_message (header_type (request st))) None)
     else if negb (str_eq (header_id (request st)) (body_id d)) then
       Raise (AnymailWebhookValidationFailure
                (id_mismatch_message (header_id (request st)) (body_id d))
                None)
     else Ok tt,
     st1).
Proof.
  intro Hp. destruct (parse_frame Hp) as (_ & _ & Hmeta & _).
  unfold validate_request, bind. rewrite Hp. unfold get_request, lift.
  rewrite !py_get_dict. fold (body_type d). fold (body_id d).
  unfold header_type, header_id. rewrite Hmeta.
  repeat match goal with
         | |- context [if negb ?b then _ else _] => destruct b; simpl
         end;
    try reflexivity.
  all: rewrite py_get_dict; fold (body_id d).
  all: repeat match goal with
         | |- context [if negb ?b then _ else _] => destruct b; simpl
         end; reflexivity.
Qed.

(** A failed validation ends the request: the error is the answer of
    [base_post], and nothing was dispatched or sent. *)
Lemma base_post_validation_failed (self : View) (st : state) (e : exn) :
  fst (validate_request st) = Raise e ->
  fst (base_post self st) = Raise e
  /\ snd (base_post self st) = snd (validate_request st).
Proof.
  unfold base_post, bind. destruct (validate_request st) as [[u|e'] st'];
    simpl; intro H; [discriminate|]. injection H as ->. now split.
Qed.

(** After the decoder, [validate_request] only reads. *)
Lemma validate_request_state (st : state) :
  snd (validate_request st) = snd (_parse_sns_message st)
  /\ (fst (validate_request st) = Ok tt ->
      exists d, fst (_parse_sns_message st) = Ok (JObj d)).
Proof.
  unfold validate_request, bind.
  destruct (_parse_sns_message st) as [[m|e] st1]; cbn [fst snd];
    [|split; [reflexivity | discriminate]].
  unfold get_request, lift.
  destruct m; try (cbn; split; [reflexivity | discriminate]).
  rewrite !py_get_dict.
  repeat match goal with
         | |- context [if ?b then _ else _] => destruct b
         end;
    cbn [raise ret fst snd];
    (split; [reflexivity | intro; try discriminate; eauto]).
Qed.

(** What the decoder raises, the validator raises. *)
Lemma validate_request_decoder_failed (st : state) (e : exn) :
  fst (_parse_sns_message st) = Raise e ->
  fst (validate_request st) = Raise e.
Proof.
  unfold validate_request, bind.
  destruct (_parse_sns_message st) as [[m|e'] st1]; cbn;
    intro H; [discriminate | now injection H as ->].
Qed.

(** The validator on a decoded envelope: which requests it refuses, in which
    order the rules are tried, and what it leaves behind. *)
Lemma validate_request_on_object
        (self : View) (st st1 : state) (d : list (string * json)) :
  _parse_sns_message st = (Ok (JObj d), st1) ->
  let h_type := header_type (request st) in
  let h_id := header_id (request st) in
  let type_mismatch := JStr h_type <> body_type d in
  let unknown_type := ~ In h_type sns_message_types in
  let id_mismatch := JStr h_id <> body_id d in
  ((exists message cause,
       fst (validate_request st)
       = Raise (AnymailWebhookValidationFailure message cause))
   <-> type_mismatch \/ unknown_type \/ id_mismatch)
  /\ (fst (validate_request st) = Ok tt
      <-> ~ (type_mismatch \/ unknown_type \/ id_mismatch))
  /\ (type_mismatch ->
      fst (validate_request st)
      = Raise (AnymailWebhookValidationFailure
                 (type_mismatch_message h_type (body_type d)) None))
  /\ (~ type_mismatch -> unknown_type ->
      fst (validate_request st)
      = Raise (AnymailWebhookValidationFailure
                 (unknown_type_message h_type) None))
  /\ (~ type_mismatch -> ~ unknown_type -> id_mismatch ->
      fst (validate_request st)
      = Raise (AnymailWebhookValidationFailure
                 (id_mismatch_message h_id (body_id d)) None))
  /\ (snd (validate_request st) = st1
      /\ outbound st1 = outbound st
      /\ dispatched st1 = dispatched st
      /\ body (request st1) = body (request st)
      /\ encoding (request st1) = encoding (request st)
      /\ META (request st1) = META (request st))
  /\ (forall e, fst (validate_request st) = Raise e ->
      fst (base_post self st) = Raise e
      /\ dispatched (snd (base_post self st)) = dispatched st
      /\ outbound (snd (base_post self st)) = outbound st).
Proof.
  intros Hp h_type h_id type_mismatch unknown_type id_mismatch.
  pose proof (validate_request_unfold Hp) as Hv.
  destruct (parse_frame Hp) as (Hb & He & Hm & Ho & Hd & _).
  fold h_type h_id in Hv.
  assert (H1 : str_eq h_type (body_type d) = false <-> type_mismatch).
  { rewrite str_eq_false. unfold type_mismatch. split; intros H E; apply H; auto. }
  assert (H2 : existsb (String.eqb h_type) sns_message_types = false
               <-> unknown_type).
  { unfold unknown_type. rewrite <- existsb_eqb_In.
    destruct (existsb _ _); split; intro H; try discriminate; auto.
    exfalso. now apply H. }
  assert (H3 : str_eq h_id (body_id d) = false <-> id_mismatch).
  { rewrite str_eq_false. unfold id_mismatch. split; intros H E; apply H; auto. }
  assert (Hpost : forall e, fst (validate_request st) = Raise e ->
                  fst (base_post self st) = Raise e
                  /\ dispatched (snd (base_post self st)) = dispatched st
                  /\ outbound (snd (base_post self st)) = outbound st).
  { intros e Hr. destruct (base_post_validation_failed self st e Hr) as [Hf Hs].
    rewrite Hs, Hv. cbn [snd]. auto. }
  revert Hpost. rewrite Hv. cbn [fst snd]. intro Hpost.
  destruct (str_eq h_type (body_type d)) eqn:E1;
    destruct (existsb (String.eqb h_type) sns_message_types) eqn:E2;
    destruct (str_eq h_id (body_id d)) eqn:E3; cbn [negb];
    repeat match goal with
           | |- _ /\ _ => split
           | |- _ <-> _ => split
           end;
    try exact Hpost;
    try (intros; reflexivity);
    try (intros; discriminate);
    try tauto;
    try (intros; eexists; eexists; reflexivity);
    try (intros [m [c Hmc]]; discriminate);
    try (intros _ Hor; rewrite <- H1, <- H2, <- H3 in Hor;
         intuition congruence);
    try (intros; exfalso; intuition congruence).
Qed.

(** C2 (amended). On every request whose body decodes to a JSON object,
    [validate_request] raises a validation failure if and only if the type
    of the header differs from the type of the body, or the type is none of
    Notification, SubscriptionConfirmation, UnsubscribeConfirmation, or the
    message id of the header differs from the one of the body; the three
    rules are tried in this order and the first that fails decides the
    failure.  When the decoder raises, [validate_request] raises the same
    exception before any rule is tried.  On every request the check sends
    nothing, dispatches nothing and keeps the body, the encoding and the
    headers of the request, and a request that fails validation ends
    [base_post] with that failure and no event. *)
Theorem C2_validate_request_rules (self : View) (st : state) :
  (forall d st1,
      _parse_sns_message st = (Ok (JObj d), st1) ->
      let h_type := header_type (request st) in
      let h_id := header_id (request st) in
      let type_mismatch := JStr h_type <> body_type d in
      let unknown_type := ~ In h_type sns_message_types in
      let id_mismatch := JStr h_id <> body_id d in
      ((exists message cause,
           fst (validate_request st)
           = Raise (AnymailWebhookValidationFailure message cause))
       <-> type_mismatch \/ unknown_type \/ id_mismatch)
      /\ (fst (validate_request st) = Ok tt
          <-> ~ (type_mismatch \/ unknown_type \/ id_mismatch))
      /\ (type_mismatch ->
          fst (validate_request st)
          = Raise (AnymailWebhookValidationFailure
                     (type_mismatch_message h_type (body_type d)) None))
      /\ (~ type_mismatch -> unknown_type ->
          fst (validate_request st)
          = Raise (AnymailWebhookValidationFailure
                     (unknown_type_message h_type) None))
      /\ (~ type_mismatch -> ~ unknown_type -> id_mismatch ->
          fst (validate_request st)
          = Raise (AnymailWebhookValidationFailure
                     (id_mismatch_message h_id (body_id d)) None))
      /\ snd (validate_request st) = st1)
  /\ (forall e,
         fst (_parse_sns_message st) = Raise e ->
         fst (validate_request st) = Raise e)
  /\ (outbound (snd (validate_request st)) = outbound st
      /\ dispatched (snd (validate_request st)) = dispatched st
      /\ body (request (snd (validate_request st))) = body (request st)
      /\ encoding (request (snd (validate_request st)))
         = encoding (request st)
      /\ META (request (snd (validate_request st))) = META (request st))
  /\ (forall e,
         fst (validate_request st) = Raise e ->
         fst (base_post self st) = Raise e
         /\ dispatched (snd (base_post self st)) = dispatched st
         /\ outbound (snd (base_post self st)) = outbound st).
Proof.
  assert (Hframe : outbound (snd (validate_request st)) = outbound st
                   /\ dispatched (snd (validate_request st)) = dispatched st
                   /\ body (request (snd (validate_request st)))
                      = body (request st)
                   /\ encoding (request (snd (validate_request st)))
                      = encoding (request st)
                   /\ META (request (snd (validate_request st)))
                      = META (request st)).
  { destruct (validate_request_state st) as [-> _].
    destruct (_parse_sns_message st) as [r st1] eqn:Hp. cbn [snd].
    destruct (parse_frame Hp) as (Hb & He & Hm & Ho & Hd & _). auto. }
  split; [|split; [|split]].
  - intros d st1 Hp.
    pose proof (validate_request_on_object self st st1 d Hp) as H.
    cbn zeta in H |- *.
    destruct H as (H1 & H2 & H3 & H4 & H5 & (H6 & _) & _).
    split; [exact H1|]. split; [exact H2|]. split; [exact H3|].
    split; [exact H4|]. split; [exact H5 | exact H6].
  - apply validate_request_decoder_failed.
  - exact Hframe.
  - intros e Hr.
    destruct (base_post_validation_failed self st e Hr) as [Hf ->].
    destruct Hframe as (Ho & Hd & _). auto.
Qed.

(** ** What each step leaves in the state *)

Lemma auto_confirm_frame (self : View) (m : json) (st : state) :
  let st' := snd (auto_confirm_sns_subscription self m st) in
  request st' = request st
  /\ dispatched st' = dispatched st
  /\ body_loads st' = body_loads st
  /\ (outbound st' = outbound st
      \/ exists url, outbound st' = outbound st ++ [url]).
Proof.
  unfold auto_confirm_sns_subscription.
  destruct (auto_confirm_enabled self); cbn [negb];
    [|cbn; auto].
  destruct (basic_auth self); cbn [negb].
  - unfold bind, lift, requests_get.
    destruct (py_getitem m "SubscribeURL") as [url|e]; cbn [fst snd];
      [|auto].
    destruct (http_get url) as [resp|e]; cbn [fst snd request dispatched
                                                 body_loads outbound].
    + destruct (ok resp); cbn [negb].
      * cbn. repeat split; eauto.
      * destruct (py_get m "TopicArn" JNull); cbn; repeat split; eauto.
    + repeat split; eauto.
  - unfold bind, lift.
    destruct (py_get m "TopicArn" JNull); cbn [fst snd]; [|auto].
    destruct (py_get m "Token" JNull); cbn [fst snd]; auto.
Qed.

(** On a request that carries the decoded envelope, [parse_events] leaves the
    request alone and sends at most one GET. *)
Lemma parse_events_frame (self : View) {m : json} {st : state} :
  _sns_message (request st) = Some m ->
  let st' := snd (parse_events self st) in
  request st' = request st
  /\ dispatched st' = dispatched st
  /\ body_loads st' = body_loads st
  /\ (outbound st' = outbound st
      \/ exists url, outbound st' = outbound st ++ [url]).
Proof.
  intro Hc. unfold parse_events, bind. rewrite (parse_cached Hc).
  unfold lift. destruct (py_get m "Type" JNull) as [t|e]; cbn [fst snd];
    [|auto].
  destruct (eq_str t "Notification").
  - destruct (py_get m "Message" JNull) as [s|e]; cbn [fst snd]; [|auto].
    destruct (py_json_loads s) as [ev|e]; [cbn; auto|].
    destruct (caught_by _ e); [|cbn; auto].
    destruct (eq_str s topic_validated_notice); cbn; auto.
  - destruct (eq_str t "SubscriptionConfirmation"); [|cbn; auto].
    pose proof (auto_confirm_frame self m st) as Ha. cbn zeta in Ha.
    destruct (auto_confirm_sns_subscription self m st) as [[u|e] st2];
      cbn [fst snd ret] in *; exact Ha.
Qed.

Lemma dispatch_frame (events : list AnymailTrackingEvent) (st : state) :
  for_eachM signal_send events st
  = (Ok tt, mk_state (request st) (outbound st) (dispatched st ++ events)
                     (body_loads st)).
Proof.
  revert st. induction events as [|e rest IH]; intro st.
  - cbn. rewrite app_nil_r. now destruct st.
  - cbn [for_eachM]. unfold bind, signal_send at 1. rewrite IH. cbn.
    now rewrite <- app_assoc.
Qed.

(** One run of [base_post]: the body is loaded at most once, at most one GET
    goes out. *)
Lemma base_post_bounds (self : View) (st : state) :
  let st' := snd (base_post self st) in
  (body_loads st <= body_loads st' <= S (body_loads st))%nat
  /\ (_sns_message (request st) <> None -> body_loads st' = body_loads st)
  /\ (List.length (outbound st') <= S (List.length (outbound st)))%nat.
Proof.
  cbn zeta. unfold base_post, bind.
  destruct (validate_request_state st) as [Hs Hok].
  destruct (_parse_sns_message st) as [r st1] eqn:Hp.
  destruct (parse_frame Hp) as (_ & _ & _ & Ho & _ & Hn & Hset & _).
  assert (Hcached : _sns_message (request st) <> None -> st1 = st).
  { destruct (_sns_message (request st)) as [m|] eqn:Hc; [|congruence].
    intros _. rewrite (parse_cached Hc) in Hp. congruence. }
  destruct (validate_request st) as [[u|e] st1'] eqn:Hv;
    cbn [fst snd] in *; subst st1'.
  - destruct Hok as [d Hd]; [now destruct u|]. subst r.
    pose proof (parse_events_frame self (Hset _ eq_refl)) as Hf.
    cbn zeta in Hf.
    destruct (parse_events self st1) as [[events|e] st2];
      cbn [fst snd] in *.
    + rewrite dispatch_frame. cbn.
      destruct Hf as (_ & _ & Hb & Hout). rewrite Hb.
      repeat split; try lia.
      * intro Hc. rewrite (Hcached Hc). reflexivity.
      * destruct Hout as [-> | [url ->]]; rewrite ?List.length_app, Ho; cbn; lia.
    + destruct Hf as (_ & _ & Hb & Hout). rewrite Hb.
      repeat split; try lia.
      * intro Hc. rewrite (Hcached Hc). reflexivity.
      * destruct Hout as [-> | [url ->]]; rewrite ?List.length_app, Ho; cbn; lia.
  - repeat split; try lia.
    + intro Hc. rewrite (Hcached Hc). reflexivity.
    + rewrite Ho. lia.
Qed.

(** C9. Once the decoder has returned an envelope, a second call returns the
    same envelope and leaves the state as it was, so the body is not loaded
    again; and over one whole request ([post], which runs the validator and
    then the normalizer) the body is given to [json.loads] at most once - not
    at all when the request already carries the envelope - and at most one
    outbound GET is sent. *)
Theorem C9_decode_memoized (self : View) (st : state) :
  (forall m st1,
      _parse_sns_message st = (Ok m, st1) ->
      _parse_sns_message st1 = (Ok m, st1))
  /\ (body_loads (snd (post self st)) <= S (body_loads st))%nat
  /\ (_sns_message (request st) <> None ->
      body_loads (snd (post self st)) = body_loads st)
  /\ (List.length (outbound (snd (post self st))) <= S (List.length (outbound st)))%nat.
Proof.
  split.
  - intros m st1 Hp. apply parse_cached.
    destruct (parse_frame Hp) as (_ & _ & _ & _ & _ & _ & Hset & _).
    now apply Hset.
  - unfold post, bind, get_request.
    destruct (basic_auth self && _)%bool; cbn [fst snd ret].
    + repeat split; lia.
    + destruct (base_post_bounds self st) as (H1 & H2 & H3).
      repeat split; try lia; assumption.
Qed.

(** ** The branch on the envelope type *)

(** A validated request carries its envelope, a JSON object whose type is
    one of the three. *)
Lemma validated_envelope {st st1 : state} :
  validate_request st = (Ok tt, st1) ->
  exists d, _sns_message (request st1) = Some (JObj d)
            /\ exists t, body_type d = JStr t /\ In t sns_message_types.
Proof.
  intro Hv. destruct (validate_request_state st) as [Hs Hok].
  rewrite Hv in Hs, Hok. cbn [fst snd] in Hs, Hok.
  destruct (Hok eq_refl) as [d Hd].
  destruct (_parse_sns_message st) as [r st1'] eqn:Hp.
  cbn [fst snd] in *. subst r st1'.
  destruct (parse_frame Hp) as (_ & _ & _ & _ & _ & _ & Hset & _).
  exists d. split; [now apply Hset|].
  rewrite (validate_request_unfold Hp) in Hv.
  destruct (str_eq _ (body_type d)) eqn:E1; cbn [negb] in Hv;
    [|discriminate].
  destruct (existsb _ sns_message_types) eqn:E2; cbn [negb] in Hv;
    [|discriminate].
  apply str_eq_true in E1. apply existsb_eqb_In in E2. eauto.
Qed.

(** C10. On a validated request whose envelope declares a type other than
    Notification and SubscriptionConfirmation, that type is
    UnsubscribeConfirmation, and [parse_events] returns the empty list
    without raising and without touching the state: no GET is sent. *)
Theorem C10_other_types_ignored (self : View) (st st1 : state) :
  validate_request st = (Ok tt, st1) ->
  cached_type st1 <> Some (JStr "Notification") ->
  cached_type st1 <> Some (JStr "SubscriptionConfirmation") ->
  cached_type st1 = Some (JStr "UnsubscribeConfirmation")
  /\ parse_events self st1 = (Ok [], st1)
  /\ outbound (snd (parse_events self st1)) = outbound st1.
Proof.
  intros Hv Hn Hs.
  destruct (validated_envelope Hv) as (d & Hc & t & Ht & Hin).
  unfold cached_type in *. rewrite Hc in *.
  unfold body_type, get_or in Ht.
  assert (Hty : dict_get "Type" d = Some (JStr "UnsubscribeConfirmation")).
  { destruct (dict_get "Type" d) as [v|] eqn:Hd.
    - subst v. cbn in Hin.
      destruct Hin as [<- | [<- | [<- | []]]]; congruence.
    - injection Ht as <-. cbn in Hin.
      destruct Hin as [H | [H | [H | []]]]; discriminate. }
  assert (Hpe : parse_events self st1 = (Ok [], st1)).
  { unfold parse_events, bind. rewrite (parse_cached Hc).
    unfold lift, py_get. rewrite Hty. reflexivity. }
  rewrite Hpe. auto.
Qed.

(** C6. On a Notification whose Message does not decode as JSON,
    [parse_events] returns the empty list exactly when the Message is the
    notice SNS sends after a confirmed subscription; for any other Message
    it raises a validation failure.  In both cases the state is the one the
    decoder left. *)
Theorem C6_undecodable_message
        (self : View) (st st1 : state) (m message : json) (e : exn) :
  _parse_sns_message st = (Ok m, st1) ->
  py_get m "Type" JNull = Ok (JStr "Notification") ->
  py_get m "Message" JNull = Ok message ->
  py_json_loads message = Raise e ->
  (parse_events self st = (Ok [], st1)
   <-> message = JStr topic_validated_notice)
  /\ (message <> JStr topic_validated_notice ->
      parse_events self st
      = (Raise (AnymailWebhookValidationFailure (unparsable_message message)
                                                None),
         st1)).
Proof.
  intros Hp Ht Hm Hl.
  assert (Hcaught : caught_by [TypeError; ValueError] e = true).
  { unfold py_json_loads in Hl. destruct message; try (injection Hl as <-; reflexivity).
    destruct (json_loads s); [discriminate | injection Hl as <-; reflexivity]. }
  assert (Hpe : parse_events self st
                = (if eq_str message topic_validated_notice
                   then Ok []
                   else Raise (AnymailWebhookValidationFailure
                                 (unparsable_message message) None),
                   st1)).
  { unfold parse_events, bind. rewrite Hp. unfold lift. rewrite Ht.
    cbn [eq_str str_eq String.eqb Ascii.eqb Bool.eqb]. cbn match.
    rewrite Hm, Hl, Hcaught.
    destruct (eq_str message topic_validated_notice); reflexivity. }
  rewrite Hpe. unfold eq_str.
  destruct (str_eq topic_validated_notice message) eqn:E.
  - apply str_eq_true in E. split; [tauto | congruence].
  - apply str_eq_false in E. split; [|reflexivity].
    split; [discriminate | congruence].
Qed.

(** ** The subscription handshake *)

Lemma append_assoc (a b c : string) : (a +++ b) +++ c = a +++ b +++ c.
Proof.
  induction a as [|ch a IH]; cbn; [reflexivity | now rewrite IH].
Qed.

Lemma contains_middle (a b c : string) : contains (a +++ b +++ c) b.
Proof. now exists a, c. Qed.

(** C1. For a SubscriptionConfirmation envelope (a JSON object) given to
    [auto_confirm_sns_subscription]:
    - with automatic confirmation disabled, nothing happens;
    - with it enabled and no shared secret, the handler raises a validation
      failure whose text carries the topic and the token, and no GET is
      sent, whatever the network would have answered;
    - with it enabled and the shared secret, exactly one GET goes out, to
      the SubscribeURL of the envelope; an answer that is not ok raises a
      validation failure whose text carries the status code and the body of
      the answer, an ok answer returns, and in neither case a second GET
      follows. *)
Theorem C1_auto_confirm_sns_subscription
        (self : View) (d : list (string * json)) (st : state) :
  let run := auto_confirm_sns_subscription self (JObj d) st in
  let topic_arn := get_or "TopicArn" d JNull in
  let token := get_or "Token" d JNull in
  (auto_confirm_enabled self = false -> run = (Ok tt, st))
  /\ (auto_confirm_enabled self = true -> basic_auth self = false ->
      run = (Raise (AnymailWebhookValidationFailure
                      (unexpected_confirmation_message topic_arn token) None),
             st)
      /\ contains (unexpected_confirmation_message topic_arn token)
                  (py_str topic_arn)
      /\ contains (unexpected_confirmation_message topic_arn token)
                  (py_str token))
  /\ (auto_confirm_enabled self = true -> basic_auth self = true ->
      forall url, dict_get "SubscribeURL" d = Some url ->
      outbound (snd run) = outbound st ++ [url]
      /\ request (snd run) = request st
      /\ dispatched (snd run) = dispatched st
      /\ (forall response, http_get url = Ok response ->
          ok response = false ->
          fst run
          = Raise (AnymailWebhookValidationFailure
                     (confirmation_error_message (status_code response)
                                                 topic_arn (text response))
                     None)
          /\ contains (confirmation_error_message (status_code response)
                                                  topic_arn (text response))
                      (str_of_int (status_code response))
          /\ contains (confirmation_error_message (status_code response)
                                                  topic_arn (text response))
                      (text response))
      /\ (forall response, http_get url = Ok response ->
          ok response = true -> fst run = Ok tt)
      /\ (forall e, http_get url = Raise e -> fst run = Raise e)).
Proof.
  intros run topic_arn token. subst run.
  unfold auto_confirm_sns_subscription.
  split; [|split].
  - intros ->. reflexivity.
  - intros -> ->. cbn [negb]. unfold bind, lift.
    rewrite !py_get_dict. fold topic_arn token. cbn [raise].
    split; [reflexivity|].
    unfold unexpected_confirmation_message. split.
    + apply contains_middle.
    + exists ("Anymail received an unexpected SubscriptionConfirmation request for Amazon SNS topic '"
              +++ py_str topic_arn
              +++ "'. (Anymail can automatically confirm SNS subscriptions if you set a WEBHOOK_SECRET and use that in your SNS notification url. Or you can manually confirm this subscription in the SNS dashboard with token '"),
             "'.)".
      now rewrite !append_assoc.
  - intros -> -> url Hurl. cbn [negb]. unfold bind, lift, py_getitem.
    rewrite Hurl. unfold requests_get.
    destruct (http_get url) as [resp|e] eqn:Hg.
    + destruct (ok resp) eqn:Hok; cbn [negb].
      * cbn. repeat split; intros; congruence.
      * rewrite py_get_dict. fold topic_arn.
        cbn [raise fst snd outbound request dispatched].
        do 3 (split; [reflexivity|]). split; [|split].
        -- intros r Hr _. injection Hr as <-. split; [reflexivity|].
           unfold confirmation_error_message. split.
           ++ apply contains_middle.
           ++ exists ("Anymail received a " +++ str_of_int (status_code resp)
                      +++ " error trying to automatically confirm a subscription to Amazon SNS topic '"
                      +++ py_str topic_arn +++ "'. The response was '"), "'.".
              now rewrite !append_assoc.
        -- intros; congruence.
        -- intros; congruence.
    + cbn. repeat split; intros; congruence.
Qed.

(** ** Failures of the decoder *)

(** C5 (amended). A body that cannot be decoded in the declared encoding, or
    that decodes to text that is not JSON, makes the decoder raise
    [AnymailWebhookValidationFailure] - the failure the validator raises
    too, with the codec's or the parser's exception as its cause.  The
    failure ends the request: the request object is left without envelope,
    [base_post] ends with the same failure, no event is dispatched and no
    GET is sent. *)
Theorem C5_decoder_failure_is_validation_failure
        (self : View) (st : state) :
  _sns_message (request st) = None ->
  undecodable_body (request st) ->
  exists cause,
    fst (_parse_sns_message st)
    = Raise (AnymailWebhookValidationFailure
               (malformed_body_message (body (request st))) (Some cause))
    /\ (cause = UnicodeDecodeError \/ cause = ValueError)
    /\ request (snd (_parse_sns_message st)) = request st
    /\ fst (base_post self st)
       = Raise (AnymailWebhookValidationFailure
                  (malformed_body_message (body (request st))) (Some cause))
    /\ _sns_message (request (snd (base_post self st))) = None
    /\ dispatched (snd (base_post self st)) = dispatched st
    /\ outbound (snd (base_post self st)) = outbound st.
Proof.
  intros Hc Hbad.
  assert (Hp : exists cause,
             (cause = UnicodeDecodeError \/ cause = ValueError)
             /\ fst (_parse_sns_message st)
                = Raise (AnymailWebhookValidationFailure
                           (malformed_body_message (body (request st)))
                           (Some cause))
             /\ request (snd (_parse_sns_message st)) = request st).
  { unfold _parse_sns_message, bind, get_request, try_exceptM. rewrite Hc.
    destruct Hbad as [Hd | [t [Hd Hj]]]; cbn zeta in Hd; rewrite Hd.
    - exists UnicodeDecodeError. cbn. auto.
    - exists ValueError. unfold count_body_load. rewrite Hj. cbn. auto. }
  destruct Hp as (cause & Hcause & Hr & Hreq).
  exists cause. split; [exact Hr|]. split; [exact Hcause|].
  split; [exact Hreq|].
  pose proof (validate_request_decoder_failed st _ Hr) as Hv.
  destruct (base_post_validation_failed self st _ Hv) as [Hf Hs].
  destruct (validate_request_state st) as [Hvs _].
  rewrite Hf, Hs, Hvs.
  destruct (_parse_sns_message st) as [r st1] eqn:Hparse.
  destruct (parse_frame Hparse) as (_ & _ & _ & Ho & Hd & _).
  cbn [fst snd] in *. rewrite Hreq. auto.
Qed.

(** ** Dicts of keyword arguments *)

Lemma kw_get_set (k k' : string) (v : pyval) (d : kwargs) :
  kw_get k (kw_set k' v d) = if String.eqb k' k then Some v else kw_get k d.
Proof.
  induction d as [|[a va] rest IH]; cbn.
  - reflexivity.
  - destruct (String.eqb a k') eqn:Eak'; cbn.
    + apply String.eqb_eq in Eak'. subst a.
      now destruct (String.eqb k' k).
    + rewrite IH. destruct (String.eqb a k) eqn:Eak; [|reflexivity].
      apply String.eqb_eq in Eak. subst a.
      now rewrite String.eqb_sym, Eak'.
Qed.

Lemma update_cons (d : kwargs) (k : string) (v : pyval) (other : kwargs) :
  update d ((k, v) :: other) = update (kw_set k v d) other.
Proof. reflexivity. Qed.

Lemma update_nil (d : kwargs) : update d [] = d.
Proof. reflexivity. Qed.

(** A key that [other] does not set keeps its value through an update. *)
Lemma kw_get_update_other (k : string) {allowed : list string}
      (d : kwargs) {other : kwargs} :
  keys_within allowed other -> ~ In k allowed ->
  kw_get k (update d other) = kw_get k d.
Proof.
  intros Hkeys Hnot. revert d.
  induction Hkeys as [|[k' v] rest Hk _ IH]; intro d.
  - reflexivity.
  - rewrite update_cons, IH, kw_get_set. cbn in Hk.
    destruct (String.eqb k' k) eqn:E; [|reflexivity].
    apply String.eqb_eq in E. subst k'. contradiction.
Qed.

Lemma pop_update_other (k : string) (default : pyval)
      {allowed : list string} (d : kwargs) {other : kwargs} :
  keys_within allowed other -> ~ In k allowed ->
  pop k default (update d other) = pop k default d.
Proof.
  intros Hkeys Hnot. unfold pop.
  now rewrite (kw_get_update_other k d Hkeys Hnot).
Qed.

(** ** List comprehensions *)

Lemma comprehension_inv {A B} (f : A -> result B) (xs : list A)
      (ys : list B) :
  comprehension f xs = Ok ys -> Forall2 (fun x y => f x = Ok y) xs ys.
Proof.
  revert ys. induction xs as [|x rest IH]; cbn; intros ys H.
  - injection H as <-. constructor.
  - destruct (f x) as [y|e] eqn:Hx; cbn in H; [|discriminate].
    destruct (comprehension f rest) as [ys'|e]; cbn in H; [|discriminate].
    injection H as <-. constructor; auto.
Qed.

Lemma comprehension_map {A B} (f : A -> result B) (g : A -> B)
      (xs : list A) :
  Forall (fun x => f x = Ok (g x)) xs ->
  comprehension f xs = Ok (map g xs).
Proof.
  induction 1 as [|x rest Hx _ IH]; cbn.
  - reflexivity.
  - now rewrite Hx, IH.
Qed.

(** ** The common part of the normalizer *)

(** What a successful run of the common part went through. *)
Lemma common_and_default_props_inv {ses_event sns_message : json}
      {common : kwargs} {rps : list kwargs} :
  common_and_default_props ses_event sns_message = Ok (common, rps) ->
  exists event_id timestamp mail_object message_id all_recipients headers
         header_list metadata tags addresses,
    py_get sns_message "MessageId" JNull = Ok event_id
    /\ py_get ses_event "mail" (JObj []) = Ok mail_object
    /\ py_get mail_object "messageId" JNull = Ok message_id
    /\ py_get mail_object "destination" (JArr []) = Ok all_recipients
    /\ py_get mail_object "headers" (JArr []) = Ok headers
    /\ py_iter headers = Ok header_list
    /\ for_each scan_header (JObj [], []) header_list = Ok (metadata, tags)
    /\ py_iter all_recipients = Ok addresses
    /\ common = [("esp_event", PyJson ses_event);
                 ("event_id", PyJson event_id);
                 ("message_id", PyJson message_id);
                 ("metadata", PyJson metadata);
                 ("tags", PyJson (JArr tags));
                 ("timestamp", timestamp)]
    /\ rps = map (fun a => [("recipient", PyJson a)]) addresses.
Proof.
  unfold common_and_default_props, rbind.
  destruct (py_get sns_message "MessageId" JNull) as [event_id|] eqn:H1;
    [|discriminate].
  destruct (try_except _ _ _) as [timestamp|]; [|discriminate].
  destruct (py_get ses_event "mail" (JObj [])) as [mail_object|] eqn:H2;
    [|discriminate].
  destruct (py_get mail_object "messageId" JNull) as [message_id|] eqn:H3;
    [|discriminate].
  destruct (py_get mail_object "destination" (JArr []))
    as [all_recipients|] eqn:H4; [|discriminate].
  destruct (py_get mail_object "headers" (JArr [])) as [headers|] eqn:H5;
    [|discriminate].
  destruct (py_iter headers) as [header_list|] eqn:H6; [|discriminate].
  destruct (for_each scan_header (JObj [], []) header_list)
    as [[metadata tags]|] eqn:H7; [|discriminate].
  destruct (py_iter all_recipients) as [addresses|] eqn:H8; [|discriminate].
  intro H. injection H as <- <-.
  exists event_id, timestamp, mail_object, message_id, all_recipients, headers,
    header_list, metadata, tags, addresses.
  repeat split; assumption.
Qed.

Lemma comprehension_total {A B} (f : A -> result B) (R : A -> B -> Prop)
      (xs : list A) :
  Forall (fun x => exists y, f x = Ok y /\ R x y) xs ->
  exists ys, comprehension f xs = Ok ys /\ Forall2 R xs ys.
Proof.
  induction 1 as [|x rest [y [Hy HR]] _ [ys [Hys HF]]]; cbn.
  - exists []. split; [reflexivity | constructor].
  - exists (y :: ys). rewrite Hy, Hys. split; [reflexivity|].
    now constructor.
Qed.

Lemma comprehension_over_map {A B C} (f : B -> result C) (g : A -> B)
      (xs : list A) :
  comprehension f (map g xs) = comprehension (fun x => f (g x)) xs.
Proof.
  induction xs as [|x rest IH]; cbn; [reflexivity | now rewrite IH].
Qed.

Lemma Forall2_length_eq {A B} (R : A -> B -> Prop) (xs : list A)
      (ys : list B) :
  Forall2 R xs ys -> List.length ys = List.length xs.
Proof.
  induction 1; cbn; congruence.
Qed.

(** The constructor of an event succeeds as soon as [event_type] is there,
    and reads every attribute from the keyword arguments. *)
Lemma new_event_ok (kw : kwargs) (et : pyval) :
  kw_get "event_type" kw = Some et ->
  exists e, new_AnymailTrackingEvent kw = Ok e
            /\ event_type e = et
            /\ timestamp e = pop "timestamp" PyNone kw
            /\ event_id e = pop "event_id" PyNone kw
            /\ esp_event e = pop "esp_event" PyNone kw
            /\ click_url e = pop "click_url" PyNone kw
            /\ description e = pop "description" PyNone kw
            /\ message_id e = pop "message_id" PyNone kw
            /\ metadata e = pop "metadata" (PyJson (JObj [])) kw
            /\ mta_response e = pop "mta_response" PyNone kw
            /\ recipient e = pop "recipient" PyNone kw
            /\ reject_reason e = pop "reject_reason" PyNone kw
            /\ tags e = pop "tags" (PyJson (JArr [])) kw
            /\ user_agent e = pop "user_agent" PyNone kw.
Proof.
  intro H. unfold new_AnymailTrackingEvent. rewrite H.
  eexists. split; [reflexivity|]. cbn. repeat split; reflexivity.
Qed.

(** Looking a key up after concrete updates: every [kw_set] is resolved by
    comparing the two keys. *)
Ltac kw_lookup :=
  unfold combine, pop;
  repeat rewrite update_cons; repeat rewrite update_nil;
  repeat (rewrite kw_get_set; cbn [String.eqb Ascii.eqb Bool.eqb]);
  try reflexivity.

(** ** Tags and metadata *)

Lemma last_cons {A} (a d : A) (l : list A) : last (a :: l) d = last l a.
Proof.
  revert a d. induction l as [|b l IH]; intros a d; [reflexivity|].
  change (last (a :: b :: l) d) with (last (b :: l) d).
  now rewrite (IH b d), (IH b a).
Qed.

(** One turn of the loop over the headers, seen from the metadata: a header
    that carries metadata that decode replaces them, any other header the
    loop gets through leaves them. *)
Lemma scan_header_metadata (header metadata metadata' : json)
      (tags tags' : list json) :
  scan_header (metadata, tags) header = Ok (metadata', tags') ->
  metadata' = or_default (metadata_of_header header) metadata.
Proof.
  unfold scan_header, metadata_of_header, is_metadata_header, decoded_value,
    rbind, py_getitem.
  destruct header as [| | | | |items|d]; try discriminate.
  destruct (dict_get "name" d) as [[| | | |name| |]|]; try discriminate.
  cbn [py_lower].
  destruct (String.eqb (lower name) "x-tag") eqn:Etag.
  - apply String.eqb_eq in Etag. rewrite Etag. cbn.
    destruct (dict_get "value" d); [|discriminate].
    intro H. now injection H as <- _.
  - destruct (String.eqb (lower name) "x-metadata").
    + destruct (dict_get "value" d) as [[| | | |s| |]|]; cbn;
        try (intro H; now injection H as <- _).
      unfold py_json_loads. destruct (json_loads s); cbn;
        intro H; now injection H as <- _.
    + cbn. intro H. now injection H as <- _.
Qed.

(** A metadata header never stops the loop, and leaves the tags alone. *)
Lemma scan_metadata_header (header metadata : json) (tags : list json) :
  is_metadata_header header = true ->
  scan_header (metadata, tags) header
  = Ok (or_default (decoded_value header) metadata, tags).
Proof.
  unfold scan_header, is_metadata_header, decoded_value, rbind, py_getitem.
  destruct header as [| | | | |items|d]; try discriminate.
  destruct (dict_get "name" d) as [[| | | |name| |]|]; try discriminate.
  cbn [py_lower]. intro Hmeta. apply String.eqb_eq in Hmeta.
  rewrite Hmeta. cbn.
  destruct (dict_get "value" d) as [[| | | |s| |]|]; cbn; try reflexivity.
  unfold py_json_loads. now destruct (json_loads s).
Qed.

Lemma for_each_scan_metadata (headers : list json) (metadata metadata' : json)
      (tags tags' : list json) :
  for_each scan_header (metadata, tags) headers = Ok (metadata', tags') ->
  metadata' = last (decoded_metadata headers) metadata.
Proof.
  revert metadata tags. induction headers as [|header rest IH];
    intros metadata tags; cbn [for_each decoded_metadata].
  - intro H. now injection H as <- _.
  - unfold rbind.
    destruct (scan_header (metadata, tags) header) as [[md1 t1]|] eqn:Hs;
      [|discriminate].
    intro H. apply IH in H. apply scan_header_metadata in Hs.
    destruct (metadata_of_header header) as [j|]; cbn in Hs; subst md1.
    + now rewrite last_cons.
    + exact H.
Qed.

(** ** The common part on a well-formed Notification *)

Lemma metadata_header_well_formed (header : json) :
  is_metadata_header header = true -> well_formed_header header.
Proof.
  unfold is_metadata_header.
  destruct header as [| | | | |items|d]; try discriminate.
  destruct (dict_get "name" d) as [[| | | |name| |]|] eqn:Hn;
    try discriminate.
  intro H. apply String.eqb_eq in H. exists d, name.
  split; [reflexivity|]. split; [exact Hn|].
  rewrite H. discriminate.
Qed.

(** The loop gets through a well-formed header. *)
Lemma scan_header_total (header : json) (acc : json * list json) :
  well_formed_header header -> exists acc', scan_header acc header = Ok acc'.
Proof.
  intros (d & name & -> & Hname & Hvalue). destruct acc as [metadata tags].
  unfold scan_header, rbind, py_getitem. rewrite Hname. cbn [py_lower].
  destruct (String.eqb (lower name) "x-tag") eqn:Etag.
  - apply String.eqb_eq in Etag.
    destruct (dict_get "value" d) as [v|]; [eauto|].
    now elim (Hvalue Etag).
  - destruct (String.eqb (lower name) "x-metadata"); [|eauto].
    destruct (dict_get "value" d) as [[| | | |s| |]|]; cbn; eauto.
    unfold py_json_loads. destruct (json_loads s); cbn; eauto.
Qed.

Lemma for_each_scan_total (headers : list json) (acc : json * list json) :
  Forall well_formed_header headers ->
  exists tags,
    for_each scan_header acc headers
    = Ok (last (decoded_metadata headers) (fst acc), tags).
Proof.
  intro Hall. revert acc.
  induction Hall as [|header rest Hwf _ IH]; intros [metadata tags].
  - exists tags. reflexivity.
  - destruct (scan_header_total header (metadata, tags) Hwf) as [[md1 t1] Hs].
    destruct (IH (md1, t1)) as [tags' Hrest].
    exists tags'. cbn [for_each rbind]. rewrite Hs. cbn [rbind].
    rewrite Hrest. cbn [fst]. apply scan_header_metadata in Hs. subst md1.
    cbn [decoded_metadata].
    destruct (metadata_of_header header); cbn [or_default];
      [now rewrite last_cons | reflexivity].
Qed.

(** On a well-formed Notification the common part returns, with one default
    per-recipient dict for each address of the destination. *)
Lemma common_props_of_well_formed
      (ses_event sns_message : json) (addresses : list json) :
  well_formed_notification ses_event sns_message addresses ->
  exists common,
    common_and_default_props ses_event sns_message
    = Ok (common, map (fun a => [("recipient", PyJson a)]) addresses).
Proof.
  intros (ev & sm & mail & headers & -> & -> & Hts & Hmail & Hhdr & Hwf
          & Hdest).
  unfold common_and_default_props.
  rewrite !py_get_dict. cbn [rbind].
  assert (Hstamp : exists ts,
             try_except
               (value <- py_getitem (JObj sm) "Timestamp" ;;
                parse_datetime value)%result
               [KeyError; ValueError] (Ok PyNone) = Ok ts).
  { unfold py_getitem, rbind. destruct Hts as [-> | [s ->]].
    - cbn. eauto.
    - unfold parse_datetime. destruct (django_parse_datetime s); cbn; eauto. }
  destruct Hstamp as [ts ->]. cbn [rbind].
  rewrite Hmail, !py_get_dict, Hdest, Hhdr. cbn [rbind py_iter].
  destruct (for_each_scan_total headers (JObj [], []) Hwf) as [tags ->].
  cbn. eauto.
Qed.

(** ** Bounces *)

(** C3. A well-formed Notification whose SES event has type Bounce, and
    whose bounce object lists K bounced recipients, each with an email
    address, yields exactly K events, in the order of the list.  Each is of type BOUNCED
    with reject reason BOUNCED, its description is the bounce type and the
    bounce subtype joined by a colon and a space, its recipient is the
    email address of its entry and its mta_response the diagnostic code of
    its entry ([None] when the entry has none). *)
Theorem C3_bounce_fan_out
        (ses_event sns_message : json) (addresses : list json)
        (detail : list (string * json))
        (bounce_type bounce_sub_type : json) (entries : list json) :
  well_formed_notification ses_event sns_message addresses ->
  getfirst ses_event ["eventType"; "notificationType"]
           (JStr "<<type missing>>") = Ok (JStr "Bounce") ->
  py_get ses_event "bounce" (JObj []) = Ok (JObj detail) ->
  dict_get "bounceType" detail = Some bounce_type ->
  dict_get "bounceSubType" detail = Some bounce_sub_type ->
  dict_get "bouncedRecipients" detail = Some (JArr entries) ->
  Forall (fun entry => entry_address entry <> None) entries ->
  exists events,
    tracking_esp_to_anymail_events ses_event sns_message = Ok events
    /\ List.length events = List.length entries
    /\ Forall2
         (fun entry event =>
            event_type event = PyEventType EventType.BOUNCED
            /\ reject_reason event = PyRejectReason RejectReason.BOUNCED
            /\ description event
               = PyJson (JStr (py_str bounce_type +++ ": "
                               +++ py_str bounce_sub_type))
            /\ Some (recipient event)
               = option_map PyJson (entry_address entry)
            /\ mta_response event = PyJson (entry_diagnostic_code entry))
         entries events.
Proof.
  intros Hwf Htype Hdetail Hbt Hbst Hrec Hentries.
  destruct (common_props_of_well_formed _ _ _ Hwf) as [common Hcommon].
  unfold tracking_esp_to_anymail_events, rbind.
  rewrite Hcommon, Htype.
  change (py_lower (JStr "Bounce")) with (@Ok string "bounce").
  cbn match. rewrite Hdetail.
  unfold props_of_event_type, rbind.
  change (eq_str (JStr "Bounce") "Bounce") with true. cbn match.
  unfold py_getitem at 1 2 3. rewrite Hbt, Hbst, Hrec. cbn [py_iter].
  set (props_of := fun entry : json =>
         [("recipient", PyJson (or_default (entry_address entry) JNull));
          ("mta_response", PyJson (entry_diagnostic_code entry))]).
  rewrite (comprehension_map _ props_of).
  2:{ eapply Forall_impl; [|exact Hentries]. intros entry Ha.
      destruct entry; cbn in Ha; try congruence.
      unfold props_of. cbn.
      destruct (dict_get "emailAddress" fields) as [a|]; [|congruence].
      cbn. unfold get_or.
      now destruct (dict_get "diagnosticCode" fields). }
  rewrite comprehension_over_map.
  match goal with
  | |- exists events, comprehension ?f entries = Ok events /\ _ =>
      destruct (@comprehension_total _ _ f
                  (fun entry event =>
                     event_type event = PyEventType EventType.BOUNCED
                     /\ reject_reason event
                        = PyRejectReason RejectReason.BOUNCED
                     /\ description event
                        = PyJson (JStr (py_str bounce_type +++ ": "
                                        +++ py_str bounce_sub_type))
                     /\ Some (recipient event)
                        = option_map PyJson (entry_address entry)
                     /\ mta_response event
                        = PyJson (entry_diagnostic_code entry))
                  entries) as [events [Hev HF]]
  end.
  - eapply Forall_impl; [|exact Hentries]. intros entry Ha.
    cbn beta in Ha |- *.
    destruct (new_event_ok
                (combine
                   (update common
                      [("event_type", PyEventType EventType.BOUNCED);
                       ("description",
                        PyJson (JStr (py_str bounce_type +++ ": "
                                      +++ py_str bounce_sub_type)));
                       ("reject_reason",
                        PyRejectReason RejectReason.BOUNCED)])
                   (props_of entry))
                (PyEventType EventType.BOUNCED))
      as (e & He & Het & _ & _ & _ & _ & Hdesc & _ & _ & Hmta & Hrcp & Hrr & _).
    { unfold props_of. kw_lookup. }
    exists e. split; [exact He|].
    rewrite Het, Hrr, Hdesc, Hmta, Hrcp. unfold props_of.
    repeat split; kw_lookup.
    destruct (entry_address entry); [reflexivity | congruence].
  - exists events. split; [exact Hev|]. split; [|exact HF].
    exact (Forall2_length_eq _ _ _ HF).
Qed.

(** ** Unknown event types *)

Lemma eq_str_not_in {s : string} (literal : string) {l : list string} :
  ~ In s l -> In literal l -> eq_str (JStr s) literal = false.
Proof.
  intros Hn Hin. unfold eq_str, str_eq.
  destruct (String.eqb literal s) eqn:E; [|reflexivity].
  apply String.eqb_eq in E. subst. contradiction.
Qed.

(** C4. The SES event type is the value of [eventType] when the event has
    that key, else the value of [notificationType], else the text
    [<<type missing>>].  When that type is a str that is none of the
    recognized ones, a well-formed Notification yields one event per address
    of the mail's destination, in order, each for that address, of type
    UNKNOWN, with a description that quotes the type as it was received. *)
Theorem C4_unknown_event_type
        (ev : list (string * json)) (sns_message : json)
        (addresses : list json) (subtype : string) :
  well_formed_notification (JObj ev) sns_message addresses ->
  getfirst (JObj ev) ["eventType"; "notificationType"]
           (JStr "<<type missing>>")
  = Ok (match dict_get "eventType" ev with
        | Some v => v
        | None => get_or "notificationType" ev (JStr "<<type missing>>")
        end)
  /\ (getfirst (JObj ev) ["eventType"; "notificationType"]
               (JStr "<<type missing>>") = Ok (JStr subtype) ->
      ~ In subtype recognized_event_types ->
      exists events,
        tracking_esp_to_anymail_events (JObj ev) sns_message = Ok events
        /\ List.length events = List.length addresses
        /\ Forall2
             (fun address event =>
                recipient event = PyJson address
                /\ event_type event = PyEventType EventType.UNKNOWN
                /\ description event
                   = PyJson (JStr ("Unknown SES eventType '" +++ subtype
                                   +++ "'"))
                /\ contains ("Unknown SES eventType '" +++ subtype +++ "'")
                            subtype)
             addresses events).
Proof.
  intros Hwf. split.
  - cbn. unfold get_or.
    destruct (dict_get "eventType" ev); [reflexivity|]. cbn.
    now destruct (dict_get "notificationType" ev).
  - intros Htype Hunknown.
    destruct (common_props_of_well_formed _ _ _ Hwf) as [common Hcommon].
    unfold tracking_esp_to_anymail_events, rbind.
    rewrite Hcommon, Htype. cbn [py_lower]. rewrite py_get_dict.
    unfold props_of_event_type.
    rewrite !(fun literal => eq_str_not_in literal Hunknown) by (cbn; tauto).
    cbn [py_str]. rewrite comprehension_over_map.
    match goal with
    | |- exists events, comprehension ?f addresses = Ok events /\ _ =>
        destruct (@comprehension_total _ _ f
                    (fun address event =>
                       recipient event = PyJson address
                       /\ event_type event = PyEventType EventType.UNKNOWN
                       /\ description event
                          = PyJson (JStr ("Unknown SES eventType '"
                                          +++ subtype +++ "'"))
                       /\ contains ("Unknown SES eventType '" +++ subtype
                                    +++ "'") subtype)
                    addresses) as [events [Hev HF]]
    end.
    + apply Forall_forall. intros address _.
      destruct (new_event_ok
                  (combine
                     (update common
                        [("event_type", PyEventType EventType.UNKNOWN);
                         ("description",
                          PyJson (JStr ("Unknown SES eventType '"
                                        +++ subtype +++ "'")))])
                     [("recipient", PyJson address)])
                  (PyEventType EventType.UNKNOWN))
        as (e & He & Het & _ & _ & _ & _ & Hdesc & _ & _ & _ & Hrcp & _).
      { kw_lookup. }
      exists e. split; [exact He|]. rewrite Het, Hdesc, Hrcp.
      repeat split; kw_lookup. apply contains_middle.
    + exists events. split; [exact Hev|]. split; [|exact HF].
      exact (Forall2_length_eq _ _ _ HF).
Qed.

(** ** The shape of the normalizer's result *)

Lemma Forall2_Forall_r {A B} (R : A -> B -> Prop) (Q : B -> Prop)
      (xs : list A) (ys : list B) :
  Forall2 R xs ys -> (forall x y, R x y -> Q y) -> Forall Q ys.
Proof.
  intros HF HQ. induction HF; constructor; eauto.
Qed.

Lemma Forall2_In_r {A B} {R : A -> B -> Prop} {xs : list A} {ys : list B}
      {y : B} :
  Forall2 R xs ys -> In y ys -> exists x, In x xs /\ R x y.
Proof.
  induction 1 as [|x y' xs ys HR _ IH]; cbn; intro Hin; [contradiction|].
  destruct Hin as [-> | Hin].
  - exists x. auto.
  - destruct (IH Hin) as [x' [Hx' HR']]. exists x'. auto.
Qed.

Lemma keys_within_incl (small large : list string) (kw : kwargs) :
  incl small large -> keys_within small kw -> keys_within large kw.
Proof.
  intros Hincl H. eapply Forall_impl; [|exact H]. intros kv. apply Hincl.
Qed.

Ltac keys_solve :=
  repeat (apply Forall_cons; [cbn; tauto|]); apply Forall_nil.

Ltac step_bind H :=
  match type of H with
  | (match ?c with Ok _ => _ | Raise _ => _ end) = Ok _ =>
      let E := fresh "E" in
      destruct c eqn:E; [|discriminate H]
  end.

(** Whatever the event type, the branch adds to the common properties only
    the keys it is meant to add, and builds per-recipient properties that
    hold a recipient - and, for a Bounce only, an mta_response. *)
Lemma props_of_event_type_inv {ses_event ses_event_type event_object : json}
      {common common' : kwargs} {rps rps' : list kwargs} :
  props_of_event_type ses_event ses_event_type event_object common rps
  = Ok (common', rps') ->
  Forall (keys_within ["recipient"]) rps ->
  exists extra,
    common' = update common extra
    /\ keys_within ["event_type"; "description"; "reject_reason";
                    "user_agent"; "mta_response"; "click_url"] extra
    /\ In "event_type" (map fst extra)
    /\ Forall (keys_within ["recipient"; "mta_response"]) rps'
    /\ (ses_event_type <> JStr "Bounce" ->
        Forall (keys_within ["recipient"]) rps')
    /\ (ses_event_type = JStr "Complaint" ->
        keys_within ["event_type"; "description"; "reject_reason";
                     "user_agent"] extra).
Proof.
  intros H Hrps.
  assert (Hwide : Forall (keys_within ["recipient"; "mta_response"]) rps).
  { eapply Forall_impl; [|exact Hrps]. intro kw.
    apply keys_within_incl. intros k Hk. cbn in *. tauto. }
  unfold props_of_event_type, rbind in H.
  remember (update common) as upd eqn:Hupd.
  destruct (eq_str ses_event_type "Bounce") eqn:EB.
  { apply str_eq_true in EB. subst ses_event_type.
    repeat step_bind H. injection H as <- <-. subst upd.
    eexists. split; [reflexivity|].
    split; [keys_solve|]. split; [cbn; tauto|].
    split; [|split; [congruence | discriminate]].
    apply comprehension_inv in E3.
    eapply Forall2_Forall_r; [exact E3|]. cbn beta. intros x y Hxy.
    repeat step_bind Hxy. injection Hxy as <-. keys_solve. }
  destruct (eq_str ses_event_type "Complaint") eqn:EC.
  { repeat step_bind H. injection H as <- <-. subst upd.
    eexists. split; [reflexivity|].
    split; [keys_solve|]. split; [cbn; tauto|].
    assert (Hr : Forall (keys_within ["recipient"]) a3).
    { apply comprehension_inv in E3.
      eapply Forall2_Forall_r; [exact E3|]. cbn beta. intros x y Hxy.
      repeat step_bind Hxy. injection Hxy as <-. keys_solve. }
    split; [|split; [auto | intros _; keys_solve]].
    eapply Forall_impl; [|exact Hr]. intro kw.
    apply keys_within_incl. intros k Hk. cbn in *. tauto. }
  assert (HnC : ses_event_type <> JStr "Complaint").
  { intros ->. discriminate EC. }
  destruct (eq_str ses_event_type "Delivery").
  { repeat step_bind H. injection H as <- <-. subst upd.
    eexists. split; [reflexivity|].
    split; [keys_solve|]. split; [cbn; tauto|].
    assert (Hr : Forall (keys_within ["recipient"])
                        (map (fun recipient : json =>
                                [("recipient", PyJson recipient)]) a1)).
    { apply Forall_forall. intros kw Hin. apply in_map_iff in Hin.
      destruct Hin as [x [<- _]]. keys_solve. }
    split; [|split; [auto | contradiction]].
    eapply Forall_impl; [|exact Hr]. intro kw.
    apply keys_within_incl. intros k Hk. cbn in *. tauto. }
  repeat match type of H with
         | (if ?b then _ else _) = Ok _ => destruct b
         end;
    repeat step_bind H; injection H as <- <-; subst upd;
    (eexists; split; [reflexivity|];
     split; [keys_solve|]; split; [cbn; tauto|];
     split; [exact Hwide|]; split; [auto | contradiction]).
Qed.

(** What a successful run of the normalizer went through. *)
Lemma tracking_inv {ses_event sns_message : json}
      {events : list AnymailTrackingEvent} :
  tracking_esp_to_anymail_events ses_event sns_message = Ok events ->
  exists common rps ses_event_type key event_object common' rps',
    common_and_default_props ses_event sns_message = Ok (common, rps)
    /\ getfirst ses_event ["eventType"; "notificationType"]
                (JStr "<<type missing>>") = Ok ses_event_type
    /\ py_lower ses_event_type = Ok key
    /\ py_get ses_event key (JObj []) = Ok event_object
    /\ props_of_event_type ses_event ses_event_type event_object common rps
       = Ok (common', rps')
    /\ Forall2 (fun rp event =>
                  new_AnymailTrackingEvent (combine common' rp) = Ok event)
               rps' events.
Proof.
  unfold tracking_esp_to_anymail_events, rbind. intro H.
  destruct (common_and_default_props ses_event sns_message)
    as [[common rps]|] eqn:H1; [|discriminate].
  destruct (getfirst ses_event _ _) as [t|] eqn:H2; [|discriminate].
  destruct (py_lower t) as [key|] eqn:H3; [|discriminate].
  destruct (py_get ses_event key (JObj [])) as [eo|] eqn:H4; [|discriminate].
  destruct (props_of_event_type ses_event t eo common rps)
    as [[common' rps']|] eqn:H5; [|discriminate].
  apply comprehension_inv in H.
  exists common, rps, t, key, eo, common', rps'. auto 10.
Qed.

(** The attributes of an event built from [common] and the properties [rp]
    of one recipient: every attribute [rp] has no key for is read from
    [common]. *)
Lemma event_of_props {common rp : kwargs} {e : AnymailTrackingEvent}
      {allowed : list string} :
  new_AnymailTrackingEvent (combine common rp) = Ok e ->
  keys_within allowed rp ->
  (~ In "event_type" allowed ->
   Some (event_type e) = kw_get "event_type" common)
  /\ (~ In "timestamp" allowed -> timestamp e = pop "timestamp" PyNone common)
  /\ (~ In "event_id" allowed -> event_id e = pop "event_id" PyNone common)
  /\ (~ In "esp_event" allowed -> esp_event e = pop "esp_event" PyNone common)
  /\ (~ In "click_url" allowed -> click_url e = pop "click_url" PyNone common)
  /\ (~ In "description" allowed ->
      description e = pop "description" PyNone common)
  /\ (~ In "message_id" allowed ->
      message_id e = pop "message_id" PyNone common)
  /\ (~ In "metadata" allowed ->
      metadata e = pop "metadata" (PyJson (JObj [])) common)
  /\ (~ In "mta_response" allowed ->
      mta_response e = pop "mta_response" PyNone common)
  /\ (~ In "reject_reason" allowed ->
      reject_reason e = pop "reject_reason" PyNone common)
  /\ (~ In "tags" allowed -> tags e = pop "tags" (PyJson (JArr [])) common)
  /\ (~ In "user_agent" allowed ->
      user_agent e = pop "user_agent" PyNone common).
Proof.
  unfold new_AnymailTrackingEvent, combine. intros H Hkeys.
  destruct (kw_get "event_type" (update common rp)) as [et|] eqn:Het;
    [|discriminate].
  injection H as <-. cbn.
  repeat split; intro Hn;
    rewrite <- ?Het;
    rewrite ?(pop_update_other _ _ common Hkeys Hn);
    rewrite ?(kw_get_update_other _ common Hkeys Hn); reflexivity.
Qed.

Lemma default_props_keys (addresses : list json) :
  Forall (keys_within ["recipient"])
         (map (fun a : json => [("recipient", PyJson a)]) addresses).
Proof.
  apply Forall_forall. intros kw Hin. apply in_map_iff in Hin.
  destruct Hin as [x [<- _]]. keys_solve.
Qed.

Ltac not_in :=
  let H := fresh "H" in
  cbn; intro H;
  repeat (destruct H as [H|H]; [discriminate H|]);
  exact H.

(** ** The normalizer runs as far as the branch on the event type *)

(** The branch on the event type does not look at the common properties: it
    succeeds or raises whatever they are, builds the same per-recipient
    properties, and adds the same keys. *)
Lemma props_of_event_type_common_free
      (ses_event ses_event_type event_object : json) (c1 c2 : kwargs)
      (rps : list kwargs) :
  match props_of_event_type ses_event ses_event_type event_object c1 rps,
        props_of_event_type ses_event ses_event_type event_object c2 rps
  with
  | Ok (c1', r1), Ok (c2', r2) =>
      r1 = r2 /\ exists extra, c1' = update c1 extra /\ c2' = update c2 extra
  | Raise e1, Raise e2 => e1 = e2
  | _, _ => False
  end.
Proof.
  unfold props_of_event_type, rbind.
  remember (update c1) as u1 eqn:Hu1. remember (update c2) as u2 eqn:Hu2.
  repeat match goal with
         | |- context [if ?b then _ else _] => destruct b
         end;
    repeat match goal with
           | |- context [py_getitem ?a ?k] => destruct (py_getitem a k)
           | |- context [py_get ?a ?k ?d] => destruct (py_get a k d)
           | |- context [py_iter ?a] => destruct (py_iter a)
           | |- context [comprehension ?f ?l] => destruct (comprehension f l)
           end;
    cbv beta iota zeta; subst u1 u2;
    first [reflexivity
          | split; [reflexivity | eexists; split; reflexivity]].
Qed.

(** A key an update sets is there afterwards. *)
Lemma kw_get_update_in (k : string) (d extra : kwargs) :
  In k (map fst extra) -> exists v, kw_get k (update d extra) = Some v.
Proof.
  revert d. induction extra as [|[k' v] rest IH]; intros d Hin;
    [contradiction|].
  rewrite update_cons.
  destruct (in_dec string_dec k (map fst rest)) as [Hrest | Hrest].
  - now apply IH.
  - destruct Hin as [Hk | Hin]; [|contradiction]. cbn in Hk. subst k'.
    exists v.
    assert (Hkeys : keys_within (map fst rest) rest).
    { apply Forall_forall. intros kv Hkv. now apply in_map. }
    rewrite (kw_get_update_other k (kw_set k v d) Hkeys Hrest).
    rewrite kw_get_set. now rewrite String.eqb_refl.
Qed.

(** With an event type among the common properties, and per-recipient
    properties that hold nothing but a recipient and an mta_response, every
    event gets built. *)
Lemma events_total (common : kwargs) (rps : list kwargs) :
  kw_get "event_type" common <> None ->
  Forall (keys_within ["recipient"; "mta_response"]) rps ->
  exists events,
    comprehension
      (fun rp => new_AnymailTrackingEvent (combine common rp)) rps
    = Ok events
    /\ Forall2 (fun rp e => new_AnymailTrackingEvent (combine common rp) = Ok e)
               rps events.
Proof.
  intros Het Hkeys. apply comprehension_total.
  eapply Forall_impl; [|exact Hkeys]. intros rp Hrp. cbn beta.
  destruct (kw_get "event_type" common) as [et|] eqn:Hc; [|congruence].
  destruct (new_event_ok (combine common rp) et) as (e & He & _).
  - unfold combine. rewrite (kw_get_update_other _ common Hrp); [exact Hc|].
    not_in.
  - exists e. auto.
Qed.

(** On a well-formed Notification whose event type is a str, the normalizer
    returns exactly when the branch on that type does - tried here on empty
    common properties - with one event for each per-recipient dict the branch
    builds; and it raises what the branch raises. *)
Lemma normalizer_on_branch
      (ses_event sns_message event_object : json) (addresses : list json)
      (subtype : string) :
  well_formed_notification ses_event sns_message addresses ->
  getfirst ses_event ["eventType"; "notificationType"]
           (JStr "<<type missing>>") = Ok (JStr subtype) ->
  py_get ses_event (lower subtype) (JObj []) = Ok event_object ->
  (forall c rps,
      props_of_event_type ses_event (JStr subtype) event_object []
                          (default_recipient_props addresses)
      = Ok (c, rps) ->
      exists events,
        tracking_esp_to_anymail_events ses_event sns_message = Ok events
        /\ List.length events = List.length rps)
  /\ (forall e,
         props_of_event_type ses_event (JStr subtype) event_object []
                             (default_recipient_props addresses)
         = Raise e ->
         tracking_esp_to_anymail_events ses_event sns_message = Raise e).
Proof.
  intros Hwf Htype Hobj.
  destruct (common_props_of_well_formed _ _ _ Hwf) as [common Hc].
  fold (default_recipient_props addresses) in Hc.
  assert (Hrun : tracking_esp_to_anymail_events ses_event sns_message
                 = (branch <- props_of_event_type ses_event (JStr subtype)
                                event_object common
                                (default_recipient_props addresses) ;;
                    let (common', rps') := branch in
                    comprehension
                      (fun rp =>
                         new_AnymailTrackingEvent (combine common' rp))
                      rps')%result).
  { unfold tracking_esp_to_anymail_events, rbind at 1 2 3 4.
    rewrite Hc, Htype. cbn [py_lower]. rewrite Hobj. reflexivity. }
  rewrite Hrun. unfold rbind.
  pose proof (props_of_event_type_common_free
                ses_event (JStr subtype) event_object common []
                (default_recipient_props addresses)) as Hfree.
  split.
  - intros c rps Hbranch. rewrite Hbranch in Hfree.
    destruct (props_of_event_type ses_event (JStr subtype) event_object
                                  common (default_recipient_props addresses))
      as [[common' rps']|e] eqn:Hactual; [|contradiction].
    destruct Hfree as (-> & _).
    destruct (props_of_event_type_inv Hactual (default_props_keys _))
      as (extra & -> & _ & Hin & Hkeys & _).
    destruct (kw_get_update_in "event_type" common extra Hin) as [et Het].
    destruct (events_total (update common extra) rps) as (events & Hev & HF);
      [congruence | exact Hkeys |].
    exists events. split; [exact Hev|].
    exact (Forall2_length_eq _ _ _ HF).
  - intros e Hbranch. rewrite Hbranch in Hfree.
    destruct (props_of_event_type ses_event (JStr subtype) event_object
                                  common (default_recipient_props addresses))
      as [[common' rps']|e']; [contradiction | now subst].
Qed.

(** On the events of a Notification, [metadata] is the last metadata of its
    mail headers that decoded, and the empty dict when none did. *)
Lemma tracking_metadata
      (ses_event sns_message mail_object : json) (headers : list json)
      (events : list AnymailTrackingEvent) :
  tracking_esp_to_anymail_events ses_event sns_message = Ok events ->
  py_get ses_event "mail" (JObj []) = Ok mail_object ->
  py_get mail_object "headers" (JArr []) = Ok (JArr headers) ->
  Forall (fun event =>
            metadata event
            = PyJson (last (decoded_metadata headers) (JObj [])))
         events.
Proof.
  intros Hrun Hmail Hhdr.
  destruct (tracking_inv Hrun)
    as (common & rps & t & key & eo & common' & rps' & Hc & _ & _ & _
        & Hbranch & Hevents).
  destruct (common_and_default_props_inv Hc)
    as (event_id & ts & mail' & message_id & dest & headers' & hl & md
        & tags & addrs & _ & Hmail' & _ & _ & Hhdr' & Hit & Hscan & _
        & -> & ->).
  rewrite Hmail in Hmail'. injection Hmail' as <-.
  rewrite Hhdr in Hhdr'. injection Hhdr' as <-.
  cbn in Hit. injection Hit as <-.
  apply for_each_scan_metadata in Hscan. subst md.
  destruct (props_of_event_type_inv Hbranch (default_props_keys _))
    as (extra & -> & Hextra & _ & Hrps' & _).
  apply Forall_forall. intros e Hin.
  destruct (Forall2_In_r Hevents Hin) as (rp & Hrp & Hnew).
  rewrite Forall_forall in Hrps'.
  destruct (event_of_props Hnew (Hrps' _ Hrp))
    as (_ & _ & _ & _ & _ & _ & _ & Hmd & _).
  rewrite Hmd by not_in.
  rewrite (pop_update_other _ _ _ Hextra) by not_in.
  reflexivity.
Qed.

(** C7. A header named x-metadata (in any letter case) whose value does not
    decode - it is missing, not a str, or not JSON - is passed over: the loop
    goes on with the metadata and the tags it had.  A list of well-formed
    headers - metadata headers are well formed whatever their value - is
    always scanned to its end, and leaves the last metadata that decoded,
    or the metadata the loop started with when none did.  On
    the events of a Notification, [metadata] is the last metadata of its
    mail headers that decoded, and the empty dict when none did.  And the
    normalizer does return those events: on a well-formed Notification -
    whose metadata headers may hold anything - it returns whenever the branch
    on the event type does, one event for each per-recipient dict of that
    branch, each with that metadata; and it raises only what that branch
    raises, which reads no header: no metadata header makes it raise. *)
Theorem C7_metadata_resilience :
  (forall header metadata tags,
      is_metadata_header header = true ->
      decoded_value header = None ->
      scan_header (metadata, tags) header = Ok (metadata, tags))
  /\ (forall header,
         is_metadata_header header = true -> well_formed_header header)
  /\ (forall headers metadata tags,
         Forall well_formed_header headers ->
         exists tags',
           for_each scan_header (metadata, tags) headers
           = Ok (last (decoded_metadata headers) metadata, tags'))
  /\ (forall ses_event sns_message mail_object headers events,
         tracking_esp_to_anymail_events ses_event sns_message = Ok events ->
         py_get ses_event "mail" (JObj []) = Ok mail_object ->
         py_get mail_object "headers" (JArr []) = Ok (JArr headers) ->
         Forall (fun event =>
                   metadata event
                   = PyJson (last (decoded_metadata headers) (JObj [])))
                events)
  /\ (forall ses_event sns_message addresses mail_object headers subtype
             event_object common rps,
         well_formed_notification ses_event sns_message addresses ->
         py_get ses_event "mail" (JObj []) = Ok mail_object ->
         py_get mail_object "headers" (JArr []) = Ok (JArr headers) ->
         getfirst ses_event ["eventType"; "notificationType"]
                  (JStr "<<type missing>>") = Ok (JStr subtype) ->
         py_get ses_event (lower subtype) (JObj []) = Ok event_object ->
         props_of_event_type ses_event (JStr subtype) event_object []
                             (default_recipient_props addresses)
         = Ok (common, rps) ->
         exists events,
           tracking_esp_to_anymail_events ses_event sns_message = Ok events
           /\ List.length events = List.length rps
           /\ Forall (fun event =>
                        metadata event
                        = PyJson (last (decoded_metadata headers) (JObj [])))
                     events)
  /\ (forall ses_event sns_message addresses subtype event_object e,
         well_formed_notification ses_event sns_message addresses ->
         getfirst ses_event ["eventType"; "notificationType"]
                  (JStr "<<type missing>>") = Ok (JStr subtype) ->
         py_get ses_event (lower subtype) (JObj []) = Ok event_object ->
         props_of_event_type ses_event (JStr subtype) event_object []
                             (default_recipient_props addresses)
         = Raise e ->
         tracking_esp_to_anymail_events ses_event sns_message = Raise e).
Proof.
  split; [|split; [|split; [|split; [|split]]]].
  - intros header metadata tags Hm Hd.
    rewrite (scan_metadata_header _ _ _ Hm), Hd. reflexivity.
  - exact metadata_header_well_formed.
  - intros headers metadata tags Hall.
    exact (for_each_scan_total headers (metadata, tags) Hall).
  - intros ses_event sns_message mail_object headers events.
    apply tracking_metadata.
  - intros ses_event sns_message addresses mail_object headers subtype
           event_object common rps Hwf Hmail Hhdr Htype Hobj Hbranch.
    destruct (normalizer_on_branch _ _ _ _ _ Hwf Htype Hobj)
      as (Hreturns & _).
    destruct (Hreturns _ _ Hbranch) as (events & Hrun & Hlen).
    exists events. split; [exact Hrun|]. split; [exact Hlen|].
    exact (tracking_metadata _ _ _ _ _ Hrun Hmail Hhdr).
  - intros ses_event sns_message addresses subtype event_object e
           Hwf Htype Hobj Hbranch.
    destruct (normalizer_on_branch _ _ _ _ _ Hwf Htype Hobj)
      as (_ & Hraises).
    exact (Hraises e Hbranch).
Qed.

(** ** What the events of one Notification share *)


(** * Further properties of the views *)

(** ** The 401 challenge *)

(** X1. With a shared secret configured, a request that comes without an
    Authorization header (or with an empty one) is answered by [post] with
    401 and the Basic challenge SNS waits for, and nothing else happens: the
    body is not decoded, nothing is sent or dispatched.  In every other case
    [post] is the post of the parent class. *)
Theorem X1_post_challenge (self : View) (st : state) :
  (basic_auth self = true ->
   truthy (meta_get "HTTP_AUTHORIZATION" (META (request st))) = false ->
   post self st = (Ok challenge, st))
  /\ (basic_auth self = false -> post self st = base_post self st)
  /\ (truthy (meta_get "HTTP_AUTHORIZATION" (META (request st))) = true ->
      post self st = base_post self st).
Proof.
  unfold post, bind, get_request. repeat split.
  - intros -> ->. reflexivity.
  - intros ->. reflexivity.
  - intros ->. cbn [negb]. now rewrite andb_false_r.
Qed.

(** ** The validator at its edges *)

(** X2. A body that is JSON but not an object - a list, a str, a number,
    true, false or null - gets through the decoder, and [validate_request]
    then fails on it with an AttributeError, not with a validation failure;
    the value stays on the request. *)
Theorem X2_validate_request_non_object (st st1 : state) (m : json) :
  _parse_sns_message st = (Ok m, st1) ->
  is_object m = false ->
  validate_request st = (Raise (Builtin AttributeError), st1)
  /\ _sns_message (request st1) = Some m.
Proof.
  intros Hp Hm. split.
  - unfold validate_request, bind. rewrite Hp. unfold get_request, lift.
    destruct m; try discriminate; reflexivity.
  - destruct (parse_frame Hp) as (_ & _ & _ & _ & _ & _ & Hset & _).
    now apply Hset.
Qed.

(** X3. A header that is absent and a field of the body that is absent are
    both read as the text [<<missing>>], and so compare equal.  An envelope
    of a known type passes validation when neither the request nor the body
    gives a message id; when neither gives a type, the first rule passes and
    the second refuses the type [<<missing>>]. *)
Theorem X3_validate_request_missing (st st1 : state)
        (d : list (string * json)) :
  _parse_sns_message st = (Ok (JObj d), st1) ->
  (In (header_type (request st)) sns_message_types ->
   dict_get "Type" d = Some (JStr (header_type (request st))) ->
   meta_get "HTTP_X_AMZ_SNS_MESSAGE_ID" (META (request st)) = None ->
   dict_get "MessageId" d = None ->
   validate_request st = (Ok tt, st1))
  /\ (meta_get "HTTP_X_AMZ_SNS_MESSAGE_TYPE" (META (request st)) = None ->
      dict_get "Type" d = None ->
      validate_request st
      = (Raise (AnymailWebhookValidationFailure
                  (unknown_type_message "<<missing>>") None),
         st1)).
Proof.
  intro Hp. rewrite (validate_request_unfold Hp). split.
  - intros Hin Ht Hid Hmid.
    unfold body_type, body_id, get_or, header_id. rewrite Ht, Hid, Hmid.
    cbn [or_default str_eq]. rewrite String.eqb_refl. cbn [negb].
    apply existsb_eqb_In in Hin. rewrite Hin. reflexivity.
  - intros Hty Ht.
    unfold body_type, get_or, header_type. rewrite Hty, Ht. reflexivity.
Qed.

(** X4. Validation can be repeated: once the envelope is on the request, a
    second [validate_request] gives the same verdict and changes nothing. *)
Theorem X4_validate_request_repeatable (st st1 : state) (r : result unit) :
  validate_request st = (r, st1) ->
  _sns_message (request st1) <> None ->
  validate_request st1 = (r, st1).
Proof.
  intros Hv Hc.
  destruct (validate_request_state st) as [Hs _]. rewrite Hv in Hs.
  cbn [snd] in Hs.
  destruct (_parse_sns_message st) as [pr st1'] eqn:Hp. cbn [snd] in Hs.
  subst st1'.
  destruct (parse_frame Hp) as (_ & _ & Hmeta & _ & _ & _ & Hset & Hkeep).
  destruct pr as [m|e].
  - pose proof (Hset _ eq_refl) as Hm.
    unfold validate_request, bind in *. rewrite Hp in Hv.
    rewrite (parse_cached Hm). exact Hv.
  - exfalso. apply Hc. rewrite (Hkeep _ eq_refl).
    destruct (_sns_message (request st)) as [m|] eqn:Hcache; [|reflexivity].
    rewrite (parse_cached Hcache) in Hp. discriminate.
Qed.

(** X5. Whatever the request, [validate_request] sends no GET, dispatches no
    event and keeps the body, the encoding and the headers of the request;
    it loads the body at most once, and not at all when the request already
    carries the envelope. *)
Theorem X5_validate_request_frame (st : state) :
  let st' := snd (validate_request st) in
  outbound st' = outbound st
  /\ dispatched st' = dispatched st
  /\ body (request st') = body (request st)
  /\ encoding (request st') = encoding (request st)
  /\ META (request st') = META (request st)
  /\ (body_loads st <= body_loads st' <= S (body_loads st))%nat
  /\ (_sns_message (request st) <> None -> st' = st).
Proof.
  cbn zeta. destruct (validate_request_state st) as [-> _].
  destruct (_parse_sns_message st) as [r st1] eqn:Hp. cbn [snd].
  destruct (parse_frame Hp) as (Hb & He & Hm & Ho & Hd & Hn & _).
  repeat split; try assumption; try lia.
  destruct (_sns_message (request st)) as [m|] eqn:Hc; [|congruence].
  intros _. rewrite (parse_cached Hc) in Hp. congruence.
Qed.

(** ** The branch of [parse_events] *)

(** X6. A Notification whose Message decodes as JSON is handed, with its
    envelope, to [esp_to_anymail_events]: what that method returns or raises
    is what [parse_events] returns or raises, and the state is the one the
    decoder left.  On the base class, whose method is not implemented, this
    is a NotImplementedError. *)
Theorem X6_notification_to_normalizer
        (self : View) (st st1 : state) (m message ses_event : json) :
  _parse_sns_message st = (Ok m, st1) ->
  py_get m "Type" JNull = Ok (JStr "Notification") ->
  py_get m "Message" JNull = Ok message ->
  py_json_loads message = Ok ses_event ->
  parse_events self st = (esp_to_anymail_events self ses_event m, st1)
  /\ (forall setting secret,
         parse_events (AmazonSESBaseWebhookView setting secret) st
         = (Raise (Builtin NotImplementedError), st1))
  /\ (forall setting secret,
         parse_events (AmazonSESTrackingWebhookView setting secret) st
         = (tracking_esp_to_anymail_events ses_event m, st1)).
Proof.
  intros Hp Ht Hm Hl.
  assert (H : forall view, parse_events view st
                           = (esp_to_anymail_events view ses_event m, st1)).
  { intro view. unfold parse_events, bind. rewrite Hp. unfold lift.
    rewrite Ht.
    change (eq_str (JStr "Notification") "Notification") with true.
    cbn match. rewrite Hm, Hl. reflexivity. }
  split; [apply H|]. split; intros setting secret; rewrite H; reflexivity.
Qed.

(** X7. A SubscriptionConfirmation never yields events.  On a view built
    with the setting [auto_confirm_sns_subscriptions] at false,
    [parse_events] returns the empty list and does nothing.  With the
    setting unset or true: with a shared secret and a network that answers
    ok, it returns the empty list after one GET to the SubscribeURL; without
    a shared secret it raises a validation failure and sends nothing. *)
Theorem X7_confirmation_through_parse_events
        (setting : option bool) (secret : bool) (st st1 : state)
        (d : list (string * json)) :
  let self := AmazonSESTrackingWebhookView setting secret in
  _parse_sns_message st = (Ok (JObj d), st1) ->
  dict_get "Type" d = Some (JStr "SubscriptionConfirmation") ->
  (setting = Some false -> parse_events self st = (Ok [], st1))
  /\ (setting <> Some false -> secret = true ->
      forall url response,
        dict_get "SubscribeURL" d = Some url ->
        http_get url = Ok response -> ok response = true ->
        parse_events self st
        = (Ok [], mk_state (request st1) (outbound st1 ++ [url])
                           (dispatched st1) (body_loads st1)))
  /\ (setting <> Some false -> secret = false ->
      parse_events self st
      = (Raise (AnymailWebhookValidationFailure
                  (unexpected_confirmation_message
                     (get_or "TopicArn" d JNull) (get_or "Token" d JNull))
                  None),
         st1)).
Proof.
  intros self Hp Ht.
  assert (Hpe : parse_events self st
                = bind (auto_confirm_sns_subscription self (JObj d))
                       (fun _ => ret []) st1).
  { unfold parse_events, bind at 1 2. rewrite Hp. unfold lift at 1.
    unfold py_get at 1. rewrite Ht.
    change (eq_str (JStr "SubscriptionConfirmation") "Notification")
      with false.
    change (eq_str (JStr "SubscriptionConfirmation")
                   "SubscriptionConfirmation") with true.
    reflexivity. }
  assert (Hon : setting <> Some false -> auto_confirm_enabled self = true).
  { destruct setting as [[|]|]; cbn; congruence. }
  rewrite Hpe. unfold bind, auto_confirm_sns_subscription.
  split; [|split].
  - intros ->. reflexivity.
  - intros Hs -> url response Hurl Hget Hok. rewrite (Hon Hs).
    cbn [basic_auth self AmazonSESTrackingWebhookView negb].
    unfold bind, lift, py_getitem. rewrite Hurl. unfold requests_get.
    rewrite Hget, Hok. reflexivity.
  - intros Hs ->. rewrite (Hon Hs).
    cbn [basic_auth self AmazonSESTrackingWebhookView negb].
    unfold bind, lift. rewrite !py_get_dict. reflexivity.
Qed.

(** X8. With automatic confirmation enabled and a shared secret, an envelope
    without SubscribeURL makes [auto_confirm_sns_subscription] raise a
    KeyError before any request goes out. *)
Theorem X8_confirmation_without_url
        (self : View) (d : list (string * json)) (st : state) :
  auto_confirm_enabled self = true ->
  basic_auth self = true ->
  dict_get "SubscribeURL" d = None ->
  auto_confirm_sns_subscription self (JObj d) st
  = (Raise (Builtin KeyError), st).
Proof.
  intros Ha Hb Hurl. unfold auto_confirm_sns_subscription.
  rewrite Ha, Hb. cbn [negb]. unfold bind, lift, py_getitem.
  now rewrite Hurl.
Qed.

(** ** Running the normalizer on a well-formed Notification *)

(** The common properties of a well-formed Notification, key by key. *)
Lemma common_props_shape
      (ses_event sns_message : json) (addresses : list json) :
  well_formed_notification ses_event sns_message addresses ->
  exists ev sm event_id message_id metadata tags timestamp,
    ses_event = JObj ev
    /\ sns_message = JObj sm
    /\ common_and_default_props ses_event sns_message
       = Ok ([("esp_event", PyJson ses_event);
              ("event_id", PyJson event_id);
              ("message_id", PyJson message_id);
              ("metadata", PyJson metadata);
              ("tags", PyJson (JArr tags));
              ("timestamp", timestamp)],
             map (fun a => [("recipient", PyJson a)]) addresses).
Proof.
  intro Hwf. destruct (common_props_of_well_formed _ _ _ Hwf) as [common Hc].
  destruct (common_and_default_props_inv Hc)
    as (event_id & ts & mail & message_id & dest & headers & hl & md & tags
        & addrs & _ & _ & _ & _ & _ & _ & _ & _ & -> & _).
  destruct Hwf as (ev & sm & _ & _ & -> & -> & _).
  exists ev, sm, event_id, message_id, md, tags, ts. auto.
Qed.

(** Literal comparisons and lowercasing of literals are computed. *)
Ltac compute_literals :=
  repeat match goal with
         | |- context [eq_str (JStr ?a) ?b] =>
             let v := eval vm_compute in (eq_str (JStr a) b) in
             change (eq_str (JStr a) b) with v
         | |- context [py_lower (JStr ?a)] =>
             let v := eval vm_compute in (lower a) in
             change (py_lower (JStr a)) with (@Ok string v)
         end;
  cbn match.

(** The event built from concrete keyword arguments, with its attributes. *)
Ltac build_event :=
  match goal with
  | |- exists y, new_AnymailTrackingEvent ?kw = Ok y /\ _ =>
      let e := fresh "e" in
      let He := fresh "He" in
      let Het := fresh "Het" in
      let Hts := fresh "Hts" in
      let Heid := fresh "Heid" in
      let Hesp := fresh "Hesp" in
      let Hclick := fresh "Hclick" in
      let Hdesc := fresh "Hdesc" in
      let Hmid := fresh "Hmid" in
      let Hmd := fresh "Hmd" in
      let Hmta := fresh "Hmta" in
      let Hrcp := fresh "Hrcp" in
      let Hrr := fresh "Hrr" in
      let Htags := fresh "Htags" in
      let Hua := fresh "Hua" in
      edestruct (new_event_ok kw)
        as (e & He & Het & Hts & Heid & Hesp & Hclick & Hdesc & Hmid & Hmd
            & Hmta & Hrcp & Hrr & Htags & Hua);
      [kw_lookup
      |exists e; split; [exact He|];
       rewrite ?Het, ?Hts, ?Heid, ?Hesp, ?Hclick, ?Hdesc, ?Hmid, ?Hmd,
         ?Hmta, ?Hrcp, ?Hrr, ?Htags, ?Hua;
       repeat split; kw_lookup]
  end.

(** ** Deliveries and complaints *)

(** X9. A well-formed Notification of type Delivery yields one event per
    entry of the recipients list of its delivery object, in order - whatever
    the destination of the mail.  Each is of type DELIVERED, for that
    recipient, and all carry the smtpResponse of the delivery object as
    mta_response ([None] when there is none); they have no description and
    no reject reason. *)
Theorem X9_delivery_fan_out
        (ses_event sns_message : json) (addresses : list json)
        (detail : list (string * json)) (recipients : list json) :
  well_formed_notification ses_event sns_message addresses ->
  getfirst ses_event ["eventType"; "notificationType"]
           (JStr "<<type missing>>") = Ok (JStr "Delivery") ->
  py_get ses_event "delivery" (JObj []) = Ok (JObj detail) ->
  dict_get "recipients" detail = Some (JArr recipients) ->
  exists events,
    tracking_esp_to_anymail_events ses_event sns_message = Ok events
    /\ List.length events = List.length recipients
    /\ Forall2
         (fun address event =>
            event_type event = PyEventType EventType.DELIVERED
            /\ recipient event = PyJson address
            /\ mta_response event = PyJson (get_or "smtpResponse" detail JNull)
            /\ description event = PyNone
            /\ reject_reason event = PyNone)
         recipients events.
Proof.
  intros Hwf Htype Hdetail Hrec.
  destruct (common_props_shape _ _ _ Hwf)
    as (ev & sm & event_id & message_id & md & tags & ts & -> & -> & Hc).
  unfold tracking_esp_to_anymail_events, rbind.
  rewrite Hc, Htype. compute_literals. rewrite Hdetail.
  unfold props_of_event_type, rbind. compute_literals.
  rewrite py_get_dict. unfold py_getitem. rewrite Hrec. cbn [py_iter].
  rewrite comprehension_over_map.
  match goal with
  | |- exists events, comprehension ?f recipients = Ok events /\ _ =>
      destruct (@comprehension_total _ _ f
                  (fun address event =>
                     event_type event = PyEventType EventType.DELIVERED
                     /\ recipient event = PyJson address
                     /\ mta_response event
                        = PyJson (get_or "smtpResponse" detail JNull)
                     /\ description event = PyNone
                     /\ reject_reason event = PyNone)
                  recipients) as [events [Hev HF]]
  end.
  - apply Forall_forall. intros address _. build_event.
  - exists events. split; [exact Hev|]. split; [|exact HF].
    exact (Forall2_length_eq _ _ _ HF).
Qed.

(** The events of a list comprehension over [xs], given the relation each
    event bears to its element. *)
Ltac events_over xs R :=
  match goal with
  | |- exists events, comprehension ?f xs = Ok events /\ _ =>
      let events := fresh "events" in
      let Hev := fresh "Hev" in
      let HF := fresh "HF" in
      destruct (@comprehension_total _ _ f R xs) as [events [Hev HF]];
      [|exists events; split; [exact Hev|]; split; [|exact HF];
        exact (Forall2_length_eq _ _ _ HF)]
  end.

(** X10. A well-formed Notification of type Complaint yields one event per
    entry of the complainedRecipients list of its complaint object, in
    order, provided each entry has an emailAddress.  Each is of type
    COMPLAINED with reject reason SPAM, for the address of its entry; the
    description is the complaintFeedbackType and the user agent the
    userAgent of the complaint object ([None] when absent). *)
Theorem X10_complaint_fan_out
        (ses_event sns_message : json) (addresses : list json)
        (detail : list (string * json)) (entries : list json) :
  well_formed_notification ses_event sns_message addresses ->
  getfirst ses_event ["eventType"; "notificationType"]
           (JStr "<<type missing>>") = Ok (JStr "Complaint") ->
  py_get ses_event "complaint" (JObj []) = Ok (JObj detail) ->
  dict_get "complainedRecipients" detail = Some (JArr entries) ->
  Forall (fun entry => entry_address entry <> None) entries ->
  exists events,
    tracking_esp_to_anymail_events ses_event sns_message = Ok events
    /\ List.length events = List.length entries
    /\ Forall2
         (fun entry event =>
            event_type event = PyEventType EventType.COMPLAINED
            /\ reject_reason event = PyRejectReason RejectReason.SPAM
            /\ description event
               = PyJson (get_or "complaintFeedbackType" detail JNull)
            /\ user_agent event = PyJson (get_or "userAgent" detail JNull)
            /\ Some (recipient event)
               = option_map PyJson (entry_address entry))
         entries events.
Proof.
  intros Hwf Htype Hdetail Hrec Hentries.
  destruct (common_props_shape _ _ _ Hwf)
    as (ev & sm & event_id & message_id & md & tags & ts & -> & -> & Hc).
  unfold tracking_esp_to_anymail_events, rbind.
  rewrite Hc, Htype. compute_literals. rewrite Hdetail.
  unfold props_of_event_type, rbind. compute_literals.
  rewrite !py_get_dict. unfold py_getitem at 1. rewrite Hrec. cbn [py_iter].
  set (props_of := fun entry : json =>
         [("recipient", PyJson (or_default (entry_address entry) JNull))]).
  rewrite (comprehension_map _ props_of).
  2:{ eapply Forall_impl; [|exact Hentries]. intros entry Ha.
      destruct entry; cbn in Ha; try congruence.
      unfold props_of. cbn.
      destruct (dict_get "emailAddress" fields) as [a|]; [|congruence].
      reflexivity. }
  rewrite comprehension_over_map.
  events_over entries
    (fun (entry : json) (event : AnymailTrackingEvent) =>
       event_type event = PyEventType EventType.COMPLAINED
       /\ reject_reason event = PyRejectReason RejectReason.SPAM
       /\ description event
          = PyJson (get_or "complaintFeedbackType" detail JNull)
       /\ user_agent event = PyJson (get_or "userAgent" detail JNull)
       /\ Some (recipient event) = option_map PyJson (entry_address entry)).
  eapply Forall_impl; [|exact Hentries]. intros entry Ha.
  cbn beta in Ha |- *. unfold props_of. build_event.
  destruct (entry_address entry); [reflexivity | congruence].
Qed.

(** ** The types reported for every address of the destination *)

(** X11. A well-formed Notification of type Send yields one event per
    address of the mail's destination, in order - none when the mail has no
    destination.  Each is of type SENT, for that address, with no
    description, reject reason, mta_response, user agent or click url. *)
Theorem X11_send_per_destination
        (ses_event sns_message : json) (addresses : list json) :
  well_formed_notification ses_event sns_message addresses ->
  getfirst ses_event ["eventType"; "notificationType"]
           (JStr "<<type missing>>") = Ok (JStr "Send") ->
  exists events,
    tracking_esp_to_anymail_events ses_event sns_message = Ok events
    /\ List.length events = List.length addresses
    /\ Forall2
         (fun address event =>
            event_type event = PyEventType EventType.SENT
            /\ recipient event = PyJson address
            /\ description event = PyNone
            /\ reject_reason event = PyNone
            /\ mta_response event = PyNone
            /\ user_agent event = PyNone
            /\ click_url event = PyNone)
         addresses events.
Proof.
  intros Hwf Htype.
  destruct (common_props_shape _ _ _ Hwf)
    as (ev & sm & event_id & message_id & md & tags & ts & -> & -> & Hc).
  unfold tracking_esp_to_anymail_events, rbind.
  rewrite Hc, Htype. compute_literals. rewrite py_get_dict.
  unfold props_of_event_type, rbind. compute_literals.
  rewrite comprehension_over_map.
  events_over addresses
    (fun (address : json) (event : AnymailTrackingEvent) =>
       event_type event = PyEventType EventType.SENT
       /\ recipient event = PyJson address
       /\ description event = PyNone
       /\ reject_reason event = PyNone
       /\ mta_response event = PyNone
       /\ user_agent event = PyNone
       /\ click_url event = PyNone).
  apply Forall_forall. intros address _. build_event.
Qed.

(** X12. A well-formed Notification of type Open or Click yields one event
    per address of the mail's destination, in order, since SES does not say
    which recipient opened or clicked.  Each is of type OPENED (CLICKED),
    for that address, with the userAgent of the open (click) object as user
    agent; a Click also carries the link of the click object as click url,
    an Open has none. *)
Theorem X12_open_click_per_destination
        (ses_event sns_message : json) (addresses : list json)
        (detail : list (string * json)) :
  well_formed_notification ses_event sns_message addresses ->
  (getfirst ses_event ["eventType"; "notificationType"]
            (JStr "<<type missing>>") = Ok (JStr "Open") ->
   py_get ses_event "open" (JObj []) = Ok (JObj detail) ->
   exists events,
     tracking_esp_to_anymail_events ses_event sns_message = Ok events
     /\ List.length events = List.length addresses
     /\ Forall2
          (fun address event =>
             event_type event = PyEventType EventType.OPENED
             /\ recipient event = PyJson address
             /\ user_agent event = PyJson (get_or "userAgent" detail JNull)
             /\ click_url event = PyNone)
          addresses events)
  /\ (getfirst ses_event ["eventType"; "notificationType"]
               (JStr "<<type missing>>") = Ok (JStr "Click") ->
      py_get ses_event "click" (JObj []) = Ok (JObj detail) ->
      exists events,
        tracking_esp_to_anymail_events ses_event sns_message = Ok events
        /\ List.length events = List.length addresses
        /\ Forall2
             (fun address event =>
                event_type event = PyEventType EventType.CLICKED
                /\ recipient event = PyJson address
                /\ user_agent event
                   = PyJson (get_or "userAgent" detail JNull)
                /\ click_url event = PyJson (get_or "link" detail JNull))
             addresses events).
Proof.
  intros Hwf.
  destruct (common_props_shape _ _ _ Hwf)
    as (ev & sm & event_id & message_id & md & tags & ts & -> & -> & Hc).
  split; intros Htype Hdetail;
    unfold tracking_esp_to_anymail_events, rbind;
    rewrite Hc, Htype; compute_literals; rewrite Hdetail;
    unfold props_of_event_type, rbind; compute_literals;
    rewrite !py_get_dict; cbn match; rewrite comprehension_over_map.
  - events_over addresses
      (fun (address : json) (event : AnymailTrackingEvent) =>
         event_type event = PyEventType EventType.OPENED
         /\ recipient event = PyJson address
         /\ user_agent event = PyJson (get_or "userAgent" detail JNull)
         /\ click_url event = PyNone).
    apply Forall_forall. intros address _. build_event.
  - events_over addresses
      (fun (address : json) (event : AnymailTrackingEvent) =>
         event_type event = PyEventType EventType.CLICKED
         /\ recipient event = PyJson address
         /\ user_agent event = PyJson (get_or "userAgent" detail JNull)
         /\ click_url event = PyJson (get_or "link" detail JNull)).
    apply Forall_forall. intros address _. build_event.
Qed.

(** X13. A well-formed Notification of type Reject whose reject object gives
    a reason yields one event per address of the mail's destination, of type
    REJECTED with reject reason BLOCKED and the reason as description.
    Without a reason - in particular without a reject object - the
    normalizer raises a KeyError and yields nothing. *)
Theorem X13_reject
        (ses_event sns_message : json) (addresses : list json)
        (detail : list (string * json)) :
  well_formed_notification ses_event sns_message addresses ->
  getfirst ses_event ["eventType"; "notificationType"]
           (JStr "<<type missing>>") = Ok (JStr "Reject") ->
  py_get ses_event "reject" (JObj []) = Ok (JObj detail) ->
  (forall reason,
      dict_get "reason" detail = Some reason ->
      exists events,
        tracking_esp_to_anymail_events ses_event sns_message = Ok events
        /\ List.length events = List.length addresses
        /\ Forall2
             (fun address event =>
                event_type event = PyEventType EventType.REJECTED
                /\ recipient event = PyJson address
                /\ description event = PyJson reason
                /\ reject_reason event
                   = PyRejectReason RejectReason.BLOCKED)
             addresses events)
  /\ (dict_get "reason" detail = None ->
      tracking_esp_to_anymail_events ses_event sns_message
      = Raise (Builtin KeyError)).
Proof.
  intros Hwf Htype Hdetail.
  destruct (common_props_shape _ _ _ Hwf)
    as (ev & sm & event_id & message_id & md & tags & ts & -> & -> & Hc).
  unfold tracking_esp_to_anymail_events, rbind.
  rewrite Hc, Htype. compute_literals. rewrite Hdetail.
  unfold props_of_event_type, rbind. compute_literals.
  unfold py_getitem. split.
  - intros reason Hreason. rewrite Hreason.
    rewrite comprehension_over_map.
    events_over addresses
      (fun (address : json) (event : AnymailTrackingEvent) =>
         event_type event = PyEventType EventType.REJECTED
         /\ recipient event = PyJson address
         /\ description event = PyJson reason
         /\ reject_reason event = PyRejectReason RejectReason.BLOCKED).
    apply Forall_forall. intros address _. build_event.
  - intros ->. reflexivity.
Qed.

(** X14. For the type Rendering Failure the detail is read from the key
    [failure] of the event, not from the lowercased type.  A well-formed
    Notification whose failure object has an errorMessage yields one event
    per address of the mail's destination, of type FAILED with that message
    as description; an event without the key [failure] raises a KeyError,
    whatever it has under [rendering failure]. *)
Theorem X14_rendering_failure
        (ev : list (string * json)) (sns_message : json)
        (addresses : list json) :
  well_formed_notification (JObj ev) sns_message addresses ->
  getfirst (JObj ev) ["eventType"; "notificationType"]
           (JStr "<<type missing>>") = Ok (JStr "Rendering Failure") ->
  (forall detail error_message,
      dict_get "failure" ev = Some (JObj detail) ->
      dict_get "errorMessage" detail = Some error_message ->
      exists events,
        tracking_esp_to_anymail_events (JObj ev) sns_message = Ok events
        /\ List.length events = List.length addresses
        /\ Forall2
             (fun address event =>
                event_type event = PyEventType EventType.FAILED
                /\ recipient event = PyJson address
                /\ description event = PyJson error_message
                /\ reject_reason event = PyNone)
             addresses events)
  /\ (dict_get "failure" ev = None ->
      tracking_esp_to_anymail_events (JObj ev) sns_message
      = Raise (Builtin KeyError)).
Proof.
  intros Hwf Htype.
  destruct (common_props_shape _ _ _ Hwf)
    as (ev' & sm & event_id & message_id & md & tags & ts & Hev & -> & Hc).
  injection Hev as <-.
  unfold tracking_esp_to_anymail_events, rbind.
  rewrite Hc, Htype. compute_literals. rewrite py_get_dict.
  unfold props_of_event_type, rbind. compute_literals.
  unfold py_getitem. split.
  - intros detail error_message Hfailure Hmessage.
    rewrite Hfailure, Hmessage.
    rewrite comprehension_over_map.
    events_over addresses
      (fun (address : json) (event : AnymailTrackingEvent) =>
         event_type event = PyEventType EventType.FAILED
         /\ recipient event = PyJson address
         /\ description event = PyJson error_message
         /\ reject_reason event = PyNone).
    apply Forall_forall. intros address _. build_event.
  - intros ->. reflexivity.
Qed.

(** ** Failures of the normalizer *)

(** A comprehension stops at the first element that raises. *)
Lemma comprehension_raises {A B} (f : A -> result B) (before after : list A)
      (x : A) (e : exn) :
  Forall (fun a => exists b, f a = Ok b) before ->
  f x = Raise e ->
  comprehension f (before ++ x :: after) = Raise e.
Proof.
  intros Hbefore Hx. induction Hbefore as [|a rest [b Hb] _ IH]; cbn.
  - now rewrite Hx.
  - now rewrite Hb, IH.
Qed.

(** X15. The fields a Bounce requires are not defaulted.  On a well-formed
    Notification of type Bounce the normalizer raises a KeyError, and yields
    nothing, when the bounce object - the empty dict if the event has none -
    lacks bounceType, bounceSubType or bouncedRecipients, or when an entry
    of bouncedRecipients is a dict without emailAddress. *)
Theorem X15_bounce_missing_field
        (ses_event sns_message : json) (addresses : list json)
        (detail : list (string * json)) :
  well_formed_notification ses_event sns_message addresses ->
  getfirst ses_event ["eventType"; "notificationType"]
           (JStr "<<type missing>>") = Ok (JStr "Bounce") ->
  py_get ses_event "bounce" (JObj []) = Ok (JObj detail) ->
  (dict_get "bounceType" detail = None
   \/ dict_get "bounceSubType" detail = None
   \/ dict_get "bouncedRecipients" detail = None
   \/ exists before entry after,
        dict_get "bouncedRecipients" detail
        = Some (JArr (before ++ JObj entry :: after))
        /\ Forall (fun e => entry_address e <> None) before
        /\ dict_get "emailAddress" entry = None) ->
  tracking_esp_to_anymail_events ses_event sns_message
  = Raise (Builtin KeyError).
Proof.
  intros Hwf Htype Hdetail Hmissing.
  destruct (common_props_shape _ _ _ Hwf)
    as (ev & sm & event_id & message_id & md & tags & ts & -> & -> & Hc).
  unfold tracking_esp_to_anymail_events, rbind.
  rewrite Hc, Htype. compute_literals. rewrite Hdetail.
  unfold props_of_event_type, rbind. compute_literals.
  unfold py_getitem at 1 2 3.
  destruct (dict_get "bounceType" detail) as [bt|] eqn:Hbt; [|reflexivity].
  destruct (dict_get "bounceSubType" detail) as [bst|] eqn:Hbst;
    [|reflexivity].
  destruct (dict_get "bouncedRecipients" detail) as [rs|] eqn:Hrs;
    [|reflexivity].
  destruct Hmissing as [H | [H | [H | H]]]; try discriminate.
  destruct H as (before & entry & after & Heq & Hbefore & Hno).
  injection Heq as ->. cbn [py_iter].
  rewrite (comprehension_raises _ before after (JObj entry)
             (Builtin KeyError)); [reflexivity| |].
  - eapply Forall_impl; [|exact Hbefore]. intros x Hx.
    destruct x; cbn in Hx; try congruence. cbn.
    destruct (dict_get "emailAddress" fields); [|congruence].
    destruct (dict_get "diagnosticCode" fields); eauto.
  - cbn. now rewrite Hno.
Qed.

(** X16. The event type must be a str.  On a well-formed Notification whose
    eventType (or, without it, notificationType) is a number, true, false,
    null, a list or a dict, the normalizer raises an AttributeError instead
    of falling back to the type UNKNOWN. *)
Theorem X16_event_type_not_str
        (ses_event sns_message : json) (addresses : list json)
        (ses_event_type : json) :
  well_formed_notification ses_event sns_message addresses ->
  getfirst ses_event ["eventType"; "notificationType"]
           (JStr "<<type missing>>") = Ok ses_event_type ->
  is_str ses_event_type = false ->
  tracking_esp_to_anymail_events ses_event sns_message
  = Raise (Builtin AttributeError).
Proof.
  intros Hwf Htype Hstr.
  destruct (common_props_shape _ _ _ Hwf)
    as (ev & sm & event_id & message_id & md & tags & ts & -> & -> & Hc).
  unfold tracking_esp_to_anymail_events, rbind. rewrite Hc, Htype.
  destruct ses_event_type; try discriminate; reflexivity.
Qed.

(** ** The attributes taken from the envelope and the mail *)

(** Every event reads the attributes of the envelope and of the mail from
    the common properties. *)
Lemma events_common_fields (ses_event sns_message : json)
      (events : list AnymailTrackingEvent) :
  tracking_esp_to_anymail_events ses_event sns_message = Ok events ->
  exists common rps,
    common_and_default_props ses_event sns_message = Ok (common, rps)
    /\ Forall (fun e =>
                 timestamp e = pop "timestamp" PyNone common
                 /\ event_id e = pop "event_id" PyNone common
                 /\ message_id e = pop "message_id" PyNone common
                 /\ tags e = pop "tags" (PyJson (JArr [])) common)
              events.
Proof.
  intro Hrun.
  destruct (tracking_inv Hrun)
    as (common & rps & t & key & eo & common' & rps' & Hc & _ & _ & _
        & Hbranch & Hevents).
  exists common, rps. split; [exact Hc|].
  destruct (common_and_default_props_inv Hc)
    as (event_id & ts & mail & message_id & dest & headers & hl & md
        & tags & addrs & _ & _ & _ & _ & _ & _ & _ & _ & _ & ->).
  destruct (props_of_event_type_inv Hbranch (default_props_keys _))
    as (extra & -> & Hextra & _ & Hrps' & _).
  rewrite Forall_forall in Hrps'.
  apply Forall_forall. intros e Hin.
  destruct (Forall2_In_r Hevents Hin) as (rp & Hrp & Hnew).
  destruct (event_of_props Hnew (Hrps' _ Hrp))
    as (_ & Hts & Heid & _ & _ & _ & Hmid & _ & _ & _ & Htags & _).
  rewrite Hts, Heid, Hmid, Htags by not_in.
  rewrite !(pop_update_other _ _ _ Hextra) by not_in.
  auto.
Qed.

Lemma scan_header_tags (header metadata metadata' : json)
      (tags tags' : list json) :
  scan_header (metadata, tags) header = Ok (metadata', tags') ->
  tags' = tags ++ tag_values [header].
Proof.
  unfold scan_header, rbind, py_getitem, tag_values.
  destruct header as [| | | | |items|d]; try discriminate.
  destruct (dict_get "name" d) as [[| | | |name| |]|]; try discriminate.
  cbn [py_lower].
  destruct (String.eqb (lower name) "x-tag") eqn:Etag.
  - destruct (dict_get "value" d); [|discriminate].
    intro H. now injection H as _ <-.
  - assert (Hkeep : tags ++ match dict_get "value" d with
                            | Some _ => []
                            | None => []
                            end = tags)
      by (destruct (dict_get "value" d); apply app_nil_r).
    rewrite Hkeep.
    destruct (String.eqb (lower name) "x-metadata").
    + destruct (dict_get "value" d) as [[| | | |s| |]|]; cbn;
        try (intro H; now injection H as _ <-).
      unfold py_json_loads. destruct (json_loads s); cbn;
        intro H; now injection H as _ <-.
    + intro H. now injection H as _ <-.
Qed.

Lemma tag_values_cons (header : json) (rest : list json) :
  tag_values (header :: rest) = tag_values [header] ++ tag_values rest.
Proof.
  cbn. destruct header; try reflexivity.
  destruct (dict_get "name" fields) as [[| | | |name| |]|]; try reflexivity.
  destruct (dict_get "value" fields); try reflexivity.
  destruct (String.eqb (lower name) "x-tag"); reflexivity.
Qed.

Lemma for_each_scan_tags (headers : list json) (metadata metadata' : json)
      (tags tags' : list json) :
  for_each scan_header (metadata, tags) headers = Ok (metadata', tags') ->
  tags' = tags ++ tag_values headers.
Proof.
  revert metadata tags. induction headers as [|header rest IH];
    intros metadata tags.
  - cbn. intro H. injection H as _ <-. now rewrite app_nil_r.
  - cbn [for_each]. unfold rbind.
    destruct (scan_header (metadata, tags) header) as [[md1 t1]|] eqn:Hs;
      [|discriminate].
    intro H. apply IH in H. apply scan_header_tags in Hs. subst t1 tags'.
    now rewrite (tag_values_cons header rest), app_assoc.
Qed.

(** X17. The events of a Notification carry as tags the values of the mail
    headers named x-tag (in any letter case), in the order of the headers,
    and the empty list when there is none.  Unlike a metadata header, an
    x-tag header without value stops the normalizer with a KeyError. *)
Theorem X17_tags_of_headers :
  (forall ses_event sns_message mail_object headers events,
      tracking_esp_to_anymail_events ses_event sns_message = Ok events ->
      py_get ses_event "mail" (JObj []) = Ok mail_object ->
      py_get mail_object "headers" (JArr []) = Ok (JArr headers) ->
      Forall (fun event => tags event = PyJson (JArr (tag_values headers)))
             events)
  /\ (forall d name acc,
         dict_get "name" d = Some (JStr name) ->
         lower name = "x-tag" ->
         dict_get "value" d = None ->
         scan_header acc (JObj d) = Raise (Builtin KeyError)).
Proof.
  split.
  - intros ses_event sns_message mail_object headers events Hrun Hmail Hhdr.
    destruct (events_common_fields _ _ _ Hrun)
      as (common & rps & Hc & Hfields).
    destruct (common_and_default_props_inv Hc)
      as (event_id & ts & mail' & message_id & dest & headers' & hl & md
          & tags & addrs & _ & Hmail' & _ & _ & Hhdr' & Hit & Hscan & _
          & -> & _).
    rewrite Hmail in Hmail'. injection Hmail' as <-.
    rewrite Hhdr in Hhdr'. injection Hhdr' as <-.
    cbn in Hit. injection Hit as <-.
    apply for_each_scan_tags in Hscan. cbn in Hscan. subst tags.
    eapply Forall_impl; [|exact Hfields].
    intros e (_ & _ & _ & Htags). rewrite Htags. reflexivity.
  - intros d name [metadata tags] Hname Hlower Hvalue.
    unfold scan_header, rbind, py_getitem. rewrite Hname. cbn [py_lower].
    rewrite Hlower. cbn. now rewrite Hvalue.
Qed.

(** The timestamp among the common properties. *)
Lemma common_props_timestamp (ses_event : json) (sm : list (string * json))
      (common : kwargs) (rps : list kwargs) :
  common_and_default_props ses_event (JObj sm) = Ok (common, rps) ->
  pop "timestamp" PyNone common = envelope_timestamp sm.
Proof.
  unfold common_and_default_props, rbind.
  destruct (py_get (JObj sm) "MessageId" JNull) as [event_id|];
    [|discriminate].
  destruct (try_except _ _ _) as [ts|] eqn:Hts; [|discriminate].
  destruct (py_get ses_event "mail" (JObj [])) as [mail_object|];
    [|discriminate].
  destruct (py_get mail_object "messageId" JNull) as [message_id|];
    [|discriminate].
  destruct (py_get mail_object "destination" (JArr []))
    as [all_recipients|]; [|discriminate].
  destruct (py_get mail_object "headers" (JArr [])) as [headers|];
    [|discriminate].
  destruct (py_iter headers) as [header_list|]; [|discriminate].
  destruct (for_each scan_header (JObj [], []) header_list)
    as [[metadata tags]|]; [|discriminate].
  destruct (py_iter all_recipients) as [addresses|]; [|discriminate].
  intro H. injection H as <- _.
  transitivity ts; [reflexivity|].
  unfold try_except, py_getitem, parse_datetime, envelope_timestamp,
    rbind in *.
  destruct (dict_get "Timestamp" sm) as [v|].
  - destruct v; try discriminate.
    destruct (django_parse_datetime s); cbn in Hts; now injection Hts.
  - cbn in Hts. now injection Hts.
Qed.

(** X18. The events of a Notification carry the Timestamp of the envelope as
    [parse_datetime] reads it; an envelope without Timestamp, or with one
    that is no datetime, gives events without timestamp and does not fail.
    A Timestamp that is not a str makes the normalizer raise a TypeError.
    On a well-formed Notification - its Timestamp absent, or any str at
    all - the normalizer does return: whenever the branch on the event type
    does, with one event for each per-recipient dict of that branch, each
    carrying that timestamp. *)
Theorem X18_timestamp
        (ses_event : json) (sm : list (string * json)) :
  (forall events,
      tracking_esp_to_anymail_events ses_event (JObj sm) = Ok events ->
      Forall (fun event => timestamp event = envelope_timestamp sm) events)
  /\ (forall v,
         dict_get "Timestamp" sm = Some v -> is_str v = false ->
         tracking_esp_to_anymail_events ses_event (JObj sm)
         = Raise (Builtin TypeError))
  /\ (forall addresses subtype event_object common rps,
         well_formed_notification ses_event (JObj sm) addresses ->
         getfirst ses_event ["eventType"; "notificationType"]
                  (JStr "<<type missing>>") = Ok (JStr subtype) ->
         py_get ses_event (lower subtype) (JObj []) = Ok event_object ->
         props_of_event_type ses_event (JStr subtype) event_object []
                             (default_recipient_props addresses)
         = Ok (common, rps) ->
         exists events,
           tracking_esp_to_anymail_events ses_event (JObj sm) = Ok events
           /\ List.length events = List.length rps
           /\ Forall (fun event => timestamp event = envelope_timestamp sm)
                     events
           /\ (dict_get "Timestamp" sm = None ->
               Forall (fun event => timestamp event = PyNone) events)
           /\ (forall s,
                  dict_get "Timestamp" sm = Some (JStr s) ->
                  (forall t, django_parse_datetime s <> ParsedDatetime t) ->
                  Forall (fun event => timestamp event = PyNone) events)).
Proof.
  assert (Hcarried :
            forall events,
              tracking_esp_to_anymail_events ses_event (JObj sm) = Ok events ->
              Forall (fun event => timestamp event = envelope_timestamp sm)
                     events).
  { intros events Hrun.
    destruct (events_common_fields _ _ _ Hrun)
      as (common & rps & Hc & Hfields).
    apply common_props_timestamp in Hc.
    eapply Forall_impl; [|exact Hfields].
    intros e (Hts & _). now rewrite Hts. }
  split; [exact Hcarried|]. split.
  - intros v Hv Hstr.
    unfold tracking_esp_to_anymail_events, common_and_default_props, rbind.
    rewrite py_get_dict. unfold py_getitem. rewrite Hv.
    destruct v; try discriminate; reflexivity.
  - intros addresses subtype event_object common rps Hwf Htype Hobj Hbranch.
    destruct (normalizer_on_branch _ _ _ _ _ Hwf Htype Hobj)
      as (Hreturns & _).
    destruct (Hreturns _ _ Hbranch) as (events & Hrun & Hlen).
    exists events. split; [exact Hrun|]. split; [exact Hlen|].
    pose proof (Hcarried _ Hrun) as Hts.
    split; [exact Hts|]. split.
    + intros Habsent. eapply Forall_impl; [|exact Hts].
      intros e He. cbn beta in He |- *. rewrite He.
      unfold envelope_timestamp. now rewrite Habsent.
    + intros s Hs Hbad. eapply Forall_impl; [|exact Hts].
      intros e He. cbn beta in He |- *. rewrite He.
      unfold envelope_timestamp. rewrite Hs.
      destruct (django_parse_datetime s) as [t| |] eqn:Hparse;
        [now destruct (Hbad t) | reflexivity | reflexivity].
Qed.

(** X19. On every event of a Notification, event_id is the MessageId of the
    SNS envelope and message_id is the messageId of the mail of the SES
    event - each [None] when the key is absent. *)
Theorem X19_event_and_message_id
        (ses_event sns_message mail_object sns_id mail_id : json)
        (events : list AnymailTrackingEvent) :
  tracking_esp_to_anymail_events ses_event sns_message = Ok events ->
  py_get sns_message "MessageId" JNull = Ok sns_id ->
  py_get ses_event "mail" (JObj []) = Ok mail_object ->
  py_get mail_object "messageId" JNull = Ok mail_id ->
  Forall (fun event =>
            event_id event = PyJson sns_id
            /\ message_id event = PyJson mail_id)
         events.
Proof.
  intros Hrun Hsns Hmail Hmid.
  destruct (events_common_fields _ _ _ Hrun)
    as (common & rps & Hc & Hfields).
  destruct (common_and_default_props_inv Hc)
    as (eid & ts & mail' & mid & dest & headers & hl & md & tags & addrs
        & Heid & Hmail' & Hmid' & _ & _ & _ & _ & _ & -> & _).
  rewrite Hsns in Heid. injection Heid as <-.
  rewrite Hmail in Hmail'. injection Hmail' as <-.
  rewrite Hmid in Hmid'. injection Hmid' as <-.
  eapply Forall_impl; [|exact Hfields].
  intros e (_ & He & Hm & _). rewrite He, Hm. split; reflexivity.
Qed.

End Properties.

(** * The statements on the samples *)

Import Samples.

(** Well-formedness of a sample Notification, by running the reads. *)
Ltac well_formed_sample :=
  do 4 eexists; do 2 (split; [reflexivity|]);
  split; [first [left; reflexivity | right; eexists; reflexivity]|];
  do 2 (split; [reflexivity|]);
  split;
  [repeat (constructor;
           [do 2 eexists; split; [reflexivity|]; split; [reflexivity|];
            intros _; cbn; discriminate|]);
   constructor
  |reflexivity].

(** C1 on the sample confirmation: without shared secret the handler raises
    and sends nothing, although the network would accept; with the secret
    and a network that refuses, one GET goes out and the refusal is
    raised. *)
Lemma C1_witness :
  (auto_confirm_enabled (view_without_secret accepting) = true
   /\ basic_auth (view_without_secret accepting) = false
   /\ @auto_confirm_sns_subscription accepting (view_without_secret accepting)
        (JObj confirmation_envelope) (initial confirmation_request)
      = (Raise (AnymailWebhookValidationFailure
                  (@unexpected_confirmation_message accepting
                     (JStr "arn:aws:sns:us-east-1:1234:ses-events")
                     (JStr "2336412f37fb"))
                  None),
         initial confirmation_request))
  /\ (basic_auth (view_with_secret refusing) = true
      /\ outbound
           (snd (@auto_confirm_sns_subscription refusing
                   (view_with_secret refusing) (JObj confirmation_envelope)
                   (initial confirmation_request)))
         = [JStr "https://sns.us-east-1.amazonaws.com/?Action=ConfirmSubscription"]
      /\ fst (@auto_confirm_sns_subscription refusing
                (view_with_secret refusing) (JObj confirmation_envelope)
                (initial confirmation_request))
         = Raise (AnymailWebhookValidationFailure
                    (@confirmation_error_message refusing 403
                       (JStr "arn:aws:sns:us-east-1:1234:ses-events")
                       "Forbidden")
                    None)).
Proof.
  split.
  - pose proof (@C1_auto_confirm_sns_subscription accepting
                  (view_without_secret accepting) confirmation_envelope
                  (initial confirmation_request)) as H.
    cbn zeta in H. destruct H as (_ & Hno & _).
    destruct (Hno eq_refl eq_refl) as (Hrun & _).
    split; [reflexivity|]. split; [reflexivity|]. exact Hrun.
  - pose proof (@C1_auto_confirm_sns_subscription refusing
                  (view_with_secret refusing) confirmation_envelope
                  (initial confirmation_request)) as H.
    cbn zeta in H. destruct H as (_ & _ & Hyes).
    destruct (Hyes eq_refl eq_refl _ eq_refl)
      as (Hout & _ & _ & Hfail & _).
    destruct (Hfail _ eq_refl eq_refl) as (Hrun & _).
    split; [reflexivity|]. split; [exact Hout | exact Hrun].
Defined.

(** C2 on a request whose header says Notification and whose body says
    SubscriptionConfirmation. *)
Lemma C2_witness :
  @_parse_sns_message accepting (initial mismatched_request)
  = (Ok (JObj mismatched_envelope),
     decoded mismatched_request (JObj mismatched_envelope))
  /\ fst (@validate_request accepting (initial mismatched_request))
     = Raise (AnymailWebhookValidationFailure
                (@type_mismatch_message accepting "Notification"
                   (JStr "SubscriptionConfirmation"))
                None).
Proof.
  assert (Hp : @_parse_sns_message accepting (initial mismatched_request)
               = (Ok (JObj mismatched_envelope),
                  decoded mismatched_request (JObj mismatched_envelope)))
    by (vm_compute; reflexivity).
  split; [exact Hp|].
  destruct (@C2_validate_request_rules accepting
              (view_with_secret accepting) (initial mismatched_request))
    as (Hrules & _).
  pose proof (Hrules _ _ Hp) as H.
  cbn zeta in H. destruct H as (_ & _ & Hmismatch & _).
  apply Hmismatch. vm_compute. discriminate.
Defined.

(** C3 on the sample Bounce of two recipients. *)
Lemma C3_witness :
  well_formed_notification bounce_event sns_notification
                           [JStr "a@x.com"; JStr "b@x.com"]
  /\ Forall (fun entry => entry_address entry <> None) bounce_entries
  /\ exists events,
       @tracking_esp_to_anymail_events accepting bounce_event sns_notification
       = Ok events
       /\ List.length events = 2%nat.
Proof.
  assert (Hentries : Forall (fun entry => entry_address entry <> None)
                            bounce_entries)
    by (repeat constructor; discriminate).
  assert (Hwf : well_formed_notification bounce_event sns_notification
                                         [JStr "a@x.com"; JStr "b@x.com"]).
  { do 4 eexists. do 2 (split; [reflexivity|]).
    split; [right; eexists; reflexivity|].
    do 2 (split; [reflexivity|]). split; [constructor | reflexivity]. }
  split; [exact Hwf|]. split; [exact Hentries|].
  destruct (@C3_bounce_fan_out accepting bounce_event sns_notification
              _ bounce_detail (JStr "Permanent") (JStr "General")
              bounce_entries Hwf eq_refl eq_refl eq_refl eq_refl eq_refl
              Hentries)
    as (events & Hrun & Hlen & _).
  exists events. split; [exact Hrun | exact Hlen].
Defined.

(** C4 on the sample event of type Subscription. *)
Lemma C4_witness :
  well_formed_notification (JObj subscription_fields) sns_notification
                           [JStr "a@x.com"; JStr "b@x.com"]
  /\ ~ In "Subscription" recognized_event_types
  /\ exists events,
       @tracking_esp_to_anymail_events accepting (JObj subscription_fields)
         sns_notification = Ok events
       /\ List.length events = 2%nat.
Proof.
  assert (Hunknown : ~ In "Subscription" recognized_event_types).
  { cbn. intro H. repeat (destruct H as [H|H]; [discriminate H|]). exact H. }
  assert (Hwf : well_formed_notification (JObj subscription_fields)
                                         sns_notification
                                         [JStr "a@x.com"; JStr "b@x.com"]).
  { do 4 eexists. do 2 (split; [reflexivity|]).
    split; [right; eexists; reflexivity|].
    do 2 (split; [reflexivity|]). split; [constructor | reflexivity]. }
  split; [exact Hwf|]. split; [exact Hunknown|].
  destruct (@C4_unknown_event_type accepting subscription_fields
              sns_notification _ "Subscription" Hwf)
    as (_ & Hmain).
  destruct (Hmain eq_refl Hunknown) as (events & Hrun & Hlen & _).
  exists events. split; [exact Hrun | exact Hlen].
Defined.

(** C5 on a body that is not JSON. *)
Lemma C5_witness :
  @undecodable_body accepting not_json_request
  /\ exists cause,
       fst (@_parse_sns_message accepting (initial not_json_request))
       = Raise (AnymailWebhookValidationFailure
                  (@malformed_body_message accepting (body not_json_request))
                  (Some cause))
       /\ dispatched (snd (@base_post accepting (view_with_secret accepting)
                             (initial not_json_request))) = [].
Proof.
  assert (Hbad : @undecodable_body accepting not_json_request).
  { right. exists "not json". split; vm_compute; reflexivity. }
  split; [exact Hbad|].
  destruct (@C5_decoder_failure_is_validation_failure accepting
              (view_with_secret accepting) (initial not_json_request)
              eq_refl Hbad)
    as (cause & Hr & _ & _ & _ & _ & Hd & _).
  exists cause. split; [exact Hr | exact Hd].
Defined.

(** C6 on the Notification that follows a confirmation. *)
Lemma C6_witness :
  @py_json_loads accepting (JStr topic_validated_notice)
  = Raise (Builtin ValueError)
  /\ @parse_events accepting (view_with_secret accepting)
       (initial topic_validated_request)
     = (Ok [], decoded topic_validated_request topic_validated_envelope).
Proof.
  assert (Hl : @py_json_loads accepting (JStr topic_validated_notice)
               = Raise (Builtin ValueError)) by (vm_compute; reflexivity).
  split; [exact Hl|].
  assert (Hp : @_parse_sns_message accepting (initial topic_validated_request)
               = (Ok topic_validated_envelope,
                  decoded topic_validated_request topic_validated_envelope))
    by (vm_compute; reflexivity).
  destruct (@C6_undecodable_message accepting (view_with_secret accepting)
              _ _ _ (JStr topic_validated_notice) _ Hp eq_refl eq_refl Hl)
    as (Hiff & _).
  apply Hiff. reflexivity.
Defined.

(** C7 on the sample Send event, whose only metadata header is not JSON:
    the normalizer returns its two events, with empty metadata. *)
Lemma C7_witness :
  decoded_value (P := accepting) (header "X-Metadata" "{not json") = None
  /\ exists events,
       @tracking_esp_to_anymail_events accepting send_event sns_notification
       = Ok events
       /\ List.length events = 2%nat
       /\ Forall (fun event => metadata event = PyJson (JObj [])) events.
Proof.
  split; [vm_compute; reflexivity|].
  assert (Hwf : well_formed_notification send_event sns_notification
                                         [JStr "a@x.com"; JStr "b@x.com"])
    by well_formed_sample.
  destruct (@C7_metadata_resilience accepting)
    as (_ & _ & _ & _ & Hreturns & _).
  destruct (Hreturns send_event sns_notification
                     [JStr "a@x.com"; JStr "b@x.com"]
                     (mail_with bad_metadata_headers) bad_metadata_headers
                     "Send" (JObj [])
                     (update [] [("event_type", PyEventType EventType.SENT)])
                     (default_recipient_props
                        [JStr "a@x.com"; JStr "b@x.com"])
                     Hwf eq_refl eq_refl eq_refl eq_refl eq_refl)
    as (events & Hrun & Hlen & Hmd).
  exists events. split; [exact Hrun|]. split; [exact Hlen | exact Hmd].
Defined.


(** C9 on the sample UnsubscribeConfirmation: the second call of the decoder
    answers from the request. *)
Lemma C9_witness :
  @_parse_sns_message accepting (initial unsubscribe_request)
  = (Ok unsubscribe_envelope,
     decoded unsubscribe_request unsubscribe_envelope)
  /\ @_parse_sns_message accepting
       (decoded unsubscribe_request unsubscribe_envelope)
     = (Ok unsubscribe_envelope,
        decoded unsubscribe_request unsubscribe_envelope).
Proof.
  assert (Hp : @_parse_sns_message accepting (initial unsubscribe_request)
               = (Ok unsubscribe_envelope,
                  decoded unsubscribe_request unsubscribe_envelope))
    by (vm_compute; reflexivity).
  split; [exact Hp|].
  destruct (@C9_decode_memoized accepting (view_with_secret accepting)
              (initial unsubscribe_request)) as (Hmemo & _).
  exact (Hmemo _ _ Hp).
Defined.

(** C10 on the sample UnsubscribeConfirmation. *)
Lemma C10_witness :
  @validate_request accepting (initial unsubscribe_request)
  = (Ok tt, decoded unsubscribe_request unsubscribe_envelope)
  /\ @parse_events accepting (view_with_secret accepting)
       (decoded unsubscribe_request unsubscribe_envelope)
     = (Ok [], decoded unsubscribe_request unsubscribe_envelope).
Proof.
  assert (Hv : @validate_request accepting (initial unsubscribe_request)
               = (Ok tt, decoded unsubscribe_request unsubscribe_envelope))
    by (vm_compute; reflexivity).
  split; [exact Hv|].
  destruct (@C10_other_types_ignored accepting (view_with_secret accepting)
              _ _ Hv) as (_ & Hrun & _);
    try (vm_compute; discriminate).
  exact Hrun.
Defined.

(** Against C5 as it is stated.  On a body that is not JSON the decoder
    raises the validation failure itself, not an error of another kind; and
    a body that is JSON but not an object - here an array - is returned by
    the decoder as it is. *)
Lemma C5_counterexample :
  @undecodable_body accepting not_json_request
  /\ (exists e,
         fst (@_parse_sns_message accepting (initial not_json_request))
         = Raise e
         /\ is_validation_failure e = true)
  /\ fst (@_parse_sns_message accepting (initial array_request))
     = Ok (JArr [JInt 1; JInt 2]).
Proof.
  split; [|split].
  - right. exists "not json". split; vm_compute; reflexivity.
  - eexists. split; [lazy; reflexivity | reflexivity].
  - vm_compute. reflexivity.
Qed.


(** * The further properties on the samples *)

Import MoreSamples.

(** Against C2 as it is stated.  A request whose body is a JSON array and
    whose header declares the type Bogus breaks the second rule, and
    [validate_request] raises an AttributeError on it, which is no
    validation failure.  A request whose body is not JSON is refused with
    the decoder's validation failure although its header declares a known
    type and no rule was tried. *)
Lemma C2_counterexample :
  (~ In (header_type bogus_array_request) sns_message_types
   /\ fst (@validate_request accepting (initial bogus_array_request))
      = Raise (Builtin AttributeError)
   /\ is_validation_failure (Builtin AttributeError) = false)
  /\ (In (header_type not_json_request) sns_message_types
      /\ fst (@validate_request accepting (initial not_json_request))
         = Raise (AnymailWebhookValidationFailure
                    (@malformed_body_message accepting
                       (body not_json_request))
                    (Some ValueError))).
Proof.
  split; split.
  - cbn. intro H. repeat (destruct H as [H|H]; [discriminate H|]). exact H.
  - split; [vm_compute; reflexivity | reflexivity].
  - cbn. tauto.
  - vm_compute. reflexivity.
Qed.

(** X1 on the sample Delivery request, which has no Authorization header. *)
Lemma X1_witness :
  @post accepting (view_with_secret accepting) (initial delivery_request)
  = (Ok challenge, initial delivery_request).
Proof.
  destruct (@X1_post_challenge accepting (view_with_secret accepting)
              (initial delivery_request)) as (Hchallenge & _).
  apply Hchallenge; reflexivity.
Defined.

(** X2 on the body [[1, 2]]. *)
Lemma X2_witness :
  @_parse_sns_message accepting (initial array_request)
  = (Ok (JArr [JInt 1; JInt 2]),
     decoded array_request (JArr [JInt 1; JInt 2]))
  /\ @validate_request accepting (initial array_request)
     = (Raise (Builtin AttributeError),
        decoded array_request (JArr [JInt 1; JInt 2])).
Proof.
  assert (Hp : @_parse_sns_message accepting (initial array_request)
               = (Ok (JArr [JInt 1; JInt 2]),
                  decoded array_request (JArr [JInt 1; JInt 2])))
    by (vm_compute; reflexivity).
  split; [exact Hp|].
  exact (proj1 (@X2_validate_request_non_object accepting _ _ _ Hp eq_refl)).
Defined.

(** X3 on a Notification without any message id. *)
Lemma X3_witness :
  @_parse_sns_message accepting (initial anonymous_request)
  = (Ok (JObj anonymous_envelope),
     decoded anonymous_request (JObj anonymous_envelope))
  /\ @validate_request accepting (initial anonymous_request)
     = (Ok tt, decoded anonymous_request (JObj anonymous_envelope)).
Proof.
  assert (Hp : @_parse_sns_message accepting (initial anonymous_request)
               = (Ok (JObj anonymous_envelope),
                  decoded anonymous_request (JObj anonymous_envelope)))
    by (vm_compute; reflexivity).
  split; [exact Hp|].
  destruct (@X3_validate_request_missing accepting _ _ _ Hp) as (Haccept & _).
  apply Haccept; try reflexivity. cbn. tauto.
Defined.

(** X4 on the request whose header and body disagree: the refusal is the
    same the second time. *)
Lemma X4_witness :
  @validate_request accepting
    (decoded mismatched_request (JObj mismatched_envelope))
  = (Raise (AnymailWebhookValidationFailure
              (@type_mismatch_message accepting "Notification"
                 (JStr "SubscriptionConfirmation"))
              None),
     decoded mismatched_request (JObj mismatched_envelope)).
Proof.
  apply (@X4_validate_request_repeatable accepting
           (initial mismatched_request)).
  - vm_compute. reflexivity.
  - discriminate.
Defined.

(** X5 on the sample Delivery request. *)
Lemma X5_witness :
  outbound (snd (@validate_request accepting (initial delivery_request))) = []
  /\ dispatched (snd (@validate_request accepting (initial delivery_request)))
     = [].
Proof.
  pose proof (@X5_validate_request_frame accepting
                (initial delivery_request)) as H.
  cbn zeta in H. destruct H as (Ho & Hd & _).
  split; [exact Ho | exact Hd].
Defined.

(** X6 on a Notification that carries a Send event. *)
Lemma X6_witness :
  @py_json_loads accepting send_message = Ok bare_send_event
  /\ @parse_events accepting (AmazonSESBaseWebhookView None true)
       (initial send_request)
     = (Raise (Builtin NotImplementedError),
        decoded send_request send_envelope).
Proof.
  assert (Hl : @py_json_loads accepting send_message = Ok bare_send_event)
    by (vm_compute; reflexivity).
  split; [exact Hl|].
  assert (Hp : @_parse_sns_message accepting (initial send_request)
               = (Ok send_envelope, decoded send_request send_envelope))
    by (vm_compute; reflexivity).
  destruct (@X6_notification_to_normalizer accepting
              (view_with_secret accepting) _ _ _ send_message
              bare_send_event Hp eq_refl eq_refl Hl) as (_ & Hbase & _).
  apply Hbase.
Defined.

(** X7 on the sample confirmation, with a secret and a network that
    accepts. *)
Lemma X7_witness :
  @parse_events accepting (view_with_secret accepting)
    (initial confirmation_request)
  = (Ok [],
     mk_state (request (decoded confirmation_request
                                (JObj confirmation_envelope)))
              [JStr "https://sns.us-east-1.amazonaws.com/?Action=ConfirmSubscription"]
              [] 1).
Proof.
  assert (Hp : @_parse_sns_message accepting (initial confirmation_request)
               = (Ok (JObj confirmation_envelope),
                  decoded confirmation_request (JObj confirmation_envelope)))
    by (vm_compute; reflexivity).
  pose proof (@X7_confirmation_through_parse_events accepting None true
                _ _ _ Hp eq_refl) as H.
  cbn zeta in H. destruct H as (_ & Hok & _).
  refine (Hok _ eq_refl _ _ eq_refl eq_refl eq_refl). discriminate.
Defined.

(** X8 on a confirmation without SubscribeURL. *)
Lemma X8_witness :
  @auto_confirm_sns_subscription accepting (view_with_secret accepting)
    (JObj confirmation_without_url) (initial confirmation_request)
  = (Raise (Builtin KeyError), initial confirmation_request).
Proof.
  apply (@X8_confirmation_without_url accepting); reflexivity.
Defined.

(** X9 on a Delivery to one recipient out of a destination of two. *)
Lemma X9_witness :
  well_formed_notification delivery_event sns_notification two_addresses
  /\ exists events,
       @tracking_esp_to_anymail_events accepting delivery_event
         sns_notification = Ok events
       /\ List.length events = 1%nat.
Proof.
  assert (Hwf : well_formed_notification delivery_event sns_notification
                                         two_addresses)
    by well_formed_sample.
  split; [exact Hwf|].
  destruct (@X9_delivery_fan_out accepting delivery_event sns_notification
              _ delivery_detail [JStr "b@x.com"] Hwf eq_refl eq_refl
              eq_refl)
    as (events & Hrun & Hlen & _).
  exists events. split; [exact Hrun | exact Hlen].
Defined.

(** X10 on the sample Complaint. *)
Lemma X10_witness :
  well_formed_notification complaint_event sns_notification two_addresses
  /\ exists events,
       @tracking_esp_to_anymail_events accepting complaint_event
         sns_notification = Ok events
       /\ List.length events = 2%nat.
Proof.
  assert (Hwf : well_formed_notification complaint_event sns_notification
                                         two_addresses)
    by well_formed_sample.
  split; [exact Hwf|].
  destruct (@X10_complaint_fan_out accepting complaint_event
              sns_notification _ complaint_detail complaint_entries Hwf
              eq_refl eq_refl eq_refl)
    as (events & Hrun & Hlen & _).
  { repeat constructor; discriminate. }
  exists events. split; [exact Hrun | exact Hlen].
Defined.

(** X11 on the sample Send event, and on a Send event without mail. *)
Lemma X11_witness :
  (exists events,
      @tracking_esp_to_anymail_events accepting send_event sns_notification
      = Ok events
      /\ List.length events = 2%nat)
  /\ @tracking_esp_to_anymail_events accepting bare_send_event
       sns_notification = Ok [].
Proof.
  split.
  - assert (Hwf : well_formed_notification send_event sns_notification
                                           two_addresses)
      by well_formed_sample.
    destruct (@X11_send_per_destination accepting send_event
                sns_notification _ Hwf eq_refl)
      as (events & Hrun & Hlen & _).
    exists events. split; [exact Hrun | exact Hlen].
  - assert (Hwf : well_formed_notification bare_send_event sns_notification
                                           [])
      by well_formed_sample.
    destruct (@X11_send_per_destination accepting bare_send_event
                sns_notification _ Hwf eq_refl)
      as (events & Hrun & Hlen & _).
    destruct events; [exact Hrun | discriminate Hlen].
Defined.

(** X12 on the sample Click. *)
Lemma X12_witness :
  well_formed_notification click_event sns_notification two_addresses
  /\ exists events,
       @tracking_esp_to_anymail_events accepting click_event
         sns_notification = Ok events
       /\ List.length events = 2%nat.
Proof.
  assert (Hwf : well_formed_notification click_event sns_notification
                                         two_addresses)
    by well_formed_sample.
  split; [exact Hwf|].
  destruct (@X12_open_click_per_destination accepting click_event
              sns_notification _ click_detail Hwf) as (_ & Hclick).
  destruct (Hclick eq_refl eq_refl) as (events & Hrun & Hlen & _).
  exists events. split; [exact Hrun | exact Hlen].
Defined.

(** X13 on the sample Reject. *)
Lemma X13_witness :
  well_formed_notification reject_event sns_notification two_addresses
  /\ exists events,
       @tracking_esp_to_anymail_events accepting reject_event
         sns_notification = Ok events
       /\ List.length events = 2%nat.
Proof.
  assert (Hwf : well_formed_notification reject_event sns_notification
                                         two_addresses)
    by well_formed_sample.
  split; [exact Hwf|].
  destruct (@X13_reject accepting reject_event sns_notification _
              reject_detail Hwf eq_refl eq_refl) as (Hreason & _).
  destruct (Hreason _ eq_refl) as (events & Hrun & Hlen & _).
  exists events. split; [exact Hrun | exact Hlen].
Defined.

(** X14 on the sample Rendering Failure. *)
Lemma X14_witness :
  well_formed_notification (JObj rendering_failure_fields) sns_notification
                           two_addresses
  /\ exists events,
       @tracking_esp_to_anymail_events accepting
         (JObj rendering_failure_fields) sns_notification = Ok events
       /\ List.length events = 2%nat.
Proof.
  assert (Hwf : well_formed_notification (JObj rendering_failure_fields)
                                         sns_notification two_addresses)
    by well_formed_sample.
  split; [exact Hwf|].
  destruct (@X14_rendering_failure accepting rendering_failure_fields
              sns_notification _ Hwf eq_refl) as (Hfailure & _).
  destruct (Hfailure failure_detail _ eq_refl eq_refl)
    as (events & Hrun & Hlen & _).
  exists events. split; [exact Hrun | exact Hlen].
Defined.

(** X15 on a Bounce without bounceType. *)
Lemma X15_witness :
  well_formed_notification truncated_bounce_event sns_notification
                           two_addresses
  /\ @tracking_esp_to_anymail_events accepting truncated_bounce_event
       sns_notification = Raise (Builtin KeyError).
Proof.
  assert (Hwf : well_formed_notification truncated_bounce_event
                                         sns_notification two_addresses)
    by well_formed_sample.
  split; [exact Hwf|].
  apply (@X15_bounce_missing_field accepting truncated_bounce_event
           sns_notification _ truncated_bounce_detail Hwf eq_refl eq_refl).
  left. reflexivity.
Defined.

(** X16 on an event whose type is the number 7. *)
Lemma X16_witness :
  well_formed_notification numbered_event sns_notification two_addresses
  /\ @tracking_esp_to_anymail_events accepting numbered_event
       sns_notification = Raise (Builtin AttributeError).
Proof.
  assert (Hwf : well_formed_notification numbered_event sns_notification
                                         two_addresses)
    by well_formed_sample.
  split; [exact Hwf|].
  exact (@X16_event_type_not_str accepting numbered_event sns_notification
           _ (JInt 7) Hwf eq_refl eq_refl).
Defined.

(** X17 on the sample Send event, whose mail echoes one tag. *)
Lemma X17_witness :
  exists events,
    @tracking_esp_to_anymail_events accepting send_event sns_notification
    = Ok events
    /\ Forall (fun event => tags event = PyJson (JArr [JStr "welcome"]))
              events.
Proof.
  destruct (@tracking_esp_to_anymail_events accepting send_event
              sns_notification) as [events|e] eqn:Hrun;
    [|exfalso; vm_compute in Hrun; discriminate].
  exists events. split; [reflexivity|].
  destruct (@X17_tags_of_headers accepting) as (Htags & _).
  exact (Htags send_event sns_notification
               (mail_with bad_metadata_headers) bad_metadata_headers
               events Hrun eq_refl eq_refl).
Defined.

(** X18 on the sample Send event under three envelopes: a Timestamp that is
    a number raises a TypeError; one that names the 30th of February, and
    none at all, give the two events, without timestamp. *)
Lemma X18_witness :
  @tracking_esp_to_anymail_events accepting send_event
    (JObj numbered_timestamp) = Raise (Builtin TypeError)
  /\ (exists events,
         @tracking_esp_to_anymail_events accepting send_event
           (JObj impossible_timestamp) = Ok events
         /\ List.length events = 2%nat
         /\ Forall (fun event => timestamp event = PyNone) events)
  /\ (exists events,
         @tracking_esp_to_anymail_events accepting send_event
           (JObj anonymous_envelope) = Ok events
         /\ List.length events = 2%nat
         /\ Forall (fun event => timestamp event = PyNone) events).
Proof.
  split; [|split].
  - destruct (@X18_timestamp accepting send_event numbered_timestamp)
      as (_ & Hraise & _).
    exact (Hraise (JInt 1522087139) eq_refl eq_refl).
  - assert (Hwf : well_formed_notification send_event
                    (JObj impossible_timestamp) two_addresses)
      by well_formed_sample.
    destruct (@X18_timestamp accepting send_event impossible_timestamp)
      as (_ & _ & Hreturns).
    destruct (Hreturns two_addresses "Send" (JObj [])
                (update [] [("event_type", PyEventType EventType.SENT)])
                (default_recipient_props two_addresses)
                Hwf eq_refl eq_refl eq_refl)
      as (events & Hrun & Hlen & _ & _ & Hinvalid).
    exists events. split; [exact Hrun|]. split; [exact Hlen|].
    apply (Hinvalid "2018-02-30T10:00:00Z" eq_refl).
    intros t Ht. vm_compute in Ht. discriminate Ht.
  - assert (Hwf : well_formed_notification send_event
                    (JObj anonymous_envelope) two_addresses)
      by well_formed_sample.
    destruct (@X18_timestamp accepting send_event anonymous_envelope)
      as (_ & _ & Hreturns).
    destruct (Hreturns two_addresses "Send" (JObj [])
                (update [] [("event_type", PyEventType EventType.SENT)])
                (default_recipient_props two_addresses)
                Hwf eq_refl eq_refl eq_refl)
      as (events & Hrun & Hlen & _ & Habsent & _).
    exists events. split; [exact Hrun|]. split; [exact Hlen|].
    exact (Habsent eq_refl).
Defined.

(** X19 on the sample Bounce. *)
Lemma X19_witness :
  exists events,
    @tracking_esp_to_anymail_events accepting bounce_event sns_notification
    = Ok events
    /\ Forall (fun event =>
                 event_id event = PyJson (JStr "m8")
                 /\ message_id event = PyJson (JStr "msg8"))
              events.
Proof.
  destruct (@tracking_esp_to_anymail_events accepting bounce_event
              sns_notification) as [events|e] eqn:Hrun;
    [|exfalso; vm_compute in Hrun; discriminate].
  exists events. split; [reflexivity|].
  exact (@X19_event_and_message_id accepting bounce_event sns_notification
           (mail_with []) (JStr "m8") (JStr "msg8") events Hrun
           eq_refl eq_refl eq_refl).
Defined.
